(** * termiHub guided manual test runner: a shallow embedding of
    [scripts/test-manual.py] and the properties of its session engine.

    The script works on the values that YAML and JSON loading produce
    (dictionaries, lists, strings, numbers) and signals faults by raising
    exceptions.  Both are kept: values are [pyval], and every operation that
    can raise returns a [result]. *)

From Stdlib Require Import String Ascii List ZArith Bool Lia DecimalString.
Import ListNotations.
Local Set Warnings "-register-all".
Local Open Scope string_scope.
Local Open Scope Z_scope.

(** ** Values *)

(** What [yaml.safe_load] and [json.load] give back.  Dictionaries keep their
    keys in insertion order and are keyed by strings; floats and YAML dates
    are left out. *)
Inductive pyval : Type :=
| PNone
| PBool (b : bool)
| PInt (n : Z)
| PStr (s : string)
| PList (l : list pyval)
| PDict (d : list (string * pyval)).

(** ** Exceptions *)

Inductive exn_class : Type :=
| KeyError | TypeError | ValueError | AttributeError | OverflowError
| OSError | FileNotFoundError | PermissionError | IsADirectoryError
| ConnectionRefusedError | SocketTimeout
| JSONDecodeError | UnicodeDecodeError
| CalledProcessError | TimeoutExpired.

(** An exception instance: its class and the text [str(e)] gives. *)
Inductive exn : Type :=
| Exn (cls : exn_class) (msg : string).

Definition exn_cls (e : exn) : exn_class := let 'Exn c _ := e in c.
Definition exn_msg (e : exn) : string := let 'Exn _ m := e in m.

Definition exn_class_eqb (a b : exn_class) : bool :=
  match a, b with
  | KeyError, KeyError | TypeError, TypeError | ValueError, ValueError
  | AttributeError, AttributeError | OverflowError, OverflowError
  | OSError, OSError | FileNotFoundError, FileNotFoundError
  | PermissionError, PermissionError | IsADirectoryError, IsADirectoryError
  | ConnectionRefusedError, ConnectionRefusedError
  | SocketTimeout, SocketTimeout
  | JSONDecodeError, JSONDecodeError | UnicodeDecodeError, UnicodeDecodeError
  | CalledProcessError, CalledProcessError
  | TimeoutExpired, TimeoutExpired => true
  | _, _ => false
  end.

(** The direct base class inside the modelled part of the hierarchy. *)
Definition base_class (c : exn_class) : option exn_class :=
  match c with
  | FileNotFoundError | PermissionError | IsADirectoryError
  | ConnectionRefusedError | SocketTimeout => Some OSError
  | JSONDecodeError | UnicodeDecodeError => Some ValueError
  | _ => None
  end.

(** [issubclass(c, handler)]. The hierarchy has depth two. *)
Definition issubclass (c handler : exn_class) : bool :=
  exn_class_eqb c handler ||
  match base_class c with
  | Some b => exn_class_eqb b handler
  | None => false
  end.

(** Does an [except (h1, h2, ...)] clause catch [e]? *)
Definition caught (handlers : list exn_class) (e : exn) : bool :=
  existsb (issubclass (exn_cls e)) handlers.

(** ** Results of computations that may raise *)

Inductive result (A : Type) : Type :=
| Ok (a : A)
| Raise (e : exn).
Arguments Ok {A} a.
Arguments Raise {A} e.

Definition rbind {A B} (r : result A) (k : A -> result B) : result B :=
  match r with
  | Ok a => k a
  | Raise e => Raise e
  end.

Notation "x <-? e ;; k" := (rbind e (fun x => k))
  (at level 61, e at next level, right associativity).

(** ** Operations on values *)

Fixpoint lookup (k : string) (d : list (string * pyval)) : option pyval :=
  match d with
  | [] => None
  | (k', v) :: rest => if String.eqb k k' then Some v else lookup k rest
  end.

Definition quote (k : string) : string := "'" ++ k ++ "'".

(** [v[k]] for a string key [k]. *)
Definition getitem (v : pyval) (k : string) : result pyval :=
  match v with
  | PDict d =>
      match lookup k d with
      | Some x => Ok x
      | None => Raise (Exn KeyError (quote k))
      end
  | _ => Raise (Exn TypeError "")
  end.

(** [v.get(k, default)]. *)
Definition dict_get (v : pyval) (k : string) (default : pyval) : result pyval :=
  match v with
  | PDict d =>
      match lookup k d with
      | Some x => Ok x
      | None => Ok default
      end
  | _ => Raise (Exn AttributeError "")
  end.

(** [isinstance(v, dict)]. *)
Definition is_dict (v : pyval) : bool :=
  match v with PDict _ => true | _ => false end.

(** [v == s] for a string [s]. *)
Definition eq_str (v : pyval) (s : string) : bool :=
  match v with PStr s' => String.eqb s' s | _ => false end.

(** Truth value of a value, as [if v:] tests it. *)
Definition truthy (v : pyval) : bool :=
  match v with
  | PNone => false
  | PBool b => b
  | PInt n => negb (n =? 0)
  | PStr s => negb (String.eqb s "")
  | PList l => match l with [] => false | _ => true end
  | PDict d => match d with [] => false | _ => true end
  end.

(** Truth value of an optional command-line string. *)
Definition truthy_opt (o : option string) : bool :=
  match o with
  | Some s => negb (String.eqb s "")
  | None => false
  end.

Definition is_substring (sub s : string) : bool :=
  match String.index 0 sub s with Some _ => true | None => false end.

(** [s in container] for a string [s]: element of a list, substring of a
    string, key of a dictionary; other values are not containers. *)
Definition str_in (s : string) (container : pyval) : result bool :=
  match container with
  | PList l => Ok (existsb (fun x => eq_str x s) l)
  | PStr t => Ok (is_substring s t)
  | PDict d => Ok (existsb (fun kv => String.eqb (fst kv) s) d)
  | _ => Raise (Exn TypeError "")
  end.

(** ** Test selection ([filter_tests]) *)

(** The body of the loop of [filter_tests]: [true] when the test reaches
    [result.append(t)], [false] when one of the [continue]s is taken. *)
Definition filter_keep (current_platform : string)
    (category test_id : option string) (t : pyval) : result bool :=
  platforms <-? dict_get t "platforms" (PList [PStr "all"]) ;;
  here <-? str_in current_platform platforms ;;
  everywhere <-? (if here then Ok false else str_in "all" platforms) ;;
  if negb here && negb everywhere then Ok false else
  wrong_category <-?
    (if truthy_opt category then
       c <-? getitem t "_category" ;;
       Ok (negb (match category with Some s => eq_str c s | None => false end))
     else Ok false) ;;
  if wrong_category then Ok false else
  wrong_id <-?
    (if truthy_opt test_id then
       i <-? getitem t "id" ;;
       Ok (negb (match test_id with Some s => eq_str i s | None => false end))
     else Ok false) ;;
  if wrong_id then Ok false else Ok true.

Fixpoint filter_tests (tests : list pyval) (current_platform : string)
    (category test_id : option string) : result (list pyval) :=
  match tests with
  | [] => Ok []
  | t :: rest =>
      keep <-? filter_keep current_platform category test_id t ;;
      out <-? filter_tests rest current_platform category test_id ;;
      Ok (if keep then t :: out else out)
  end.

(** ** Text *)

Definition nl : string := String (ascii_of_nat 10) "".


Definition lower_ascii (c : ascii) : ascii :=
  let n := nat_of_ascii c in
  if (Nat.leb 65 n && Nat.leb n 90)%bool then ascii_of_nat (n + 32) else c.

(** [s.lower()] for ASCII [s]: the letters [A] to [Z] are mapped, every
    other byte is kept. *)
Fixpoint lower (s : string) : string :=
  match s with
  | EmptyString => EmptyString
  | String c r => String (lower_ascii c) (lower r)
  end.

(** The ASCII characters [str.strip()] removes; the blanks outside ASCII
    (such as U+00A0) are not recognised. *)
Definition is_space (c : ascii) : bool :=
  let n := nat_of_ascii c in
  (Nat.leb 9 n && Nat.leb n 13) || (Nat.leb 28 n && Nat.leb n 32).

Fixpoint lstrip (s : string) : string :=
  match s with
  | EmptyString => EmptyString
  | String c r => if is_space c then lstrip r else s
  end.

Fixpoint string_rev (s : string) : string :=
  match s with
  | EmptyString => EmptyString
  | String c r => string_rev r ++ String c EmptyString
  end.

(** [s.strip()] for ASCII [s]. *)
Definition strip (s : string) : string :=
  string_rev (lstrip (string_rev (lstrip s))).

(** [sep.join(parts)]. *)
Fixpoint join (sep : string) (parts : list string) : string :=
  match parts with
  | [] => ""
  | [p] => p
  | p :: rest => p ++ sep ++ join sep rest
  end.

(** Decimal numerals, as [str(n)] and [{n}] print them. *)
Definition dec (n : Z) : string := NilZero.string_of_int (Z.to_int n).

(** Fixed-width, zero-padded fields of [strftime] and [isoformat]. *)
Definition digit (d : nat) : ascii := ascii_of_nat (48 + d).

Definition two (n : nat) : string :=
  String (digit (n / 10)) (String (digit (n mod 10)) "").

Definition four (n : nat) : string :=
  String (digit (n / 1000)) (String (digit (n / 100 mod 10)) (two (n mod 100))).

Definition six (n : nat) : string :=
  two (n / 100 / 100) ++ two (n / 100 mod 100) ++ two (n mod 100).

(** ** Time *)

(** A reading of the clock: the UTC calendar fields that
    [datetime.now(timezone.utc)] carries and the POSIX time [time.time()]
    returns, in microseconds.  The calendar arithmetic between the two is the
    library's and is not modelled; neither is the rounding of floats. *)
Record instant : Type := {
  year : nat; month : nat; day : nat;
  hour : nat; minute : nat; second : nat; microsecond : nat;
  posix_us : Z
}.

(** [t.strftime("%Y-%m-%dT%H%M%S")]. *)
Definition strftime_compact (t : instant) : string :=
  four (year t) ++ "-" ++ two (month t) ++ "-" ++ two (day t) ++ "T"
  ++ two (hour t) ++ two (minute t) ++ two (second t).

(** [t.isoformat()] of an aware UTC datetime. *)
Definition isoformat (t : instant) : string :=
  four (year t) ++ "-" ++ two (month t) ++ "-" ++ two (day t) ++ "T"
  ++ two (hour t) ++ ":" ++ two (minute t) ++ ":" ++ two (second t)
  ++ (if Nat.eqb (microsecond t) 0 then "" else "." ++ six (microsecond t))
  ++ "+00:00".

(** [int(later - earlier)] for two [time.time()] readings. *)
Definition elapsed_seconds (earlier later : instant) : Z :=
  Z.quot (posix_us later - posix_us earlier) 1000000.

(** ** The environment *)

(** What [subprocess.run] returns. *)
Record completed : Type := { returncode : Z; stdout_text : string }.

(** The operating system, the file system, the network and the interpreter's
    own library, seen through the calls the script makes.  An answer may
    change from one call to the next, so every oracle takes the number of
    environment calls made so far. *)
Record env : Type := {
  repr : pyval -> string;                      (* str() of a list or dict *)
  int_of_string : string -> option Z;          (* int(s) for a string *)
  platform_system : string;                    (* platform.system() *)
  DOCKER_COMPOSE : string;
  utcnow : nat -> instant;                     (* the clock *)
  os_path_isfile : nat -> pyval -> result bool;
  os_path_exists : nat -> string -> bool;
  os_remove : nat -> string -> result unit;
  read_json : nat -> pyval -> result pyval;    (* open(path) and json.load *)
  write_json : nat -> string -> pyval -> result unit; (* open(path,"w") and json.dump *)
  mkdir : nat -> string -> result unit;
  mkdtemp : nat -> string -> result string;
  shutil_which : nat -> string -> bool;        (* shutil.which(x) is not None *)
  subprocess_run : nat -> list pyval -> result completed;
  subprocess_popen : nat -> list string -> result Z;
  create_connection : nat -> Z -> Z -> result unit (* port, timeout *)
}.

(** ** The state of a run *)

(** What the operator does at one [input()] call. *)
Inductive input_event : Type :=
| Line (s : string)     (* types a line *)
| CtrlC                 (* KeyboardInterrupt *)
| CtrlD.                (* EOFError *)

Inductive out_event : Type :=
| Printed (s : string)      (* print(s) *)
| Prompted (s : string).    (* the prompt of input(s) *)

(** The fields of the [Infrastructure] object. *)
Record Infrastructure : Type := {
  skip_infra : bool;
  keep_infra : bool;
  app_path : option string;
  docker_started : bool;
  socat_proc : option Z;
  app_proc : option Z;
  config_dir : option string
}.

Record world : Type := {
  tick : nat;                        (* environment calls made so far *)
  stdin : list input_event;          (* what the operator will still type;
                                        an exhausted list is end of file *)
  stdout : list out_event;           (* what was written, oldest first *)
  infra : Infrastructure;
  written : list (string * pyval)    (* files written, oldest first *)
}.

Definition bump (w : world) : world :=
  {| tick := S (tick w); stdin := stdin w; stdout := stdout w;
     infra := infra w; written := written w |}.

Definition emit (o : out_event) (w : world) : world :=
  {| tick := tick w; stdin := stdin w; stdout := stdout w ++ [o];
     infra := infra w; written := written w |}.

Definition set_stdin (l : list input_event) (w : world) : world :=
  {| tick := tick w; stdin := l; stdout := stdout w;
     infra := infra w; written := written w |}.

Definition set_infra (i : Infrastructure) (w : world) : world :=
  {| tick := tick w; stdin := stdin w; stdout := stdout w;
     infra := i; written := written w |}.

Definition record_write (path : string) (doc : pyval) (w : world) : world :=
  {| tick := tick w; stdin := stdin w; stdout := stdout w;
     infra := infra w; written := written w ++ [(path, doc)] |}.

(** ** Computations: state passing with exceptions *)

Definition M (A : Type) : Type := world -> result A * world.

Definition ret {A} (a : A) : M A := fun w => (Ok a, w).

Definition raise {A} (e : exn) : M A := fun w => (Raise e, w).

Definition bind {A B} (m : M A) (k : A -> M B) : M B :=
  fun w =>
    match m w with
    | (Ok a, w') => k a w'
    | (Raise e, w') => (Raise e, w')
    end.

Notation "x <- e ;; k" := (bind e (fun x => k))
  (at level 61, e at next level, right associativity).
Notation "e ;;; k" := (bind e (fun _ => k))
  (at level 61, right associativity).

Definition lift {A} (r : result A) : M A := fun w => (r, w).

(** [try: body except handlers as e: handler e]. *)
Definition try_except {A} (body : M A) (handlers : list exn_class)
    (handler : exn -> M A) : M A :=
  fun w =>
    match body w with
    | (Raise e, w') => if caught handlers e then handler e w' else (Raise e, w')
    | done => done
    end.

(** A call into the environment that cannot raise, and one that can. *)
Definition ask {A} (oracle : nat -> A) : M A :=
  fun w => (Ok (oracle (tick w)), bump w).

Definition call {A} (oracle : nat -> result A) : M A :=
  fun w => (oracle (tick w), bump w).

(** [time.sleep(_)]: the environment moves on. *)
Definition sleep : M unit := fun w => (Ok tt, bump w).

Definition print (s : string) : M unit := fun w => (Ok tt, emit (Printed s) w).

(** [get_input(prompt)]: [input(prompt).strip().lower()], with end of file
    and interrupt answered as [q]. *)
Definition get_input (prompt : string) : M string :=
  fun w =>
    let w' := emit (Prompted prompt) w in
    match stdin w with
    | Line s :: rest => (Ok (lower (strip s)), set_stdin rest w')
    | CtrlC :: rest => (Ok "q", set_stdin rest w')
    | CtrlD :: rest => (Ok "q", set_stdin rest w')
    | [] => (Ok "q", w')
    end.

(** A [for] loop whose body extends a list. *)
Fixpoint for_extend {A B} (body : A -> M (list B)) (items : list A) :
    M (list B) :=
  match items with
  | [] => ret []
  | x :: rest =>
      here <- body x ;;
      more <- for_extend body rest ;;
      ret (here ++ more)%list
  end.

(** ** Conversions the interpreter applies *)

Definition is_none (v : pyval) : bool :=
  match v with PNone => true | _ => false end.

(** The one-character strings a [for] loop over a string yields. *)
Fixpoint chars (s : string) : list pyval :=
  match s with
  | EmptyString => []
  | String c r => PStr (String c EmptyString) :: chars r
  end.

(** [iter(v)]: the items of a list, the characters of a string, the keys of a
    dictionary. *)
Definition py_iter (v : pyval) : result (list pyval) :=
  match v with
  | PList l => Ok l
  | PStr s => Ok (chars s)
  | PDict d => Ok (map (fun kv => PStr (fst kv)) d)
  | _ => Raise (Exn TypeError "")
  end.

(** [v + s] for a string literal [s]. *)
Definition add_str (v : pyval) (s : string) : result pyval :=
  match v with
  | PStr d => Ok (PStr (d ++ s))
  | _ => Raise (Exn TypeError "")
  end.

(** [v.lower()]. *)
Definition py_lower (v : pyval) : result string :=
  match v with
  | PStr s => Ok (lower s)
  | _ => Raise (Exn AttributeError "")
  end.

(** Nesting depth of a value. *)
Fixpoint depth (v : pyval) : nat :=
  match v with
  | PList l => S (fold_right (fun x n => Nat.max (depth x) n) O l)
  | PDict d => S (fold_right (fun kv n => Nat.max (depth (snd kv)) n) O d)
  | _ => O
  end.

(** One entry of the list [run_verification] returns. *)
Record check : Type := { description : pyval; passed : bool }.

Section Runner.

Variable E : env.

(** [str(v)], which is also what an f-string field prints. *)
Definition py_str (v : pyval) : string :=
  match v with
  | PNone => "None"
  | PBool true => "True"
  | PBool false => "False"
  | PInt n => dec n
  | PStr s => s
  | PList _ | PDict _ => repr E v
  end.

(** [int(v)]. *)
Definition py_int (v : pyval) : result Z :=
  match v with
  | PInt n => Ok n
  | PBool b => Ok (Z.b2z b)
  | PStr s =>
      match int_of_string E s with
      | Some n => Ok n
      | None => Raise (Exn ValueError "")
      end
  | _ => Raise (Exn TypeError "")
  end.

(** ** Verification engine ([run_verification]) *)

(** The recursion of [run_verification] goes through the [automated] entries
    of a [combined] dictionary; [fuel] bounds its depth, and
    [run_verification] below supplies more than the value can use. *)
Fixpoint run_verification_rec (fuel : nat) (verification : pyval) :
    M (list check) :=
  match fuel with
  | O => ret []
  | S fuel' =>
    if eq_str verification "manual" || is_none verification then ret [] else
    if negb (is_dict verification) then ret [] else
    vtype <- lift (dict_get verification "type" (PStr "")) ;;
    if eq_str vtype "file_exists" then
      path <- lift (getitem verification "path") ;;
      ok <- call (fun n => os_path_isfile E n path) ;;
      desc <- lift (dict_get verification "description"
                      (PStr ("File " ++ py_str path ++ " exists"))) ;;
      ret [ {| description := desc; passed := ok |} ]
    else if eq_str vtype "json_check" then
      path <- lift (getitem verification "path") ;;
      jq_expr <- lift (dict_get verification "jq" (PStr "")) ;;
      desc <- lift (dict_get verification "description"
                      (PStr ("JSON check: " ++ py_str jq_expr))) ;;
      try_except
        (call (fun n => read_json E n path) ;;;
         have_jq <- ask (fun n => shutil_which E n "jq") ;;
         if have_jq && truthy jq_expr then
           result <- call (fun n => subprocess_run E n
                             [PStr "jq"; PStr "-e"; jq_expr; path]) ;;
           ret [ {| description := desc;
                    passed := returncode result =? 0 |} ]
         else
           d <- lift (add_str desc " (jq not available — JSON valid)") ;;
           ret [ {| description := d; passed := true |} ])
        [JSONDecodeError; FileNotFoundError]
        (fun _ => ret [ {| description := desc; passed := false |} ])
    else if eq_str vtype "process_running" then
      name <- lift (getitem verification "name") ;;
      desc <- lift (dict_get verification "description"
                      (PStr ("Process '" ++ py_str name ++ "' is running"))) ;;
      try_except
        (ok <-
           (if String.eqb (platform_system E) "Windows" then
              result <- call (fun n => subprocess_run E n
                                [PStr "tasklist"; PStr "/FI";
                                 PStr ("IMAGENAME eq " ++ py_str name ++ "*")]) ;;
              lowered <- lift (py_lower name) ;;
              ret (is_substring lowered (lower (stdout_text result)))
            else
              result <- call (fun n => subprocess_run E n
                                [PStr "pgrep"; PStr "-f"; name]) ;;
              ret (returncode result =? 0)) ;;
         ret [ {| description := desc; passed := ok |} ])
        [FileNotFoundError]
        (fun _ => ret [ {| description := desc; passed := false |} ])
    else if eq_str vtype "port_listening" then
      raw <- lift (getitem verification "port") ;;
      port <- lift (py_int raw) ;;
      desc <- lift (dict_get verification "description"
                      (PStr ("Port " ++ dec port ++ " is listening"))) ;;
      try_except
        (call (fun n => create_connection E n port 2) ;;;
         ret [ {| description := desc; passed := true |} ])
        [ConnectionRefusedError; SocketTimeout; OSError]
        (fun _ => ret [ {| description := desc; passed := false |} ])
    else if eq_str vtype "combined" then
      automated <- lift (dict_get verification "automated" (PList [])) ;;
      items <- lift (py_iter automated) ;;
      for_extend (run_verification_rec fuel') items
    else ret []
  end.

Definition run_verification (verification : pyval) : M (list check) :=
  run_verification_rec (S (depth verification)) verification.

(** ** Collecting a verdict ([get_test_result]) *)

Definition dq : string := String (ascii_of_nat 34) "".

(** A [for] loop run for its effects. *)
Fixpoint for_each {A} (body : A -> M unit) (items : list A) : M unit :=
  match items with
  | [] => ret tt
  | x :: rest => body x ;;; for_each body rest
  end.

Definition or_note (note_text : string) (note : option string) :
    option string :=
  if String.eqb note_text "" then note else Some note_text.

(** The three lines that ask for a failure note and return [failed]. *)
Definition failed_with_note (note : option string) :
    M (string * option string) :=
  note_text <- get_input "  Failure note (optional): " ;;
  ret ("failed", or_note note_text note).

(** The confirmation that follows the display of the automated checks.
    [Some] is a [return]; [None] is falling out of the [if]/[elif] chain. *)
Definition confirm_checks (all_passed : bool) (note : option string) :
    M (option (string * option string)) :=
  if all_passed then
    print "  All checks passed. Press Enter to mark as pass, or [f]ail / [s]kip" ;;;
    confirm <- get_input "  > " ;;
    if String.eqb confirm "" || String.eqb confirm "p" then
      ret (Some ("passed", note))
    else if String.eqb confirm "f" then
      v <- failed_with_note note ;; ret (Some v)
    else if String.eqb confirm "s" then ret (Some ("skipped", note))
    else if String.eqb confirm "q" then ret (Some ("quit", note))
    else ret None
  else
    print "  Some checks failed. [p]ass anyway / [f]ail / [s]kip" ;;;
    confirm <- get_input "  > " ;;
    if String.eqb confirm "p" then ret (Some ("passed", note))
    else if String.eqb confirm "" || String.eqb confirm "f" then
      v <- failed_with_note note ;; ret (Some v)
    else if String.eqb confirm "s" then ret (Some ("skipped", note))
    else if String.eqb confirm "q" then ret (Some ("quit", note))
    else ret None.

(** The text printed for the manual part of a [combined] verification. *)
Definition manual_prompt_line (manual_prompt : pyval) : string :=
  nl ++ "  " ++ py_str manual_prompt ++ " [p]ass / [f]ail / [s]kip".

(** The block under [# Also handle combined manual prompt]. *)
Definition combined_prompt (verification : pyval) (note : option string) :
    M (option (string * option string)) :=
  if negb (is_dict verification) then ret None else
  vtype <- lift (dict_get verification "type" PNone) ;;
  if eq_str vtype "combined" then
    manual_prompt <- lift (dict_get verification "manual_prompt"
                             (PStr "Manual check passed?")) ;;
    print (manual_prompt_line manual_prompt) ;;;
    confirm <- get_input "  > " ;;
    if String.eqb confirm "" || String.eqb confirm "p" then
      ret (Some ("passed", note))
    else if String.eqb confirm "f" then
      v <- failed_with_note note ;; ret (Some v)
    else if String.eqb confirm "s" then ret (Some ("skipped", note))
    else if String.eqb confirm "q" then ret (Some ("quit", note))
    else ret None
  else ret None.

Definition print_check (c : check) : M unit :=
  print ("    [" ++ (if passed c then "pass" else "FAIL") ++ "] "
         ++ py_str (description c)).

(** The [while True] loop.  Every round reads at least one line, and a
    closed input answers [q], so the number of rounds is bounded by the
    input that is left; [fuel] counts rounds and [O] stands for the
    statement after the loop. *)
Fixpoint get_test_result_loop (fuel : nat) (test : pyval)
    (note : option string) : M (string * option string) :=
  match fuel with
  | O => ret ("skipped", note)
  | S fuel' =>
    verification <- lift (dict_get test "verification" (PStr "manual")) ;;
    let has_auto := is_dict verification in
    choice <- get_input (nl ++ "> ") ;;
    if String.eqb choice "p" then ret ("passed", note)
    else if String.eqb choice "f" then failed_with_note note
    else if String.eqb choice "s" then ret ("skipped", note)
    else if String.eqb choice "n" then
      note_text <- get_input "  Enter note: " ;;
      if String.eqb note_text "" then get_test_result_loop fuel' test note
      else
        print ("  Note recorded: " ++ dq ++ note_text ++ dq) ;;;
        get_test_result_loop fuel' test (Some note_text)
    else if String.eqb choice "q" then ret ("quit", note)
    else if String.eqb choice "" && has_auto then
      checks <- run_verification verification ;;
      match checks with
      | [] =>
          print "  No automated checks. [p]ass / [f]ail / [s]kip" ;;;
          get_test_result_loop fuel' test note
      | _ :: _ =>
          let all_passed := forallb passed checks in
          print "" ;;;
          print "  VERIFICATION:" ;;;
          for_each print_check checks ;;;
          print "" ;;;
          decided <- confirm_checks all_passed note ;;
          match decided with
          | Some verdict => ret verdict
          | None =>
              decided' <- combined_prompt verification note ;;
              match decided' with
              | Some verdict => ret verdict
              | None => get_test_result_loop fuel' test note
              end
          end
      end
    else if String.eqb choice "" then
      print "  [p]ass  [f]ail  [s]kip  [n]ote  [q]uit" ;;;
      get_test_result_loop fuel' test note
    else
      print "  Unknown input. [p]ass  [f]ail  [s]kip  [n]ote  [q]uit" ;;;
      get_test_result_loop fuel' test note
  end.

Definition get_test_result (test : pyval) : M (string * option string) :=
  fun w => get_test_result_loop (S (length (stdin w))) test None w.

(** ** Infrastructure *)

Definition self : M Infrastructure := fun w => (Ok (infra w), w).

Definition set_docker_started (b : bool) : M unit :=
  fun w =>
    let i := infra w in
    (Ok tt, set_infra {| skip_infra := skip_infra i; keep_infra := keep_infra i;
                         app_path := app_path i; docker_started := b;
                         socat_proc := socat_proc i; app_proc := app_proc i;
                         config_dir := config_dir i |} w).

Definition set_socat_proc (p : option Z) : M unit :=
  fun w =>
    let i := infra w in
    (Ok tt, set_infra {| skip_infra := skip_infra i; keep_infra := keep_infra i;
                         app_path := app_path i;
                         docker_started := docker_started i;
                         socat_proc := p; app_proc := app_proc i;
                         config_dir := config_dir i |} w).


(** [subprocess.run(argv, check=True)]. *)
Definition run_checked (argv : list pyval) : M completed :=
  r <- call (fun n => subprocess_run E n argv) ;;
  if returncode r =? 0 then ret r else raise (Exn CalledProcessError "").

Definition check_serial : M bool := ask (fun n => shutil_which E n "socat").

(** The [for i in range(timeout)] loop of [_wait_for_port], from round [i]
    with [todo] rounds to go; [false] when the loop runs out. *)
Fixpoint wait_for_port_rounds (todo : nat) (i : Z) (port : Z)
    (name : string) : M bool :=
  match todo with
  | O => ret false
  | S todo' =>
      ready <-
        try_except
          (call (fun n => create_connection E n port 1) ;;;
           print ("  " ++ name ++ " ready on port " ++ dec port ++ " ("
                  ++ dec (i + 1) ++ "s)") ;;;
           ret true)
          [ConnectionRefusedError; SocketTimeout; OSError]
          (fun _ => sleep ;;; ret false) ;;
      if ready then ret true
      else wait_for_port_rounds todo' (i + 1) port name
  end.

Definition _wait_for_port (port : Z) (name : string) (timeout : nat) :
    M bool :=
  ready <- wait_for_port_rounds timeout 0 port name ;;
  if ready then ret true
  else
    print ("  WARNING: " ++ name ++ " on port " ++ dec port
           ++ " not ready after " ++ dec (Z.of_nat timeout) ++ "s") ;;;
    ret false.

Definition start_docker : M bool :=
  me <- self ;;
  if skip_infra me || docker_started me then ret (docker_started me) else
  present <- ask (fun n => os_path_exists E n (DOCKER_COMPOSE E)) ;;
  if negb present then
    print ("  WARNING: " ++ DOCKER_COMPOSE E ++ " not found") ;;;
    ret false
  else
    print "  Starting Docker test containers..." ;;;
    try_except
      (run_checked [PStr "docker"; PStr "compose"; PStr "-f";
                    PStr (DOCKER_COMPOSE E); PStr "up"; PStr "-d";
                    PStr "--build"] ;;;
       set_docker_started true ;;;
       _wait_for_port 2201 "SSH" 30 ;;;
       ret true)
      [CalledProcessError]
      (fun _ => print "  ERROR: Failed to start Docker containers" ;;;
                ret false).

Definition remove_if_exists (p : string) : M unit :=
  present <- ask (fun n => os_path_exists E n p) ;;
  if present then call (fun n => os_remove E n p) else ret tt.

(** The [for _ in range(20)] loop of [start_serial]; [false] when the loop
    runs out. *)
Fixpoint wait_for_links (todo : nat) (pty_a pty_b : string) : M bool :=
  match todo with
  | O => ret false
  | S todo' =>
      a <- ask (fun n => os_path_exists E n pty_a) ;;
      b <- (if a then ask (fun n => os_path_exists E n pty_b) else ret false) ;;
      if a && b then ret true
      else sleep ;;; wait_for_links todo' pty_a pty_b
  end.

Definition start_serial : M bool :=
  me <- self ;;
  match socat_proc me with
  | Some _ => ret true
  | None =>
    available <- check_serial ;;
    if negb available then ret false else
    let pty_a := "/tmp/termihub-serial-a" in
    let pty_b := "/tmp/termihub-serial-b" in
    for_each remove_if_exists [pty_a; pty_b] ;;;
    try_except
      (proc <- call (fun n => subprocess_popen E n
                       ["socat"; "-d"; "-d";
                        "pty,raw,echo=0,link=" ++ pty_a;
                        "pty,raw,echo=0,link=" ++ pty_b]) ;;
       set_socat_proc (Some proc) ;;;
       appeared <- wait_for_links 20 pty_a pty_b ;;
       if appeared then ret true
       else
         print "  WARNING: Virtual serial ports did not appear" ;;;
         ret false)
      [FileNotFoundError]
      (fun _ => ret false)
  end.

(** ** Sets of hashable values *)

Definition hashable (v : pyval) : bool :=
  match v with PList _ | PDict _ => false | _ => true end.

(** Equality of two hashable values: [True == 1] and [False == 0]. *)
Definition key_eq (a b : pyval) : bool :=
  match a, b with
  | PNone, PNone => true
  | PStr s, PStr t => String.eqb s t
  | PInt m, PInt n => m =? n
  | PInt m, PBool c => m =? Z.b2z c
  | PBool c, PInt n => Z.b2z c =? n
  | PBool c, PBool d => Bool.eqb c d
  | _, _ => false
  end.

(** [x in s] for a set [s]. *)
Definition set_mem (x : pyval) (s : list pyval) : result bool :=
  if hashable x then Ok (existsb (key_eq x) s)
  else Raise (Exn TypeError "").

(** [s.add(x)]. *)
Definition set_add (x : pyval) (s : list pyval) : result (list pyval) :=
  if hashable x then Ok (if existsb (key_eq x) s then s else (s ++ [x])%list)
  else Raise (Exn TypeError "").

(** ** The connection bundle ([Infrastructure.generate_connections]) *)

Definition has_key (k : string) (v : pyval) : bool :=
  match v with
  | PDict d => existsb (fun kv => String.eqb (fst kv) k) d
  | _ => false
  end.

(** The body of the inner loop, on the pair [(connections, seen_names)]. *)
Definition connection_step (acc : list pyval * list pyval) (step : pyval) :
    result (list pyval * list pyval) :=
  let '(connections, seen_names) := acc in
  if is_dict step && has_key "create_connection" step then
    conn_def <-? getitem step "create_connection" ;;
    name <-? getitem conn_def "name" ;;
    dup <-? set_mem name seen_names ;;
    if dup then Ok acc else
    seen_names' <-? set_add name seen_names ;;
    type <-? getitem conn_def "type" ;;
    config <-? dict_get conn_def "config" (PDict []) ;;
    Ok ((connections ++
           [PDict [("type", PStr "connection");
                   ("name", name);
                   ("config", PDict [("type", type); ("config", config)])]])%list,
        seen_names')
  else Ok acc.

(** A [for] loop that updates an accumulator. *)
Fixpoint fold_result {A B} (body : A -> B -> result A) (acc : A)
    (items : list B) : result A :=
  match items with
  | [] => Ok acc
  | x :: rest => acc' <-? body acc x ;; fold_result body acc' rest
  end.

Definition connections_of_test (acc : list pyval * list pyval)
    (test : pyval) : result (list pyval * list pyval) :=
  setup <-? dict_get test "setup" (PList []) ;;
  steps <-? py_iter setup ;;
  fold_result connection_step acc steps.

(** The list [connections] when the two loops are done. *)
Definition collect_connections (tests : list pyval) : result (list pyval) :=
  acc <-? fold_result connections_of_test ([], []) tests ;;
  Ok (fst acc).



(** ** Reports ([build_report], [save_report], [load_resume]) *)

(** [sum(1 for r in results if r["status"] == status)]. *)
Fixpoint count_status (status : string) (results : list pyval) : result Z :=
  match results with
  | [] => Ok 0
  | r :: rest =>
      st <-? getitem r "status" ;;
      n <-? count_status status rest ;;
      Ok (if eq_str st status then 1 + n else n)
  end.

Definition build_report (results : list pyval) (plat arch os_version : string)
    (start_time : instant) : M pyval :=
  now <- ask (utcnow E) ;;
  let started := start_time in
  passed <- lift (count_status "passed" results) ;;
  failed <- lift (count_status "failed" results) ;;
  skipped <- lift (count_status "skipped" results) ;;
  not_run <- lift (count_status "not_run" results) ;;
  docker <- ask (fun n => shutil_which E n "docker") ;;
  socat <- ask (fun n => shutil_which E n "socat") ;;
  ret (PDict
    [("version", PStr "1");
     ("session", PDict
        [("id", PStr ("session-" ++ strftime_compact started));
         ("started_at", PStr (isoformat started));
         ("completed_at", PStr (isoformat now));
         ("duration_seconds", PInt (elapsed_seconds start_time now))]);
     ("environment", PDict
        [("platform", PStr plat);
         ("arch", PStr arch);
         ("os_version", PStr os_version);
         ("docker_available", PBool docker);
         ("serial_available", PBool socat)]);
     ("summary", PDict
        [("total", PInt (Z.of_nat (length results)));
         ("passed", PInt passed);
         ("failed", PInt failed);
         ("skipped", PInt skipped);
         ("not_run", PInt not_run)]);
     ("results", PList results)]).

(** The name [save_report] gives the file when the clock reads [now]. *)
Definition report_filename (now : instant) (plat arch : pyval) : string :=
  "manual-" ++ strftime_compact now ++ "-" ++ py_str plat ++ "-"
  ++ py_str arch ++ ".json".

(** [report_dir] is the directory as a string without a trailing slash, so
    that [report_dir / filename] is the two joined by a slash. *)
Definition save_report (report : pyval) (report_dir : string) : M string :=
  call (fun n => mkdir E n report_dir) ;;;
  environment <- lift (getitem report "environment") ;;
  plat <- lift (getitem environment "platform") ;;
  environment' <- lift (getitem report "environment") ;;
  arch <- lift (getitem environment' "arch") ;;
  now <- ask (utcnow E) ;;
  let filename := report_filename now plat arch in
  let path := report_dir ++ "/" ++ filename in
  call (fun n => write_json E n path report) ;;;
  (fun w => (Ok tt, record_write path report w)) ;;;
  ret path.

Definition is_completed_status (v : pyval) : bool :=
  eq_str v "passed" || eq_str v "failed" || eq_str v "skipped".

(** The body of the loop of [load_resume]. *)
Definition resume_step (completed : list pyval) (r : pyval) :
    result (list pyval) :=
  status <-? dict_get r "status" PNone ;;
  if is_completed_status status then
    id <-? getitem r "id" ;;
    set_add id completed
  else Ok completed.

(** [load_resume] once the file is parsed. *)
Definition completed_ids_of (report : pyval) : result (list pyval) :=
  results <-? dict_get report "results" (PList []) ;;
  entries <-? py_iter results ;;
  fold_result resume_step [] entries.

Definition load_resume (resume_path : string) : M (list pyval) :=
  report <- call (fun n => read_json E n (PStr resume_path)) ;;
  lift (completed_ids_of report).

(** The [# Resume support] block of [main]; [resume] is [args.resume]. *)
Definition resume_block (resume : option string) : M (list pyval) :=
  if truthy_opt resume then
    try_except
      (completed_ids <-
         load_resume (match resume with Some p => p | None => "" end) ;;
       print ("Resuming session: " ++ dec (Z.of_nat (length completed_ids))
              ++ " tests already completed") ;;;
       ret completed_ids)
      [FileNotFoundError; JSONDecodeError; KeyError]
      (fun e =>
         print ("WARNING: Could not load resume file: " ++ exn_msg e) ;;;
         ret [])
  else ret [].

(** ** The test card ([print_box], [print_test_card]) *)

Fixpoint repeat_string (s : string) (n : nat) : string :=
  match n with
  | O => ""
  | S n' => s ++ repeat_string s n'
  end.

(** [s.ljust(n)] for ASCII [s]: the length is counted in bytes. *)
Definition ljust (s : string) (n : nat) : string :=
  s ++ repeat_string " " (n - String.length s).

(** [print_box]; the slice [line[:width - 4]] and the padding count bytes,
    which are the characters of an ASCII line. *)
Definition print_box (lines : list string) (width : nat) : M unit :=
  let border := "+" ++ repeat_string "-" (width - 2) ++ "+" in
  print border ;;;
  for_each (fun line =>
              let padded := ljust (String.substring 0 (width - 4) line)
                                  (width - 4) in
              print ("| " ++ padded ++ " |")) lines ;;;
  print border.

Definition is_str (v : pyval) : bool :=
  match v with PStr _ => true | _ => false end.

(** [sep.join(v)]: every item must be a string. *)
Definition py_join (sep : string) (v : pyval) : result string :=
  items <-? py_iter v ;;
  if forallb is_str items then Ok (join sep (map py_str items))
  else Raise (Exn TypeError "").

(** The lines one setup entry adds to the card. *)
Definition setup_lines (step : pyval) : result (list string) :=
  if is_dict step then
    if has_key "create_connection" step then
      conn <-? getitem step "create_connection" ;;
      name <-? getitem conn "name" ;;
      Ok ["  [info] Pre-created connection: " ++ dq ++ py_str name ++ dq]
    else if has_key "connect" step then
      target <-? getitem step "connect" ;;
      Ok ["  [action] Double-click " ++ dq ++ py_str target ++ dq
          ++ " to connect"]
    else Ok ["  [info] " ++ py_str step]
  else if is_str step then Ok ["  [info] " ++ py_str step]
  else Ok [].

Fixpoint concat_results {A} (f : pyval -> result (list A))
    (items : list pyval) : result (list A) :=
  match items with
  | [] => Ok []
  | x :: rest =>
      here <-? f x ;;
      more <-? concat_results f rest ;;
      Ok (here ++ more)%list
  end.

(** [f"  {i}. {instr}"] over [enumerate(items, i)]. *)
Fixpoint numbered (i : Z) (items : list pyval) : list string :=
  match items with
  | [] => []
  | x :: rest => ("  " ++ dec i ++ ". " ++ py_str x) :: numbered (i + 1) rest
  end.

Definition card_lines (test : pyval) (index total : Z) :
    result (list string) :=
  tid <-? getitem test "id" ;;
  name <-? getitem test "name" ;;
  category <-? dict_get test "_category" (PStr "") ;;
  cat <-? dict_get test "_display_name" category ;;
  pr <-? dict_get test "pr" PNone ;;
  platforms_value <-? dict_get test "platforms" (PList [PStr "all"]) ;;
  platforms <-? py_join ", " platforms_value ;;
  let header := "[" ++ dec index ++ "/" ++ dec total ++ "]  " ++ py_str tid
                ++ "  " ++ py_str name in
  let meta := "Category: " ++ py_str cat ++ "   Platform: " ++ platforms in
  let meta := if truthy pr then meta ++ "   PR: #" ++ py_str pr else meta in
  setup <-? dict_get test "setup" (PList []) ;;
  setup_part <-?
    (if truthy setup then
       steps <-? py_iter setup ;;
       body <-? concat_results setup_lines steps ;;
       Ok (["SETUP:"] ++ body ++ [""])%list
     else Ok []) ;;
  instructions_value <-? dict_get test "instructions" (PList []) ;;
  instructions <-? py_iter instructions_value ;;
  expected_value <-? dict_get test "expected" (PList []) ;;
  expected <-? py_iter expected_value ;;
  verification <-? dict_get test "verification" (PStr "manual") ;;
  hint <-?
    (if eq_str verification "manual" then
       Ok ["RESULT: [p]ass  [f]ail  [s]kip  [n]ote  [q]uit"]
     else if is_dict verification then
       vtype <-? dict_get verification "type" (PStr "") ;;
       if eq_str vtype "combined" then
         Ok ["Press Enter to run automated checks, then confirm.";
             "[p]ass  [f]ail  [s]kip  [n]ote  [q]uit"]
       else
         Ok ["Press Enter to run automated verification.";
             "[p]ass  [f]ail  [s]kip  [n]ote  [q]uit"]
     else Ok []) ;;
  let expected_lines := map (fun e => "  - " ++ py_str e) expected in
  Ok ([header; meta; ""] ++ setup_part
      ++ ["INSTRUCTIONS:"] ++ numbered 1 instructions ++ [""]
      ++ ["EXPECTED:"] ++ expected_lines ++ [""]
      ++ hint)%list.

Definition print_test_card (test : pyval) (index total : Z) : M unit :=
  lines <- lift (card_lines test index total) ;;
  print "" ;;;
  print_box lines 66.

(** ** The session ([main], from [# Main test loop] to [# Final report]) *)

Definition note_value (note : option string) : pyval :=
  match note with
  | Some s => PStr s
  | None => PNone
  end.

(** The dictionary appended to [results]. *)
Definition result_entry (id name category : pyval) (status timestamp : string)
    (duration_seconds : Z) (note verification_type : pyval) : pyval :=
  PDict [("id", id);
         ("name", name);
         ("category", category);
         ("status", PStr status);
         ("timestamp", PStr timestamp);
         ("duration_seconds", PInt duration_seconds);
         ("note", note);
         ("verification_type", verification_type)].

(** The body of [for prereq in prereqs]. *)
Definition resolve_prerequisite (prereq : pyval) : M unit :=
  if negb (is_dict prereq) then ret tt else
  docker <- lift (dict_get prereq "docker" PNone) ;;
  me <- self ;;
  (if truthy docker && negb (skip_infra me) then
     if negb (docker_started me) then start_docker ;;; ret tt else ret tt
   else ret tt) ;;;
  serial <- lift (dict_get prereq "serial" PNone) ;;
  if truthy serial then start_serial ;;; ret tt else ret tt.

Section Session.

Variables plat arch os_version report_dir : string.
Variable start_time : instant.
Variable completed_ids : list pyval.
Variable total : Z.

(** The body of the main loop for test number [i]: the results so far with
    this test's entry appended, and whether the loop is left by [break]. *)
Definition run_test (results : list pyval) (i : Z) (test : pyval) :
    M (list pyval * bool) :=
  tid <- lift (getitem test "id") ;;
  resumed <- lift (set_mem tid completed_ids) ;;
  if resumed then
    id <- lift (getitem test "id") ;;
    name <- lift (getitem test "name") ;;
    category <- lift (getitem test "_category") ;;
    stamp <- ask (utcnow E) ;;
    ret ((results ++
            [result_entry id name category "skipped" (isoformat stamp) 0
               (PStr "Skipped (completed in previous session)")
               (PStr "resumed")])%list, false)
  else
    prereqs <- lift (dict_get test "prerequisites" (PList [])) ;;
    items <- lift (py_iter prereqs) ;;
    for_each resolve_prerequisite items ;;;
    test_start <- ask (utcnow E) ;;
    print_test_card test i total ;;;
    verdict <- get_test_result test ;;
    let (status, note) := verdict in
    if String.eqb status "quit" then
      id <- lift (getitem test "id") ;;
      name <- lift (getitem test "name") ;;
      category <- lift (getitem test "_category") ;;
      stamp <- ask (utcnow E) ;;
      finish <- ask (utcnow E) ;;
      verification <- lift (dict_get test "verification" (PStr "manual")) ;;
      ret ((results ++
              [result_entry id name category "not_run" (isoformat stamp)
                 (elapsed_seconds test_start finish) (note_value note)
                 (PStr (py_str verification))])%list, true)
    else
      verification <- lift (dict_get test "verification" (PStr "manual")) ;;
      vtype <-
        lift (if is_dict verification
              then dict_get verification "type" (PStr "automated")
              else Ok (PStr "manual")) ;;
      id <- lift (getitem test "id") ;;
      name <- lift (getitem test "name") ;;
      category <- lift (getitem test "_category") ;;
      stamp <- ask (utcnow E) ;;
      finish <- ask (utcnow E) ;;
      let results' :=
        (results ++
           [result_entry id name category status (isoformat stamp)
              (elapsed_seconds test_start finish) (note_value note) vtype])%list
      in
      partial_report <-
        build_report results' plat arch os_version start_time ;;
      save_report partial_report report_dir ;;;
      ret (results', false).

(** [for i, test in enumerate(filtered, 1)], from test number [i]; the
    boolean is [quit_requested]. *)
Fixpoint test_loop (results : list pyval) (i : Z) (tests : list pyval) :
    M (list pyval * bool) :=
  match tests with
  | [] => ret (results, false)
  | test :: rest =>
      step <- run_test results i test ;;
      let (results', quit_requested) := step in
      if quit_requested then ret (results', true)
      else test_loop results' (i + 1) rest
  end.

End Session.

(** [{r["id"] for r in results}]. *)
Definition result_ids (results : list pyval) : result (list pyval) :=
  fold_result (fun ids r => id <-? getitem r "id" ;; set_add id ids)
              [] results.

(** [t["id"] not in {r["id"] for r in results}]. *)
Definition has_no_result (t : pyval) (results : list pyval) : result bool :=
  tid <-? getitem t "id" ;;
  ids <-? result_ids results ;;
  found <-? set_mem tid ids ;;
  Ok (negb found).

(** [next((j for j, t in enumerate(tests, j) if ...), len(filtered))]. *)
Fixpoint first_without_result (tests : list pyval) (j : nat)
    (results : list pyval) : result nat :=
  match tests with
  | [] => Ok j
  | t :: rest =>
      missing <-? has_no_result t results ;;
      if missing then Ok j else first_without_result rest (S j) results
  end.

(** [for t in filtered[remaining_idx:]]. *)
Fixpoint mark_not_run (results : list pyval) (tests : list pyval) :
    M (list pyval) :=
  match tests with
  | [] => ret results
  | t :: rest =>
      missing <- lift (has_no_result t results) ;;
      if missing then
        id <- lift (getitem t "id") ;;
        name <- lift (getitem t "name") ;;
        category <- lift (getitem t "_category") ;;
        stamp <- ask (utcnow E) ;;
        verification <- lift (dict_get t "verification" (PStr "manual")) ;;
        mark_not_run
          (results ++
             [result_entry id name category "not_run" (isoformat stamp) 0
                PNone (PStr (py_str verification))])%list
          rest
      else mark_not_run results rest
  end.

(** The block under [# Mark remaining tests as not_run if quit early]. *)
Definition mark_remaining (quit_requested : bool) (filtered : list pyval)
    (results : list pyval) : M (list pyval) :=
  if quit_requested then
    remaining_idx <- lift (first_without_result filtered 0 results) ;;
    mark_not_run results (skipn remaining_idx filtered)
  else ret results.

(** The run of the tests: the final [results] and the path of the report. *)
Definition run_session (plat arch os_version report_dir : string)
    (completed_ids filtered : list pyval) : M (list pyval * string) :=
  start_time <- ask (utcnow E) ;;
  let total := Z.of_nat (length filtered) in
  outcome <- test_loop plat arch os_version report_dir start_time
               completed_ids total [] 1 filtered ;;
  let (results, quit_requested) := outcome in
  results <- mark_remaining quit_requested filtered results ;;
  report <- build_report results plat arch os_version start_time ;;
  report_path <- save_report report report_dir ;;
  ret (results, report_path).

End Runner.

(** ** Vocabulary of the statements *)

(** The platform tags of a test: the list under [platforms], or [["all"]]
    when the key is absent. *)
Definition platform_set (t : pyval) : list pyval :=
  match dict_get t "platforms" (PList [PStr "all"]) with
  | Ok (PList l) => l
  | _ => []
  end.

(** A test definition whose [platforms], when given, is a list. *)
Definition has_platform_list (t : pyval) : Prop :=
  exists l, dict_get t "platforms" (PList [PStr "all"]) = Ok (PList l).

Definition applies_to (p : string) (t : pyval) : Prop :=
  In (PStr "all") (platform_set t) \/ In (PStr p) (platform_set t).

(** The tags [run_verification] knows. *)
Definition known_types : list string :=
  ["file_exists"; "json_check"; "process_running"; "port_listening";
   "combined"].






(** The [description] of a check: the field of the verification value, or
    the text the engine makes up. *)
Definition described (d : list (string * pyval)) (fallback : string) :
    pyval :=
  match lookup "description" d with
  | Some x => x
  | None => PStr fallback
  end.

(** A call the engine makes into the environment for the single check [v],
    evaluated in [w], fails: reading the JSON file or running [jq] on it,
    running [pgrep] or [tasklist], or connecting to the port.  The last
    argument is the description the check carries. *)
Inductive call_fails (E : env) (w : world) : pyval -> pyval -> Prop :=
| fails_reading (d : list (string * pyval)) (path jq : pyval) (e : exn) :
    lookup "type" d = Some (PStr "json_check") ->
    lookup "path" d = Some path ->
    dict_get (PDict d) "jq" (PStr "") = Ok jq ->
    read_json E (tick w) path = Raise e ->
    call_fails E w (PDict d)
      (described d ("JSON check: " ++ py_str E jq))
| fails_jq (d : list (string * pyval)) (path jq doc : pyval) (e : exn) :
    lookup "type" d = Some (PStr "json_check") ->
    lookup "path" d = Some path ->
    dict_get (PDict d) "jq" (PStr "") = Ok jq ->
    read_json E (tick w) path = Ok doc ->
    shutil_which E (S (tick w)) "jq" = true ->
    truthy jq = true ->
    subprocess_run E (S (S (tick w))) [PStr "jq"; PStr "-e"; jq; path]
    = Raise e ->
    call_fails E w (PDict d)
      (described d ("JSON check: " ++ py_str E jq))
| fails_pgrep (d : list (string * pyval)) (name : pyval) (e : exn) :
    lookup "type" d = Some (PStr "process_running") ->
    lookup "name" d = Some name ->
    platform_system E <> "Windows" ->
    subprocess_run E (tick w) [PStr "pgrep"; PStr "-f"; name] = Raise e ->
    call_fails E w (PDict d)
      (described d ("Process '" ++ py_str E name ++ "' is running"))
| fails_tasklist (d : list (string * pyval)) (name : pyval) (e : exn) :
    lookup "type" d = Some (PStr "process_running") ->
    lookup "name" d = Some name ->
    platform_system E = "Windows" ->
    subprocess_run E (tick w)
      [PStr "tasklist"; PStr "/FI";
       PStr ("IMAGENAME eq " ++ py_str E name ++ "*")] = Raise e ->
    call_fails E w (PDict d)
      (described d ("Process '" ++ py_str E name ++ "' is running"))
| fails_port (d : list (string * pyval)) (port : Z) (e : exn) :
    lookup "type" d = Some (PStr "port_listening") ->
    lookup "port" d = Some (PInt port) ->
    create_connection E (tick w) port 2 = Raise e ->
    call_fails E w (PDict d)
      (described d ("Port " ++ dec port ++ " is listening")).













(** A computation that only consumes operator input: the input left after
    it is no longer than before. *)
Definition consumes_input {A} (m : M A) : Prop :=
  forall w, (length (stdin (snd (m w))) <= length (stdin w))%nat.

(** The statuses [get_test_result] returns. *)
Definition verdict_status (s : string) : Prop :=
  s = "passed" \/ s = "failed" \/ s = "skipped" \/ s = "quit".

(** The [id] of a test definition. *)
Definition test_id (t : pyval) : pyval :=
  match getitem t "id" with
  | Ok v => v
  | Raise _ => PNone
  end.

(** The test and the result entry carry the same [id], one a set can
    hold. *)
Definition same_id (t r : pyval) : Prop :=
  exists id, getitem t "id" = Ok id /\ getitem r "id" = Ok id /\
             hashable id = true.

(** The entry synthesized for a test completed in the resumed session. *)
Definition resume_skip (r : pyval) : Prop :=
  getitem r "status" = Ok (PStr "skipped") /\
  getitem r "duration_seconds" = Ok (PInt 0) /\
  getitem r "note" = Ok (PStr "Skipped (completed in previous session)") /\
  getitem r "verification_type" = Ok (PStr "resumed").

Section ResultKinds.

Variable E : env.
Variables plat arch os_version report_dir : string.
Variable start_time : instant.
Variable completed_ids : list pyval.
Variable total : Z.

(** What the loop body does with test number [i] before it asks for the
    verdict: the prerequisites, the reading of the clock and the test card.
    The world it leaves is the one [get_test_result] is called in. *)
Definition present (test : pyval) (i : Z) : M instant :=
  prereqs <- lift (dict_get test "prerequisites" (PList [])) ;;
  items <- lift (py_iter prereqs) ;;
  for_each (resolve_prerequisite E) items ;;;
  test_start <- ask (utcnow E) ;;
  print_test_card E test i total ;;;
  ret test_start.

(** The loop reaches test [t], number [i], in the world [w]; presented
    there, the operator's answer makes [get_test_result] return [status] and
    [note]. *)
Definition answered (t : pyval) (i : Z) (w : world) (status : string)
    (note : option string) : Prop :=
  exists test_start w1 w2,
    present t i w = (Ok test_start, w1) /\
    get_test_result E t w1 = (Ok (status, note), w2).

(** [r] is the entry of a test that the loop, reaching it as number [i] in
    the world [w], resolved: the synthesized skip when its id is in the
    resume set, and otherwise the verdict and the note [get_test_result]
    returned for it in this run. *)
Definition resolved (t r : pyval) (i : Z) (w : world) : Prop :=
  same_id t r /\
  ((set_mem (test_id t) completed_ids = Ok true /\ resume_skip r) \/
   (set_mem (test_id t) completed_ids = Ok false /\
    exists status note,
      answered t i w status note /\
      (status = "passed" \/ status = "failed" \/ status = "skipped") /\
      getitem r "status" = Ok (PStr status) /\
      getitem r "note" = Ok (note_value note))).

(** [r] is the entry of the test during which the operator quit: reached
    as number [i] in the world [w], [get_test_result] returned [quit] for
    it, and the entry is [not_run] with the note entered so far. *)
Definition interrupted (t r : pyval) (i : Z) (w : world) : Prop :=
  same_id t r /\
  set_mem (test_id t) completed_ids = Ok false /\
  (exists note, answered t i w "quit" note /\
                getitem r "note" = Ok (note_value note)) /\
  getitem r "status" = Ok (PStr "not_run").

(** The tests [tests] are resolved one after the other, from number [i] in
    the world [w] with [results] collected so far, and [done] are their
    entries: each test is met in the world the loop body left after the
    test before it, and [w'] is the world after the last. *)
Inductive resolved_in_turn :
    list pyval -> list pyval -> list pyval -> Z -> world -> world -> Prop :=
| turn_done (results : list pyval) (i : Z) (w : world) :
    resolved_in_turn [] [] results i w w
| turn_next (t : pyval) (tests : list pyval) (r : pyval) (done : list pyval)
    (results : list pyval) (i : Z) (w w1 w2 : world) :
    resolved t r i w ->
    run_test E plat arch os_version report_dir start_time completed_ids
      total results i t w = (Ok ((results ++ [r])%list, false), w1) ->
    resolved_in_turn tests done (results ++ [r])%list (i + 1) w1 w2 ->
    resolved_in_turn (t :: tests) (r :: done) results i w w2.

End ResultKinds.


(** The entries of a report document. *)
Definition report_entries (report : pyval) : list pyval :=
  match dict_get report "results" (PList []) with
  | Ok (PList l) => l
  | _ => []
  end.

(** An entry of a report: a dictionary with an [id] that can be put in a
    set. *)
Definition entry_shape (r : pyval) : Prop :=
  is_dict r = true /\
  exists id, getitem r "id" = Ok id /\ hashable id = true.

(** A report document: a dictionary whose [results], when given, is a list
    of entries. *)
Definition report_shape (report : pyval) : Prop :=
  exists entries,
    dict_get report "results" (PList []) = Ok (PList entries) /\
    Forall entry_shape entries.

(** The [status] of an entry, [None] when it has none. *)
Definition entry_status (r : pyval) : pyval :=
  match dict_get r "status" PNone with
  | Ok v => v
  | Raise _ => PNone
  end.

Definition completed_entry (r : pyval) : Prop :=
  entry_status r = PStr "passed" \/ entry_status r = PStr "failed" \/
  entry_status r = PStr "skipped".

(** The faults of the resume file that [main] answers with a warning: the
    file is missing, it is not JSON, or an entry with a completed status
    has no [id].  The exception is the one [load_resume] raises. *)
Inductive resume_fault (E : env) (path : string) (w : world) : exn -> Prop :=
| resume_missing (msg : string) :
    read_json E (tick w) (PStr path) = Raise (Exn FileNotFoundError msg) ->
    resume_fault E path w (Exn FileNotFoundError msg)
| resume_not_json (msg : string) :
    read_json E (tick w) (PStr path) = Raise (Exn JSONDecodeError msg) ->
    resume_fault E path w (Exn JSONDecodeError msg)
| resume_no_id (report : pyval) (before after : list pyval) (r : pyval) :
    read_json E (tick w) (PStr path) = Ok report ->
    dict_get report "results" (PList []) = Ok (PList (before ++ r :: after)) ->
    Forall entry_shape before ->
    is_dict r = true ->
    completed_entry r ->
    getitem r "id" = Raise (Exn KeyError (quote "id")) ->
    resume_fault E path w (Exn KeyError (quote "id")).

(** ** Sample data *)

(** A clock that starts on 1 January 2026 and moves one second per call. *)
Definition sample_clock (n : nat) : instant :=
  {| year := 2026; month := 1; day := 1;
     hour := (n / 3600) mod 24; minute := (n / 60) mod 60; second := n mod 60;
     microsecond := 0;
     posix_us := (1767225600 + Z.of_nat n) * 1000000 |}.

(** A machine with nothing installed and nothing on disk. *)
Definition bare_env : env :=
  {| repr := fun _ => "";
     int_of_string := fun _ => None;
     platform_system := "Linux";
     DOCKER_COMPOSE := "/repo/tests/docker/docker-compose.yml";
     utcnow := sample_clock;
     os_path_isfile := fun _ _ => Ok false;
     os_path_exists := fun _ _ => false;
     os_remove := fun _ _ => Ok tt;
     read_json := fun _ _ => Raise (Exn FileNotFoundError "");
     write_json := fun _ _ _ => Ok tt;
     mkdir := fun _ _ => Ok tt;
     mkdtemp := fun _ prefix => Ok ("/tmp/" ++ prefix ++ "0");
     shutil_which := fun _ _ => false;
     subprocess_run := fun _ _ => Raise (Exn FileNotFoundError "");
     subprocess_popen := fun _ _ => Raise (Exn FileNotFoundError "");
     create_connection := fun _ _ _ => Raise (Exn ConnectionRefusedError "") |}.

(** The bare machine, with [answer] for every attempt to read a JSON file. *)
Definition reading_env (answer : result pyval) : env :=
  {| repr := repr bare_env;
     int_of_string := int_of_string bare_env;
     platform_system := platform_system bare_env;
     DOCKER_COMPOSE := DOCKER_COMPOSE bare_env;
     utcnow := utcnow bare_env;
     os_path_isfile := os_path_isfile bare_env;
     os_path_exists := os_path_exists bare_env;
     os_remove := os_remove bare_env;
     read_json := fun _ _ => answer;
     write_json := write_json bare_env;
     mkdir := mkdir bare_env;
     mkdtemp := mkdtemp bare_env;
     shutil_which := shutil_which bare_env;
     subprocess_run := subprocess_run bare_env;
     subprocess_popen := subprocess_popen bare_env;
     create_connection := create_connection bare_env |}.

(** The bare machine, on which every path is a regular file. *)
Definition file_env : env :=
  {| repr := repr bare_env;
     int_of_string := int_of_string bare_env;
     platform_system := platform_system bare_env;
     DOCKER_COMPOSE := DOCKER_COMPOSE bare_env;
     utcnow := utcnow bare_env;
     os_path_isfile := fun _ _ => Ok true;
     os_path_exists := os_path_exists bare_env;
     os_remove := os_remove bare_env;
     read_json := read_json bare_env;
     write_json := write_json bare_env;
     mkdir := mkdir bare_env;
     mkdtemp := mkdtemp bare_env;
     shutil_which := shutil_which bare_env;
     subprocess_run := subprocess_run bare_env;
     subprocess_popen := subprocess_popen bare_env;
     create_connection := create_connection bare_env |}.

(** The report of scenario C, with a third test that was not run. *)
Definition scenario_C_report : pyval :=
  PDict [("version", PStr "1");
         ("results", PList
            [PDict [("id", PStr "T1"); ("status", PStr "passed")];
             PDict [("id", PStr "T2"); ("status", PStr "failed")];
             PDict [("id", PStr "T3"); ("status", PStr "not_run")]])].

(** A report in which a passed entry has lost its [id]. *)
Definition report_without_id : pyval :=
  PDict [("results", PList
            [PDict [("id", PStr "T1"); ("status", PStr "passed")];
             PDict [("name", PStr "second"); ("status", PStr "passed")]])].

(** [Infrastructure.__init__]. *)
Definition Infrastructure_init (skip_infra keep_infra : bool)
    (app_path : option string) : Infrastructure :=
  {| skip_infra := skip_infra; keep_infra := keep_infra;
     app_path := app_path; docker_started := false; socat_proc := None;
     app_proc := None; config_dir := None |}.

(** The start of a run in which the operator will type [inputs]. *)
Definition initial_world (inputs : list input_event) : world :=
  {| tick := 0; stdin := inputs; stdout := [];
     infra := Infrastructure_init false false None; written := [] |}.

Definition test_case (id : string) (fields : list (string * pyval)) : pyval :=
  PDict ([("id", PStr id); ("name", PStr ("Test " ++ id));
          ("_category", PStr "local")] ++ fields).

(** The catalog of scenario D: two tests declare a connection [A]. *)
Definition scenario_D : list pyval :=
  [test_case "T1"
     [("setup", PList
         [PDict [("create_connection",
                  PDict [("name", PStr "A"); ("type", PStr "ssh");
                         ("config", PDict [("host", PStr "first")])])]])];
   test_case "T2"
     [("setup", PList
         [PStr "Open the sidebar";
          PDict [("create_connection",
                  PDict [("name", PStr "A"); ("type", PStr "ssh");
                         ("config", PDict [("host", PStr "second")])])];
          PDict [("connect", PStr "A")]])]].

(** The part of a report [save_report] looks at. *)
Definition sample_report : pyval :=
  PDict [("version", PStr "1");
         ("environment", PDict [("platform", PStr "linux");
                                ("arch", PStr "x86_64")]);
         ("results", PList [])].


(** The value of a computation that did not raise. *)
Definition value_or {A} (default : A) (r : result A) : A :=
  match r with
  | Ok a => a
  | Raise _ => default
  end.

(** A catalog of three manual tests, and the run in which the operator
    passes the first and quits at the second. *)
Definition three_tests : list pyval :=
  [test_case "T1" []; test_case "T2" []; test_case "T3" []].

Definition quit_at_second : result (list pyval * bool) * world :=
  test_loop bare_env "linux" "x86_64" "Linux" "/reports" (sample_clock 0)
    [] 3 [] 1 three_tests (initial_world [Line "p"; Line "q"]).

Definition quit_at_second_results : list pyval :=
  fst (value_or ([], false) (fst quit_at_second)).

Definition quit_at_second_final : result (list pyval) * world :=
  mark_remaining bare_env true three_tests quit_at_second_results
    (snd quit_at_second).

(** A test with a [combined] verification: one automated check and a
    manual prompt. *)
Definition combined_test : pyval :=
  test_case "T1"
    [("verification",
      PDict [("type", PStr "combined");
             ("automated",
              PList [PDict [("type", PStr "file_exists");
                            ("path", PStr "/tmp/out.txt")]]);
             ("manual_prompt", PStr "Did the window open?")])].

(** A catalog in which two tests carry one id. *)
Definition twin_tests : list pyval :=
  [test_case "T1" []; test_case "T1" [("pr", PInt 7)]].

(** The check of scenario B. *)
Definition closed_port_check : pyval :=
  PDict [("type", PStr "port_listening"); ("port", PInt 9999)].

(** A world in which both subsystems are up. *)
Definition running_world : world :=
  {| tick := 7; stdin := []; stdout := [];
     infra := {| skip_infra := false; keep_infra := false; app_path := None;
                 docker_started := true; socat_proc := Some 4242;
                 app_proc := None; config_dir := None |};
     written := [] |}.

(** The catalog of scenario A. *)
Definition scenario_A : list pyval :=
  [test_case "T1" [("platforms", PList [PStr "linux"])];
   test_case "T2" [("platforms", PList [PStr "macos"])];
   test_case "T3" [("platforms", PList [PStr "all"])]].

(** ** What a computation leaves alone *)

(** Every run of [m] relates the world before to the world after by [R]. *)
Definition keeps {A} (R : world -> world -> Prop) (m : M A) : Prop :=
  forall w, R w (snd (m w)).

(** Only the count of environment calls may differ: nothing was read from
    the operator, printed, changed in the infrastructure or written. *)
Definition only_calls (w w' : world) : Prop :=
  stdin w' = stdin w /\ stdout w' = stdout w /\ infra w' = infra w /\
  written w' = written w.

(** No file was written. *)
Definition same_files (w w' : world) : Prop := written w' = written w.

(** Nothing but operator dialogue: no environment call, no change of the
    infrastructure, no file. *)
Definition only_dialogue (w w' : world) : Prop :=
  tick w' = tick w /\ infra w' = infra w /\ written w' = written w.


(** The world after [n] more environment calls and nothing else. *)
Definition after_calls (n : nat) (w : world) : world := Nat.iter n bump w.

(** Every failure to connect is an [OSError]. *)
Definition refusals_are_os_errors (E : env) : Prop :=
  forall n port timeout e,
    create_connection E n port timeout = Raise e ->
    issubclass (exn_cls e) OSError = true.


Definition port_ready (name : string) (port : Z) (i : nat) : string :=
  "  " ++ name ++ " ready on port " ++ dec port ++ " ("
  ++ dec (Z.of_nat i + 1) ++ "s)".

(** The command line of [docker compose up]. *)
Definition compose_up (E : env) : list pyval :=
  [PStr "docker"; PStr "compose"; PStr "-f"; PStr (DOCKER_COMPOSE E);
   PStr "up"; PStr "-d"; PStr "--build"].

(** ** More sample data *)

(** The bare machine with other answers about which paths exist, which tools
    are installed, what commands do and whether a port accepts. *)
Definition machine (exists_ which : nat -> string -> bool)
    (run : nat -> list pyval -> result completed)
    (popen : nat -> list string -> result Z)
    (connect : nat -> Z -> Z -> result unit) : env :=
  {| repr := repr bare_env;
     int_of_string := int_of_string bare_env;
     platform_system := platform_system bare_env;
     DOCKER_COMPOSE := DOCKER_COMPOSE bare_env;
     utcnow := utcnow bare_env;
     os_path_isfile := os_path_isfile bare_env;
     os_path_exists := exists_;
     os_remove := os_remove bare_env;
     read_json := read_json bare_env;
     write_json := write_json bare_env;
     mkdir := mkdir bare_env;
     mkdtemp := mkdtemp bare_env;
     shutil_which := which;
     subprocess_run := run;
     subprocess_popen := popen;
     create_connection := connect |}.

Definition refused : result unit := Raise (Exn ConnectionRefusedError "").

Definition succeeded : completed := {| returncode := 0; stdout_text := "" |}.

(** A port that accepts from the fifth environment call on. *)
Definition slow_port_env : env :=
  machine (fun _ _ => false) (fun _ _ => false)
    (fun _ _ => Raise (Exn FileNotFoundError ""))
    (fun _ _ => Raise (Exn FileNotFoundError ""))
    (fun n _ _ => if Nat.ltb n 4 then refused else Ok tt).

(** Docker is installed and the stack comes up, but no port ever accepts. *)
Definition docker_env : env :=
  machine (fun _ _ => true) (fun _ _ => true)
    (fun _ _ => Ok succeeded)
    (fun _ _ => Raise (Exn FileNotFoundError ""))
    (fun _ _ _ => refused).

(** The compose file is there, but every command fails with status 1. *)
Definition failing_docker_env : env :=
  machine (fun _ _ => true) (fun _ _ => true)
    (fun _ _ => Ok {| returncode := 1; stdout_text := "" |})
    (fun _ _ => Raise (Exn FileNotFoundError ""))
    (fun _ _ _ => refused).

(** socat is installed and starts, but its links never appear. *)
Definition stuck_socat_env : env :=
  machine (fun _ _ => false) (fun _ _ => true)
    (fun _ _ => Raise (Exn FileNotFoundError ""))
    (fun _ _ => Ok 4242)
    (fun _ _ _ => refused).

(** The command line of the serial bridge. *)
Definition socat_command : list string :=
  ["socat"; "-d"; "-d";
   "pty,raw,echo=0,link=/tmp/termihub-serial-a";
   "pty,raw,echo=0,link=/tmp/termihub-serial-b"].

(** A test the resumed session has already completed: it has the three
    fields its entry copies, and its [id] is in the resume set. *)
Definition already_completed (completed_ids : list pyval) (t : pyval) : Prop :=
  exists id name category,
    getitem t "id" = Ok id /\ getitem t "name" = Ok name /\
    getitem t "_category" = Ok category /\
    set_mem id completed_ids = Ok true.

(** The statuses a result entry can carry. *)
Definition has_result_status (r : pyval) : Prop :=
  exists status,
    getitem r "status" = Ok (PStr status) /\
    In status ["passed"; "failed"; "skipped"; "not_run"].

(** Two tests run to a verdict. *)
Definition two_verdicts : result (list pyval * bool) * world :=
  test_loop bare_env "linux" "x86_64" "Linux" "/reports" (sample_clock 0)
    [] 2 [] 1 [test_case "T1" []; test_case "T2" []]
    (initial_world [Line "p"; Line "s"]).

(** One test taken to a verdict. *)
Definition one_verdict : result (list pyval * bool) * world :=
  run_test bare_env "linux" "x86_64" "Linux" "/reports" (sample_clock 0)
    [] 1 [] 1 (test_case "T1" []) (initial_world [Line "p"]).

(** ** Loading the catalog ([load_tests]) *)

(** [d[k] = x] on the items of a dictionary: an existing key keeps its
    place, a new key goes to the end. *)
Fixpoint assign (k : string) (x : pyval) (d : list (string * pyval)) :
    list (string * pyval) :=
  match d with
  | [] => [(k, x)]
  | (k', v) :: rest =>
      if String.eqb k k' then (k, x) :: rest else (k', v) :: assign k x rest
  end.

(** [v[k] = x]; the value after the assignment. *)
Definition setitem (v : pyval) (k : string) (x : pyval) : result pyval :=
  match v with
  | PDict d => Ok (PDict (assign k x d))
  | _ => Raise (Exn TypeError "")
  end.

(** A [for] loop that appends one value per item. *)
Fixpoint map_result {A B} (f : A -> result B) (items : list A) :
    result (list B) :=
  match items with
  | [] => Ok []
  | x :: rest =>
      y <-? f x ;;
      ys <-? map_result f rest ;;
      Ok (y :: ys)
  end.

(** The two assignments of the inner loop. *)
Definition tag_test (category display_name test : pyval) : result pyval :=
  tagged <-? setitem test "_category" category ;;
  setitem tagged "_display_name" display_name.

(** The body of the outer loop, for one file: its stem, and what
    [yaml.safe_load] gives for it or what opening and parsing it raises.
    Tests are values here; two tests that are one object through a YAML alias
    are not modelled. *)
Definition load_file (file : string * result pyval) : result (list pyval) :=
  let (stem, loaded) := file in
  data <-? loaded ;;
  if negb (truthy data) then Ok [] else
  has_tests <-? str_in "tests" data ;;
  if negb has_tests then Ok [] else
  category <-? dict_get data "category" (PStr stem) ;;
  display_name <-? dict_get data "display_name" category ;;
  tests_value <-? getitem data "tests" ;;
  tests <-? py_iter tests_value ;;
  map_result (tag_test category display_name) tests.

(** [load_tests], over the files [sorted(tests_dir.glob("*.yaml"))] lists. *)
Fixpoint load_tests (files : list (string * result pyval)) :
    result (list pyval) :=
  match files with
  | [] => Ok []
  | file :: rest =>
      here <-? load_file file ;;
      more <-? load_tests rest ;;
      Ok (here ++ more)%list
  end.

(** The tests a file holds, as written in it. *)
Definition tests_in_file (data : pyval) : list pyval :=
  match getitem data "tests" with
  | Ok v => match py_iter v with Ok l => l | Raise _ => [] end
  | Raise _ => []
  end.

(** A catalog of two files; the second names no category. *)
Definition sample_files : list (string * result pyval) :=
  [("local-shell",
    Ok (PDict [("category", PStr "local");
               ("display_name", PStr "Local shell");
               ("tests", PList [PDict [("id", PStr "MT-LOCAL-01");
                                       ("name", PStr "Open a shell")];
                                PDict [("id", PStr "MT-LOCAL-02");
                                       ("name", PStr "Close a shell");
                                       ("platforms",
                                        PList [PStr "linux"])]])]));
   ("notes", Ok PNone);
   ("serial",
    Ok (PDict [("tests", PList [PDict [("id", PStr "MT-SER-01");
                                       ("name", PStr "Echo");
                                       ("_category", PStr "mine")]])]))].

(** [t] is [original] with the two tags set: every other key reads the
    same. *)
Definition tagged_copy (original t : pyval) : Prop :=
  forall k, k <> "_category" -> k <> "_display_name" ->
            getitem t k = getitem original k.

(** The tests of all the files that were read, as written in them. *)
Definition tests_as_written (files : list (string * result pyval)) :
    list pyval :=
  flat_map (fun file => match snd file with
                        | Ok data => tests_in_file data
                        | Raise _ => []
                        end) files.

(** [platforms], where a test has it, is a list. *)
Definition platforms_listed (t : pyval) : Prop :=
  forall v, getitem t "platforms" = Ok v -> exists tags, v = PList tags.

(** With [skip_infra] set, the Docker side of the infrastructure stays as
    it is: the flag stays set and [docker_started] keeps its value. *)
Definition docker_idle (w w' : world) : Prop :=
  skip_infra (infra w) = true ->
  skip_infra (infra w') = true /\
  docker_started (infra w') = docker_started (infra w).

(** A test that asks for the Docker stack, and a session over it with
    [skip_infra] set in which the operator passes it. *)
Definition docker_test : pyval :=
  test_case "T1" [("prerequisites", PList [PDict [("docker", PBool true)]])].

Definition skipping_world (typed : list input_event) : world :=
  {| tick := 0; stdin := typed; stdout := [];
     infra := Infrastructure_init true false None; written := [] |}.

Definition skipping_session : result (list pyval * string) * world :=
  run_session docker_env "linux" "x86_64" "Linux" "/reports" [] [docker_test]
    (skipping_world [Line "p"]).

(** ** Probing and tearing down ([check_docker], [cleanup]) *)


(** What the operating system answers about the processes the runner
    started and about directories; like the oracles of [env], each answer
    depends on the number of environment calls made before it. *)
Record host : Type := {
  proc_poll : nat -> Z -> option Z;          (* p.poll(); None while it runs *)
  proc_terminate : nat -> Z -> result unit;  (* p.terminate() *)
  proc_wait : nat -> Z -> Z -> result Z;     (* p.wait(timeout=t) *)
  proc_kill : nat -> Z -> result unit;       (* p.kill() *)
  os_path_isdir : nat -> string -> bool
}.

(** [p.terminate()], then [p.wait(timeout=5)] with [p.kill()] when the wait
    times out. *)
Definition stop_process (H : host) (p : Z) : M unit :=
  call (fun n => proc_terminate H n p) ;;;
  try_except
    (call (fun n => proc_wait H n p 5) ;;; ret tt)
    [TimeoutExpired]
    (fun _ => call (fun n => proc_kill H n p)).

(** [shutil.rmtree(path, ignore_errors=True)]: a call that cannot raise. *)
Definition rmtree (path : string) : M unit := sleep.

(** The command line of [docker compose down]. *)
Definition compose_down (E : env) : list pyval :=
  [PStr "docker"; PStr "compose"; PStr "-f"; PStr (DOCKER_COMPOSE E);
   PStr "down"].

Definition cleanup (E : env) (H : host) : M unit :=
  me <- self ;;
  (match socat_proc me with
   | Some p =>
       status <- ask (fun n => proc_poll H n p) ;;
       match status with
       | None =>
           stop_process H p ;;;
           for_each (remove_if_exists E)
             ["/tmp/termihub-serial-a"; "/tmp/termihub-serial-b"]
       | Some _ => ret tt
       end
   | None => ret tt
   end) ;;;
  (match app_proc me with
   | Some p =>
       status <- ask (fun n => proc_poll H n p) ;;
       match status with
       | None => stop_process H p
       | Some _ => ret tt
       end
   | None => ret tt
   end) ;;;
  (if docker_started me && negb (keep_infra me) then
     print "  Stopping Docker containers..." ;;;
     call (fun n => subprocess_run E n (compose_down E)) ;;;
     ret tt
   else if keep_infra me && docker_started me then
     print "  Keeping Docker containers running (--keep-infra)."
   else ret tt) ;;;
  match config_dir me with
  | Some dir =>
      if negb (String.eqb dir "") then
        is_dir <- ask (fun n => os_path_isdir H n dir) ;;
        if is_dir then rmtree dir else ret tt
      else ret tt
  | None => ret tt
  end.

(** A host on which every process is still running and stops when asked. *)
Definition obliging_host : host :=
  {| proc_poll := fun _ _ => None;
     proc_terminate := fun _ _ => Ok tt;
     proc_wait := fun _ _ _ => Ok 0;
     proc_kill := fun _ _ => Ok tt;
     os_path_isdir := fun _ _ => true |}.

(** The same host, but no process stops within the time given. *)
Definition stubborn_host : host :=
  {| proc_poll := fun _ _ => None;
     proc_terminate := fun _ _ => Ok tt;
     proc_wait := fun _ _ _ => Raise (Exn TimeoutExpired "");
     proc_kill := fun _ _ => Ok tt;
     os_path_isdir := fun _ _ => true |}.

(** A world in which everything was started. *)
Definition busy_world : world :=
  {| tick := 0; stdin := []; stdout := [];
     infra := {| skip_infra := false; keep_infra := false; app_path := None;
                 docker_started := true; socat_proc := Some 4242;
                 app_proc := Some 4343; config_dir := Some "/tmp/cfg" |};
     written := [] |}.

(** [m] returns, whatever the world it runs in. *)
Definition succeeds {A} (m : M A) : Prop :=
  forall w, exists a, fst (m w) = Ok a.

(** Only environment calls and printing: the operator's input, the
    infrastructure record and the files written are as before. *)
Definition only_calls_and_prints (w w' : world) : Prop :=
  stdin w' = stdin w /\ infra w' = infra w /\ written w' = written w.

(** Nothing was printed. *)
Definition same_output (w w' : world) : Prop := stdout w' = stdout w.

(** The processes of the host can be stopped: [terminate] and [kill] go
    through, and a [wait] fails only by timing out. *)
Definition stoppable (H : host) : Prop :=
  (forall n p, proc_terminate H n p = Ok tt) /\
  (forall n p, proc_kill H n p = Ok tt) /\
  (forall n p t e, proc_wait H n p t = Raise e -> exn_cls e = TimeoutExpired).

(** Files can be removed and commands run. *)
Definition tidy (E : env) : Prop :=
  (forall n p, os_remove E n p = Ok tt) /\
  (forall n argv, exists r, subprocess_run E n argv = Ok r).

(** * Properties *)

(** ** Generic facts *)

Lemma eq_str_true (v : pyval) (s : string) :
  eq_str v s = true <-> v = PStr s.
Proof.
  destruct v; simpl; split; try discriminate.
  - intros H. apply String.eqb_eq in H. now subst.
  - intros H. injection H as ->. apply String.eqb_refl.
Qed.

Lemma existsb_eq_str (s : string) (l : list pyval) :
  existsb (fun x => eq_str x s) l = true <-> In (PStr s) l.
Proof.
  rewrite existsb_exists. split.
  - intros (x & Hin & Hx). apply eq_str_true in Hx. now subst.
  - intros Hin. exists (PStr s). split; [assumption | now apply eq_str_true].
Qed.

(** ** Test selection *)

Lemma filter_keep_platform (p : string) (t : pyval) :
  has_platform_list t ->
  exists b, filter_keep p None None t = Ok b /\ (b = true <-> applies_to p t).
Proof.
  intros (l & Hl). unfold filter_keep, applies_to, platform_set.
  rewrite Hl. cbn [rbind str_in truthy_opt].
  destruct (existsb (fun x => eq_str x p) l) eqn:Hp; cbn [rbind negb andb].
  - exists true. split; [reflexivity |].
    split; [intros _ | reflexivity]. right. now apply existsb_eq_str.
  - destruct (existsb (fun x => eq_str x "all") l) eqn:Ha; cbn [rbind negb andb].
    + exists true. split; [reflexivity |].
      split; [intros _ | reflexivity]. left. now apply existsb_eq_str.
    + exists false. split; [reflexivity |].
      split; [discriminate |]. intros [H | H]; apply existsb_eq_str in H; congruence.
Qed.

(** C6. With no category and no id filter, [filter_tests] keeps exactly the
    tests whose platform set holds ["all"] or the current platform, in the
    order of the input. *)
Theorem filter_tests_by_platform (tests : list pyval) (p : string) :
  Forall has_platform_list tests ->
  exists keep : pyval -> bool,
    filter_tests tests p None None = Ok (filter keep tests) /\
    forall t, In t tests -> (keep t = true <-> applies_to p t).
Proof.
  intros Hshape.
  exists (fun t => match filter_keep p None None t with
                   | Ok b => b
                   | Raise _ => false
                   end).
  split.
  - induction Hshape as [| t rest Ht _ IH]; [reflexivity |].
    destruct (filter_keep_platform p t Ht) as (b & Hb & _).
    cbn [filter_tests filter]. rewrite Hb, IH. cbn [rbind]. reflexivity.
  - intros t Hin. rewrite Forall_forall in Hshape.
    destruct (filter_keep_platform p t (Hshape t Hin)) as (b & Hb & Hiff).
    now rewrite Hb.
Qed.

Lemma filter_tests_by_platform_witness :
  exists keep : pyval -> bool,
    filter_tests scenario_A "linux" None None = Ok (filter keep scenario_A) /\
    forall t, In t scenario_A -> (keep t = true <-> applies_to "linux" t).
Proof.
  apply (filter_tests_by_platform scenario_A "linux").
  repeat constructor; eexists; reflexivity.
Defined.

(** Scenario A: filtering for [linux] keeps [T1] and [T3], in that order. *)
Example filter_scenario_A :
  filter_tests scenario_A "linux" None None =
  Ok [test_case "T1" [("platforms", PList [PStr "linux"])];
      test_case "T3" [("platforms", PList [PStr "all"])]].
Proof. reflexivity. Qed.

(** ** Verification engine *)

(** C10. A dictionary whose [type] is absent or is none of the five known
    tags yields the empty check list, with no effect and no error. *)
Theorem run_verification_unknown_type (E : env) (d : list (string * pyval))
    (w : world) :
  lookup "type" d = None \/
  (exists v, lookup "type" d = Some v /\
             forall s, In s known_types -> v <> PStr s) ->
  run_verification E (PDict d) w = (Ok [], w).
Proof.
  intros H. unfold run_verification. cbn [run_verification_rec].
  cbn [eq_str is_none orb is_dict negb dict_get].
  assert (Hv : exists v, (match lookup "type" d with
                          | Some x => Ok x
                          | None => Ok (PStr "")
                          end) = Ok v /\
                         forall s, In s known_types -> eq_str v s = false).
  { destruct H as [H | (v & H & Hv)]; rewrite H.
    - exists (PStr ""). split; [reflexivity |].
      intros s Hs. cbn in Hs.
      repeat (destruct Hs as [<- | Hs]; [reflexivity |]). contradiction.
    - exists v. split; [reflexivity |].
      intros s Hs. destruct (eq_str v s) eqn:Heq; [| reflexivity].
      apply eq_str_true in Heq. now elim (Hv s Hs). }
  destruct Hv as (v & -> & Hv).
  unfold bind, lift.
  rewrite !Hv by (cbn; tauto). reflexivity.
Qed.

Lemma run_verification_unknown_type_witness :
  run_verification bare_env
    (PDict [("type", PStr "screenshot"); ("path", PStr "/tmp/shot.png")])
    (initial_world [])
  = (Ok [], initial_world []).
Proof.
  apply run_verification_unknown_type.
  right. exists (PStr "screenshot"). split; [reflexivity |].
  intros s Hs. cbn in Hs.
  repeat (destruct Hs as [<- | Hs]; [discriminate |]). contradiction.
Defined.








Ltac pick_tag := cbn [eq_str String.eqb Ascii.eqb Bool.eqb].






Lemma depth_lookup (k : string) (d : list (string * pyval)) (x : pyval) :
  lookup k d = Some x -> (depth x < depth (PDict d))%nat.
Proof.
  cbn [depth]. induction d as [| [k' v] rest IH]; [discriminate |].
  cbn [lookup fold_right snd]. destruct (String.eqb k k').
  - intros [= ->]. lia.
  - intros H. specialize (IH H). lia.
Qed.

Lemma depth_iter (v : pyval) (items : list pyval) (x : pyval) :
  py_iter v = Ok items -> In x items -> (depth x <= depth v)%nat.
Proof.
  destruct v as [| | | s | l | d]; try discriminate; intros [= <-] Hin.
  - assert (depth x = O) as ->; [| lia].
    induction s as [| c r IH]; [contradiction |].
    destruct Hin as [<- | Hin]; [reflexivity | now apply IH].
  - cbn [depth]. induction l as [| y rest IH]; [contradiction |].
    cbn [fold_right]. destruct Hin as [<- | Hin]; [lia |].
    specialize (IH Hin). lia.
  - apply in_map_iff in Hin. destruct Hin as (kv & <- & _). cbn. lia.
Qed.

Lemma for_extend_ext {A B} (f g : A -> M (list B)) (items : list A) :
  (forall x, In x items -> forall w, f x w = g x w) ->
  forall w, for_extend f items w = for_extend g items w.
Proof.
  induction items as [| x rest IH]; intros H w; [reflexivity |].
  cbn [for_extend]. unfold bind. rewrite (H x (or_introl eq_refl) w).
  destruct (g x w) as [[c | e] w1]; [| reflexivity].
  rewrite (IH (fun y Hy => H y (or_intror Hy)) w1). reflexivity.
Qed.

Lemma bind_ext {A B} (m : M A) (k1 k2 : A -> M B) (w : world) :
  (forall a w', m w = (Ok a, w') -> k1 a w' = k2 a w') ->
  bind m k1 w = bind m k2 w.
Proof.
  intros H. unfold bind. destruct (m w) as [[a | e] w']; [| reflexivity].
  now apply H.
Qed.

(** The fuel [run_verification] supplies is enough: any two amounts above
    the depth of the value give the same run. *)
Lemma run_verification_rec_fuel (E : env) (f1 f2 : nat) :
  forall v w,
    (depth v < f1)%nat -> (depth v < f2)%nat ->
    run_verification_rec E f1 v w = run_verification_rec E f2 v w.
Proof.
  revert f2. induction f1 as [| f1 IH]; intros f2 v w H1 H2; [lia |].
  destruct f2 as [| f2]; [lia |].
  cbn [run_verification_rec].
  destruct (eq_str v "manual" || is_none v); [reflexivity |].
  destruct (negb (is_dict v)) eqn:Hdict; [reflexivity |].
  destruct v as [| | | | | d]; try discriminate.
  apply bind_ext. intros vtype w1 _.
  repeat match goal with
         | |- (if ?c then _ else _) _ = _ => destruct c; [reflexivity |]
         end.
  destruct (eq_str vtype "combined"); [| reflexivity].
  apply bind_ext. intros a w2 Ha. apply bind_ext. intros items w3 Hiter.
  apply for_extend_ext. intros x Hx w0.
  unfold lift in Ha, Hiter. injection Ha as Ha _. injection Hiter as Hiter _.
  cbn [dict_get] in Ha. destruct (lookup "automated" d) eqn:Hl.
  - injection Ha as ->. pose proof (depth_lookup _ _ _ Hl).
    pose proof (depth_iter _ _ _ Hiter Hx). apply IH; lia.
  - injection Ha as <-. injection Hiter as <-. contradiction.
Qed.







(** In the bare environment the port of scenario B refuses: the call made
    for the check fails. *)
Example closed_port_call_fails :
  call_fails bare_env (initial_world []) closed_port_check
    (PStr "Port 9999 is listening").
Proof.
  apply (fails_port bare_env (initial_world [])
           [("type", PStr "port_listening"); ("port", PInt 9999)] 9999
           (Exn ConnectionRefusedError "")); reflexivity.
Qed.

(** Scenario B: a closed port gives one check, not passed. *)
Example closed_port_scenario_B :
  run_verification bare_env closed_port_check (initial_world [])
  = (Ok [{| description := PStr "Port 9999 is listening"; passed := false |}],
     bump (initial_world [])).
Proof. reflexivity. Qed.


(** A value without the field its tag needs raises as well. *)
Example file_exists_without_path_raises :
  run_verification bare_env (PDict [("type", PStr "file_exists")])
    (initial_world [])
  = (Raise (Exn KeyError (quote "path")), initial_world []).
Proof. reflexivity. Qed.

(** ** Infrastructure *)

(** C9. Starting what is already started does nothing: [start_docker]
    with [skip_infra] or [docker_started] set returns the current
    [docker_started] and leaves the whole state as it was, and
    [start_serial] with a bridge process returns [True] likewise. *)
Theorem start_again_is_noop (E : env) (w : world) :
  (skip_infra (infra w) = true \/ docker_started (infra w) = true ->
   start_docker E w = (Ok (docker_started (infra w)), w)) /\
  (socat_proc (infra w) <> None -> start_serial E w = (Ok true, w)).
Proof.
  split.
  - intros H. unfold start_docker, bind, self.
    assert (Hor : skip_infra (infra w) || docker_started (infra w) = true)
      by (destruct H as [-> | ->]; [reflexivity | apply orb_true_r]).
    now rewrite Hor.
  - intros H. unfold start_serial, bind, self.
    destruct (socat_proc (infra w)); [reflexivity | congruence].
Qed.

Lemma start_again_is_noop_witness :
  start_docker bare_env running_world = (Ok true, running_world) /\
  start_serial bare_env running_world = (Ok true, running_world).
Proof.
  destruct (start_again_is_noop bare_env running_world) as [Hdocker Hserial].
  split.
  - apply Hdocker. right. reflexivity.
  - apply Hserial. discriminate.
Defined.

(** ** Sets of hashable values *)


Lemma key_eq_trans (a b c : pyval) :
  key_eq a b = true -> key_eq b c = true -> key_eq a c = true.
Proof.
  destruct a, b; simpl; try discriminate; destruct c; simpl;
    try discriminate; try reflexivity;
    rewrite ?Z.eqb_eq, ?String.eqb_eq, ?Bool.eqb_true_iff;
    intros; subst; try reflexivity; try congruence.
  all: repeat match goal with
              | b : bool |- _ => destruct b
              end; simpl in *; congruence.
Qed.

Lemma key_eq_hashable (a b : pyval) : key_eq a b = true -> hashable a = true.
Proof. destruct a, b; simpl; congruence. Qed.

Lemma existsb_snoc {A} (f : A -> bool) (l : list A) (x : A) :
  existsb f (l ++ [x]) = existsb f l || f x.
Proof. rewrite existsb_app. simpl. now rewrite orb_false_r. Qed.

Lemma existsb_key_eq_trans (x y : pyval) (s : list pyval) :
  key_eq x y = true -> existsb (key_eq y) s = true ->
  existsb (key_eq x) s = true.
Proof.
  intros Hxy. rewrite !existsb_exists. intros (m & Hin & Hm).
  exists m. split; [assumption |]. now apply key_eq_trans with y.
Qed.

Lemma set_add_mem (id : pyval) (acc s : list pyval) :
  set_add id acc = Ok s ->
  forall x, existsb (key_eq x) s = true <->
            existsb (key_eq x) acc = true \/ key_eq x id = true.
Proof.
  unfold set_add. destruct (hashable id); [| discriminate].
  destruct (existsb (key_eq id) acc) eqn:Hin; intros [= <-] x.
  - split; [tauto |]. intros [H | H]; [assumption |].
    now apply existsb_key_eq_trans with id.
  - rewrite existsb_snoc, orb_true_iff. tauto.
Qed.

(** ** Resume *)

Lemma is_completed_status_iff (r : pyval) (d : list (string * pyval)) :
  r = PDict d ->
  (is_completed_status (entry_status r) = true <-> completed_entry r).
Proof.
  intros ->. unfold is_completed_status, completed_entry.
  rewrite !orb_true_iff, !eq_str_true. tauto.
Qed.

Lemma resume_fold (entries : list pyval) :
  Forall entry_shape entries ->
  forall acc,
  exists s,
    fold_result resume_step acc entries = Ok s /\
    forall x,
      existsb (key_eq x) s = true <->
      existsb (key_eq x) acc = true \/
      exists r id, In r entries /\ completed_entry r /\
                   getitem r "id" = Ok id /\ key_eq x id = true.
Proof.
  induction 1 as [| r rest (Hdict & id & Hid & Hhash) _ IH]; intros acc.
  - exists acc. split; [reflexivity |]. intros x. split; [tauto |].
    intros [H | (r & i & [] & _)]. assumption.
  - destruct r as [| | | | | d]; try discriminate.
    cbn [fold_result]. unfold resume_step at 1.
    pose proof (is_completed_status_iff (PDict d) d eq_refl) as Hst.
    unfold entry_status in Hst.
    destruct (dict_get (PDict d) "status" PNone) as [st | e] eqn:Hget;
      [| simpl in Hget; destruct (lookup "status" d); discriminate].
    cbn [rbind].
    destruct (is_completed_status st) eqn:Hc.
    + rewrite Hid. cbn [rbind].
      destruct (set_add id acc) as [acc' | e] eqn:Hadd;
        [| unfold set_add in Hadd; rewrite Hhash in Hadd; discriminate].
      cbn [rbind]. destruct (IH acc') as (s & Hs & Hmem).
      exists s. split; [assumption |]. intros x. rewrite Hmem.
      rewrite (set_add_mem _ _ _ Hadd x). split.
      * intros [[H | H] | (r & i & Hin & Hr)].
        -- now left.
        -- right. exists (PDict d), id. repeat split;
             [now left | now apply Hst | assumption | assumption].
        -- right. exists r, i. split; [now right | assumption].
      * intros [H | (r & i & [<- | Hin] & Hcomp & Hri & Hx)].
        -- left. now left.
        -- left. right. congruence.
        -- right. exists r, i. tauto.
    + destruct (IH acc) as (s & Hs & Hmem).
      exists s. split; [assumption |]. intros x. rewrite Hmem. split.
      * intros [H | (r & i & Hin & Hr)]; [now left |].
        right. exists r, i. split; [now right | assumption].
      * intros [H | (r & i & [<- | Hin] & Hcomp & Hri & Hx)].
        -- now left.
        -- apply Hst in Hcomp. congruence.
        -- right. exists r, i. tauto.
Qed.

(** C2. On a report document, [load_resume] returns the set that holds
    exactly the ids of the entries whose status is [passed], [failed] or
    [skipped]; an id that only [not_run] entries carry is not in it. *)
Theorem load_resume_exact (E : env) (path : string) (w : world)
    (report : pyval) :
  read_json E (tick w) (PStr path) = Ok report ->
  report_shape report ->
  exists s,
    load_resume E path w = (Ok s, bump w) /\
    (forall x,
       set_mem x s = Ok true <->
       exists r id, In r (report_entries report) /\ completed_entry r /\
                    getitem r "id" = Ok id /\ key_eq x id = true) /\
    (forall x,
       (forall r id, In r (report_entries report) ->
                     getitem r "id" = Ok id -> key_eq x id = true ->
                     entry_status r = PStr "not_run") ->
       set_mem x s <> Ok true).
Proof.
  intros Hread (entries & Hres & Hshape).
  destruct (resume_fold entries Hshape []) as (s & Hs & Hmem).
  assert (Hexact : forall x,
       set_mem x s = Ok true <->
       exists r id, In r (report_entries report) /\ completed_entry r /\
                    getitem r "id" = Ok id /\ key_eq x id = true).
  { intros x. unfold report_entries. rewrite Hres. unfold set_mem. split.
    - destruct (hashable x); [| discriminate]. intros [= H].
      apply Hmem in H. destruct H as [H | H]; [discriminate | assumption].
    - intros Hex. assert (H : existsb (key_eq x) s = true)
        by (apply Hmem; now right).
      destruct Hex as (r & id & _ & _ & _ & Hx).
      rewrite (key_eq_hashable _ _ Hx). now rewrite H. }
  exists s. split; [| split; [exact Hexact |]].
  - unfold load_resume, bind, call, lift, completed_ids_of.
    rewrite Hread, Hres. cbn [rbind py_iter]. now rewrite Hs.
  - intros x Hnot Hin. apply Hexact in Hin.
    destruct Hin as (r & id & Hr & Hcomp & Hid & Hx).
    specialize (Hnot r id Hr Hid Hx). unfold completed_entry in Hcomp.
    rewrite Hnot in Hcomp. destruct Hcomp as [H | [H | H]]; discriminate.
Qed.

Lemma load_resume_exact_witness :
  exists s,
    load_resume (reading_env (Ok scenario_C_report)) "prev.json"
      (initial_world []) = (Ok s, bump (initial_world [])) /\
    (forall x,
       set_mem x s = Ok true <->
       exists r id, In r (report_entries scenario_C_report) /\
                    completed_entry r /\
                    getitem r "id" = Ok id /\ key_eq x id = true) /\
    (forall x,
       (forall r id, In r (report_entries scenario_C_report) ->
                     getitem r "id" = Ok id -> key_eq x id = true ->
                     entry_status r = PStr "not_run") ->
       set_mem x s <> Ok true).
Proof.
  apply (load_resume_exact (reading_env (Ok scenario_C_report)) "prev.json"
           (initial_world []) scenario_C_report).
  - reflexivity.
  - eexists. split; [reflexivity |].
    repeat constructor; eexists; split; reflexivity.
Defined.

(** Scenario C: the resume set of the sample report is [T1], [T2]. *)
Example load_resume_scenario_C :
  load_resume (reading_env (Ok scenario_C_report)) "prev.json"
    (initial_world [])
  = (Ok [PStr "T1"; PStr "T2"], bump (initial_world [])).
Proof. reflexivity. Qed.

Lemma resume_fold_key_error (before after : list pyval) (r : pyval) :
  Forall entry_shape before ->
  is_dict r = true ->
  completed_entry r ->
  getitem r "id" = Raise (Exn KeyError (quote "id")) ->
  forall acc,
    fold_result resume_step acc (before ++ r :: after)
    = Raise (Exn KeyError (quote "id")).
Proof.
  intros Hbefore Hdict Hcomp Hid.
  induction Hbefore as [| b rest (Hb & id & Hbid & Hhash) Hrest IH];
    intros acc; cbn [app fold_result].
  - destruct r as [| | | | | d]; try discriminate.
    unfold resume_step.
    pose proof (is_completed_status_iff (PDict d) d eq_refl) as Hst.
    apply Hst in Hcomp. unfold entry_status in Hcomp.
    destruct (dict_get (PDict d) "status" PNone) as [st | e] eqn:Hget;
      [| simpl in Hget; destruct (lookup "status" d); discriminate].
    cbn [rbind]. rewrite Hcomp, Hid. reflexivity.
  - destruct b as [| | | | | d]; try discriminate.
    unfold resume_step at 1.
    destruct (dict_get (PDict d) "status" PNone) as [st | e] eqn:Hget;
      [| simpl in Hget; destruct (lookup "status" d); discriminate].
    cbn [rbind]. destruct (is_completed_status st).
    + rewrite Hbid. cbn [rbind]. unfold set_add. rewrite Hhash.
      cbn [rbind]. apply IH.
    + cbn [rbind]. apply IH.
Qed.

(** C8, as the code has it. When the resume file is missing, is not JSON,
    or holds a completed entry without an [id], the resume block prints a
    warning and the run starts with the empty completed set. *)
Theorem resume_fault_is_warned (E : env) (path : string) (w : world)
    (e : exn) :
  path <> "" ->
  resume_fault E path w e ->
  resume_block E (Some path) w
  = (Ok [],
     emit (Printed ("WARNING: Could not load resume file: " ++ exn_msg e))
          (bump w)).
Proof.
  intros Hpath Hfault. unfold resume_block. cbn [truthy_opt].
  destruct (String.eqb path "") eqn:Hempty;
    [apply String.eqb_eq in Hempty; contradiction |].
  cbn [negb]. unfold try_except, bind, load_resume, call, lift.
  unfold bind. cbv beta.
  destruct Hfault as [msg Hread | msg Hread
                      | report before after r Hread Hres Hbefore Hdict Hcomp Hid].
  - rewrite Hread. reflexivity.
  - rewrite Hread. reflexivity.
  - rewrite Hread. unfold completed_ids_of. rewrite Hres.
    cbn [rbind py_iter].
    rewrite (resume_fold_key_error before after r Hbefore Hdict Hcomp Hid).
    reflexivity.
Qed.

Lemma resume_fault_is_warned_witness :
  resume_block (reading_env (Ok report_without_id)) (Some "prev.json")
    (initial_world [])
  = (Ok [],
     emit (Printed ("WARNING: Could not load resume file: "
                    ++ exn_msg (Exn KeyError (quote "id"))))
          (bump (initial_world []))).
Proof.
  apply (resume_fault_is_warned (reading_env (Ok report_without_id))
           "prev.json" (initial_world []) (Exn KeyError (quote "id"))).
  - discriminate.
  - apply (resume_no_id _ _ _ report_without_id
             [PDict [("id", PStr "T1"); ("status", PStr "passed")]] []
             (PDict [("name", PStr "second"); ("status", PStr "passed")])).
    + reflexivity.
    + reflexivity.
    + repeat constructor. eexists. split; reflexivity.
    + reflexivity.
    + left. reflexivity.
    + reflexivity.
Defined.

(** C8 as stated fails: a resume file that exists but cannot be read makes
    [open] raise [PermissionError], which the [except] clause of [main] does
    not list; the exception leaves the resume block. *)
Lemma resume_unreadable_raises :
  resume_block
    (reading_env (Raise (Exn PermissionError "[Errno 13] Permission denied")))
    (Some "prev.json") (initial_world [])
  = (Raise (Exn PermissionError "[Errno 13] Permission denied"),
     bump (initial_world [])).
Proof. reflexivity. Qed.

(** The same happens for a file that parses but is not a report: on the JSON
    document [[]] the call [report.get] raises [AttributeError]. *)
Example resume_wrong_shape_raises :
  resume_block (reading_env (Ok (PList []))) (Some "prev.json")
    (initial_world [])
  = (Raise (Exn AttributeError ""), bump (initial_world [])).
Proof. reflexivity. Qed.

(** ** The connection bundle *)













(** Scenario D: one connection named [A], with the configuration of the
    first test. *)
Example collect_scenario_D :
  collect_connections scenario_D
  = Ok [PDict [("type", PStr "connection");
               ("name", PStr "A");
               ("config", PDict [("type", PStr "ssh");
                                 ("config", PDict [("host", PStr "first")])])]].
Proof. reflexivity. Qed.

(** ** Report files *)















(** ** Collecting a verdict *)

Lemma bind_ok {A B} (m : M A) (k : A -> M B) (w w' : world) (b : B) :
  bind m k w = (Ok b, w') ->
  exists a w1, m w = (Ok a, w1) /\ k a w1 = (Ok b, w').
Proof.
  unfold bind. destruct (m w) as [[a | e] w1]; [eauto | discriminate].
Qed.

Lemma lift_ok {A} (r : result A) (w w' : world) (a : A) :
  lift r w = (Ok a, w') -> r = Ok a /\ w' = w.
Proof. unfold lift. intros [= -> ->]. auto. Qed.

Lemma ret_ok {A} (x a : A) (w w' : world) :
  ret x w = (Ok a, w') -> a = x /\ w' = w.
Proof. unfold ret. intros [= -> ->]. auto. Qed.

Ltac bind_inv H :=
  let a := fresh "a" in
  let w := fresh "w" in
  let Ha := fresh "Hrun" in
  apply bind_ok in H as (a & w & Ha & H).


Lemma failed_with_note_status (note : option string) (w w' : world)
    (v : string * option string) :
  failed_with_note note w = (Ok v, w') -> fst v = "failed".
Proof.
  unfold failed_with_note. intros H. bind_inv H.
  apply ret_ok in H as [-> _]. reflexivity.
Qed.

Lemma confirm_checks_status (all_passed : bool) (note : option string)
    (w w' : world) (v : string * option string) :
  confirm_checks all_passed note w = (Ok (Some v), w') ->
  verdict_status (fst v).
Proof.
  unfold confirm_checks, verdict_status. intros H.
  destruct all_passed; bind_inv H; bind_inv H;
    repeat match type of H with
           | (if ?c then _ else _) _ = _ => destruct c
           end;
    try (apply ret_ok in H as [[= ->] _]; cbn; tauto);
    try (bind_inv H; apply ret_ok in H as [[= ->] _];
         apply failed_with_note_status in Hrun1; tauto);
    try (apply ret_ok in H as [[=] _]).
Qed.

Lemma combined_prompt_status (E : env) (verification : pyval)
    (note : option string) (w w' : world) (v : string * option string) :
  combined_prompt E verification note w = (Ok (Some v), w') ->
  verdict_status (fst v).
Proof.
  unfold combined_prompt, verdict_status. intros H.
  destruct (negb (is_dict verification));
    [apply ret_ok in H as [[=] _] |].
  bind_inv H. destruct (eq_str a "combined");
    [| apply ret_ok in H as [[=] _]].
  bind_inv H. bind_inv H. bind_inv H.
  repeat match type of H with
         | (if ?c then _ else _) _ = _ => destruct c
         end;
    try (apply ret_ok in H as [[= ->] _]; cbn; tauto);
    try (bind_inv H; apply ret_ok in H as [[= ->] _];
         apply failed_with_note_status in Hrun3; tauto);
    try (apply ret_ok in H as [[=] _]).
Qed.

Lemma get_test_result_loop_status (E : env) (fuel : nat) :
  forall test note w w' v,
    get_test_result_loop E fuel test note w = (Ok v, w') ->
    verdict_status (fst v).
Proof.
  induction fuel as [| fuel IH]; intros test note w w' v H.
  - apply ret_ok in H as [-> _]. cbn. unfold verdict_status. tauto.
  - cbn [get_test_result_loop] in H. bind_inv H. bind_inv H.
    destruct (String.eqb a0 "p");
      [apply ret_ok in H as [-> _]; unfold verdict_status; cbn; tauto |].
    destruct (String.eqb a0 "f");
      [apply failed_with_note_status in H; unfold verdict_status; tauto |].
    destruct (String.eqb a0 "s");
      [apply ret_ok in H as [-> _]; unfold verdict_status; cbn; tauto |].
    destruct (String.eqb a0 "n").
    { bind_inv H. destruct (String.eqb a1 ""); [eauto |].
      bind_inv H. eauto. }
    destruct (String.eqb a0 "q");
      [apply ret_ok in H as [-> _]; unfold verdict_status; cbn; tauto |].
    destruct (String.eqb a0 "" && is_dict a).
    { bind_inv H. destruct a1 as [| c checks].
      - bind_inv H. eauto.
      - do 5 bind_inv H. destruct a5 as [verdict |].
        + apply ret_ok in H as [-> _].
          eapply confirm_checks_status; eauto.
        + bind_inv H. destruct a5 as [verdict |].
          * apply ret_ok in H as [-> _].
            eapply combined_prompt_status; eauto.
          * eauto. }
    destruct (String.eqb a0 ""); bind_inv H; eauto.
Qed.

Lemma get_test_result_status (E : env) (test : pyval) (w w' : world)
    (v : string * option string) :
  get_test_result E test w = (Ok v, w') -> verdict_status (fst v).
Proof. unfold get_test_result. apply get_test_result_loop_status. Qed.


(** *** The input is only consumed *)

Lemma consumes_ret {A} (a : A) : consumes_input (ret a).
Proof. intros w. cbn. lia. Qed.

Lemma consumes_raise {A} (e : exn) : consumes_input (@raise A e).
Proof. intros w. cbn. lia. Qed.

Lemma consumes_lift {A} (r : result A) : consumes_input (lift r).
Proof. intros w. cbn. lia. Qed.

Lemma consumes_ask {A} (f : nat -> A) : consumes_input (ask f).
Proof. intros w. cbn. lia. Qed.

Lemma consumes_call {A} (f : nat -> result A) : consumes_input (call f).
Proof. intros w. cbn. lia. Qed.

Lemma consumes_print (s : string) : consumes_input (print s).
Proof. intros w. cbn. lia. Qed.

Lemma consumes_get_input (p : string) : consumes_input (get_input p).
Proof.
  intros w. unfold get_input.
  destruct (stdin w) as [| [s | |] rest] eqn:Hin; cbn; rewrite ?Hin; cbn; lia.
Qed.

Lemma consumes_bind {A B} (m : M A) (k : A -> M B) :
  consumes_input m -> (forall a, consumes_input (k a)) ->
  consumes_input (bind m k).
Proof.
  intros Hm Hk w. unfold bind. specialize (Hm w).
  destruct (m w) as [[a | e] w1]; cbn in *; [| assumption].
  specialize (Hk a w1). lia.
Qed.

Lemma consumes_try {A} (body : M A) (handlers : list exn_class)
    (handler : exn -> M A) :
  consumes_input body -> (forall e, consumes_input (handler e)) ->
  consumes_input (try_except body handlers handler).
Proof.
  intros Hb Hh w. unfold try_except. specialize (Hb w).
  destruct (body w) as [[a | e] w1]; cbn in *; [assumption |].
  destruct (caught handlers e); cbn; [| assumption].
  specialize (Hh e w1). lia.
Qed.

Lemma consumes_if {A} (c : bool) (m1 m2 : M A) :
  consumes_input m1 -> consumes_input m2 ->
  consumes_input (if c then m1 else m2).
Proof. destruct c; auto. Qed.

Lemma consumes_for_extend {A B} (body : A -> M (list B)) (items : list A) :
  (forall x, consumes_input (body x)) ->
  consumes_input (for_extend body items).
Proof.
  intros Hb. induction items as [| x rest IH]; cbn [for_extend].
  - apply consumes_ret.
  - apply consumes_bind; [apply Hb |]. intros here.
    apply consumes_bind; [apply IH |]. intros more. apply consumes_ret.
Qed.

Lemma consumes_for_each {A} (body : A -> M unit) (items : list A) :
  (forall x, consumes_input (body x)) ->
  consumes_input (for_each body items).
Proof.
  intros Hb. induction items as [| x rest IH]; cbn [for_each].
  - apply consumes_ret.
  - apply consumes_bind; [apply Hb | intros _; apply IH].
Qed.

Create HintDb consumes.
#[local] Hint Resolve consumes_ret consumes_raise consumes_lift consumes_ask
  consumes_call consumes_print consumes_get_input : consumes.

Ltac consumes :=
  repeat first
    [ progress auto with consumes
    | apply consumes_bind; [| intros ?]
    | apply consumes_try; [| intros ?]
    | apply consumes_if
    | apply consumes_for_each; intros ?
    | apply consumes_for_extend; intros ?
    | match goal with
      | |- consumes_input (match ?x with _ => _ end) => destruct x
      end ].

Lemma consumes_run_verification_rec (E : env) (fuel : nat) :
  forall v, consumes_input (run_verification_rec E fuel v).
Proof.
  induction fuel as [| fuel IH]; intros v; cbn [run_verification_rec];
    consumes.
Qed.

Lemma consumes_at {A} (m : M A) (w w' : world) (r : result A) :
  consumes_input m -> m w = (r, w') ->
  (length (stdin w') <= length (stdin w))%nat.
Proof. intros Hm H. specialize (Hm w). now rewrite H in Hm. Qed.

Lemma get_input_strict (p : string) (w w' : world) (c : string) :
  get_input p w = (Ok c, w') -> c <> "q" ->
  (length (stdin w') < length (stdin w))%nat.
Proof.
  unfold get_input.
  destruct (stdin w) as [| [s | |] rest] eqn:Hin; intros [= <- <-] Hc;
    cbn; try congruence; lia.
Qed.

Lemma consumes_failed_with_note (note : option string) :
  consumes_input (failed_with_note note).
Proof. unfold failed_with_note. consumes. Qed.

Lemma consumes_confirm_checks (all_passed : bool) (note : option string) :
  consumes_input (confirm_checks all_passed note).
Proof.
  unfold confirm_checks. consumes; apply consumes_failed_with_note.
Qed.

Lemma consumes_combined_prompt (E : env) (v : pyval) (note : option string) :
  consumes_input (combined_prompt E v note).
Proof.
  unfold combined_prompt. consumes; apply consumes_failed_with_note.
Qed.

Lemma consumes_print_check (E : env) (c : check) :
  consumes_input (print_check E c).
Proof. unfold print_check. consumes. Qed.

Ltac input_left :=
  repeat match goal with
         | H : get_input _ ?w = (Ok ?c, ?w') |- _ =>
             lazymatch goal with
             | _ : (length (stdin w') <= length (stdin w))%nat |- _ => fail
             | _ => pose proof (consumes_at _ _ _ _ (consumes_get_input _) H)
             end
         | H : print _ ?w = (_, ?w') |- _ =>
             lazymatch goal with
             | _ : (length (stdin w') <= length (stdin w))%nat |- _ => fail
             | _ => pose proof (consumes_at _ _ _ _ (consumes_print _) H)
             end
         | H : lift _ ?w = (_, ?w') |- _ =>
             lazymatch goal with
             | _ : (length (stdin w') <= length (stdin w))%nat |- _ => fail
             | _ => pose proof (consumes_at _ _ _ _ (consumes_lift _) H)
             end
         end.

(** The rounds [get_test_result] allows are enough: with more fuel than
    input left, the amount of fuel does not matter, so the statement after
    the loop is never reached. *)
Lemma get_test_result_loop_fuel (E : env) (f1 f2 : nat) :
  forall test note w,
    (length (stdin w) < f1)%nat -> (length (stdin w) < f2)%nat ->
    get_test_result_loop E f1 test note w
    = get_test_result_loop E f2 test note w.
Proof.
  revert f2. induction f1 as [| f1 IH]; intros f2 test note w H1 H2; [lia |].
  destruct f2 as [| f2]; [lia |].
  cbn [get_test_result_loop].
  apply bind_ext. intros verification w0 Hv.
  apply bind_ext. intros choice w1 Hc. input_left.
  destruct (String.eqb choice "p"); [reflexivity |].
  destruct (String.eqb choice "f"); [reflexivity |].
  destruct (String.eqb choice "s"); [reflexivity |].
  destruct (String.eqb choice "n") eqn:Hn.
  { apply String.eqb_eq in Hn. subst choice.
    pose proof (get_input_strict _ _ _ _ Hc ltac:(discriminate)).
    apply bind_ext. intros note_text w2 Hnt. input_left.
    destruct (String.eqb note_text ""); [apply IH; lia |].
    apply bind_ext. intros [] w3 Hp. input_left. apply IH; lia. }
  destruct (String.eqb choice "q") eqn:Hq; [reflexivity |].
  apply String.eqb_neq in Hq.
  pose proof (get_input_strict _ _ _ _ Hc Hq).
  destruct (String.eqb choice "" && is_dict verification).
  { apply bind_ext. intros checks w2 Hchecks.
    pose proof (consumes_at _ _ _ _
                  (consumes_run_verification_rec E _ verification) Hchecks).
    destruct checks as [| c checks].
    - apply bind_ext. intros [] w3 Hp. input_left. apply IH; lia.
    - apply bind_ext. intros [] w3 Hp3. apply bind_ext. intros [] w4 Hp4.
      apply bind_ext. intros [] w5 Hp5. apply bind_ext. intros [] w6 Hp6.
      apply bind_ext. intros decided w7 Hd.
      destruct decided as [verdict |]; [reflexivity |].
      apply bind_ext. intros decided' w8 Hd'.
      destruct decided' as [verdict |]; [reflexivity |].
      input_left.
      pose proof (consumes_at _ _ _ _
                    (consumes_for_each _ _ (consumes_print_check E)) Hp5).
      pose proof (consumes_at _ _ _ _ (consumes_confirm_checks _ _) Hd).
      pose proof (consumes_at _ _ _ _ (consumes_combined_prompt _ _ _) Hd').
      apply IH; lia. }
  destruct (String.eqb choice "");
    (apply bind_ext; intros [] w2 Hp; input_left; apply IH; lia).
Qed.

(** ** The session *)

Lemma set_mem_hashable (x : pyval) (s : list pyval) (b : bool) :
  set_mem x s = Ok b -> hashable x = true.
Proof. unfold set_mem. destruct (hashable x); [reflexivity | discriminate]. Qed.

Lemma run_test_entry (E : env) (plat arch os_version report_dir : string)
    (start_time : instant) (completed_ids : list pyval) (total : Z)
    (results : list pyval) (i : Z) (t : pyval) (w w' : world)
    (results' : list pyval) (quit : bool) :
  run_test E plat arch os_version report_dir start_time completed_ids total
    results i t w = (Ok (results', quit), w') ->
  exists r,
    results' = (results ++ [r])%list /\
    if quit then interrupted E completed_ids total t r i w
    else resolved E completed_ids total t r i w.
Proof.
  unfold run_test. intros H.
  apply bind_ok in H as (tid & w1 & Htid & H). apply lift_ok in Htid as [Htid ->].
  apply bind_ok in H as (resumed & w2 & Hmem & H).
  apply lift_ok in Hmem as [Hmem ->].
  pose proof (set_mem_hashable _ _ _ Hmem) as Hhash.
  assert (Hid : test_id t = tid) by (unfold test_id; now rewrite Htid).
  assert (Hsame : forall name category status stamp duration note vt,
             same_id t (result_entry tid name category status stamp duration
                          note vt)).
  { intros. exists tid. repeat split; assumption. }
  destruct resumed.
  - apply bind_ok in H as (id & w3 & Hi & H). apply lift_ok in Hi as [Hi ->].
    apply bind_ok in H as (name & w4 & Hn & H). apply lift_ok in Hn as [Hn ->].
    apply bind_ok in H as (cat & w5 & Hc & H). apply lift_ok in Hc as [Hc ->].
    apply bind_ok in H as (stamp & w6 & Hs & H).
    apply ret_ok in H as [[= -> ->] _].
    assert (id = tid) as -> by congruence.
    eexists. split; [reflexivity |]. split; [apply Hsame |].
    left. rewrite Hid. split; [assumption |]. repeat split.
  - apply bind_ok in H as (prereqs & w3 & Hp & H).
    apply bind_ok in H as (items & w4 & Hit & H).
    apply bind_ok in H as ([] & w5 & Hpre & H).
    apply bind_ok in H as (test_start & w6 & Hts & H).
    apply bind_ok in H as ([] & w7 & Hcard & H).
    apply bind_ok in H as ([status note] & w8 & Hverdict & H).
    pose proof (get_test_result_status _ _ _ _ _ Hverdict) as Hst.
    assert (Hanswer : answered E total t i w status note).
    { exists test_start, w7, w8. split; [| exact Hverdict].
      unfold present, bind. rewrite Hp, Hit, Hpre, Hts, Hcard. reflexivity. }
    destruct (String.eqb status "quit") eqn:Hq.
    + apply String.eqb_eq in Hq. subst status.
      apply bind_ok in H as (id & w9 & Hi & H). apply lift_ok in Hi as [Hi ->].
      apply bind_ok in H as (name & w10 & Hn & H).
      apply bind_ok in H as (cat & w11 & Hc & H).
      apply bind_ok in H as (stamp & w12 & Hs & H).
      apply bind_ok in H as (finish & w13 & Hf & H).
      apply bind_ok in H as (verification & w14 & Hv & H).
      apply ret_ok in H as [[= -> ->] _].
      assert (id = tid) as -> by congruence.
      eexists. split; [reflexivity |]. split; [apply Hsame |].
      split; [now rewrite Hid |]. split; [| reflexivity].
      exists note. split; [exact Hanswer | reflexivity].
    + apply String.eqb_neq in Hq.
      apply bind_ok in H as (verification & w9 & Hv & H).
      apply bind_ok in H as (vtype & w10 & Hvt & H).
      apply bind_ok in H as (id & w11 & Hi & H).
      apply lift_ok in Hv as [Hv ->]. apply lift_ok in Hvt as [Hvt ->].
      apply lift_ok in Hi as [Hi ->].
      apply bind_ok in H as (name & w12 & Hn & H).
      apply bind_ok in H as (cat & w13 & Hc & H).
      apply bind_ok in H as (stamp & w14 & Hs & H).
      apply bind_ok in H as (finish & w15 & Hf & H).
      apply bind_ok in H as (report & w16 & Hb & H).
      apply bind_ok in H as (path & w17 & Hsave & H).
      apply ret_ok in H as [[= -> ->] _].
      assert (id = tid) as -> by congruence.
      eexists. split; [reflexivity |]. split; [apply Hsame |].
      right. rewrite Hid. split; [assumption |].
      exists status, note. split; [exact Hanswer |].
      split; [| split; reflexivity].
      unfold verdict_status in Hst. cbn [fst] in Hst. tauto.
Qed.


(** *** Marking the tests that were not reached *)

Lemma existsb_key_eq_bool (s1 s2 : list pyval) :
  (forall x, existsb (key_eq x) s1 = true <-> existsb (key_eq x) s2 = true) ->
  forall x, existsb (key_eq x) s1 = existsb (key_eq x) s2.
Proof. intros H x. apply eq_true_iff_eq. apply H. Qed.











(** The statuses of that run: passed, then not run twice. *)
Example quit_at_second_statuses :
  map entry_status (value_or [] (fst quit_at_second_final))
  = [PStr "passed"; PStr "not_run"; PStr "not_run"].
Proof. vm_compute. reflexivity. Qed.

(** The ids have to differ: the block that marks the remaining tests
    recognises a test by its id, so of two tests with one id the second gets
    no entry when the operator quits at the first. *)
Example twin_ids_share_one_entry :
  let loop := test_loop bare_env "linux" "x86_64" "Linux" "/reports"
                (sample_clock 0) [] 2 [] 1 twin_tests
                (initial_world [Line "q"]) in
  let results := fst (value_or ([], false) (fst loop)) in
  map entry_status
    (value_or [] (fst (mark_remaining bare_env true twin_tests results
                         (snd loop))))
  = [PStr "not_run"].
Proof. vm_compute. reflexivity. Qed.

(** ** The manual prompt of a combined verification *)

(** C3, on the code. The test has a [combined] verification whose one
    automated check passes; the operator presses Enter to run the checks and
    Enter again to confirm. [get_test_result] returns [passed] at the
    confirmation, and the manual prompt is never printed. *)
Theorem combined_confirmed_without_manual_prompt :
  fst (get_test_result file_env combined_test
         (initial_world [Line ""; Line ""]))
  = Ok ("passed", None) /\
  ~ In (Printed (manual_prompt_line file_env (PStr "Did the window open?")))
       (stdout (snd (get_test_result file_env combined_test
                       (initial_world [Line ""; Line ""])))).
Proof.
  split; [reflexivity |].
  vm_compute. intros H.
  repeat (destruct H as [H | H]; [discriminate |]). exact H.
Qed.

(** The prompt is reached only when the answer to the confirmation is none
    of the recognised keys: here the operator types [x] and then [p]. *)
Example manual_prompt_after_unknown_answer :
  In (Printed (manual_prompt_line file_env (PStr "Did the window open?")))
     (stdout (snd (get_test_result file_env combined_test
                     (initial_world [Line ""; Line "x"; Line "p"])))).
Proof. vm_compute. tauto. Qed.

(** Whenever the confirmation of the automated checks returns a verdict,
    that verdict is final: the block of the manual prompt comes after the
    [return]s. *)
Lemma confirmation_ends_the_round (E : env) (fuel : nat) (test : pyval)
    (note : option string) (w w1 w2 w3 : world) (verification : pyval)
    (c : check) (checks : list check) (verdict : string * option string) :
  dict_get test "verification" (PStr "manual") = Ok verification ->
  is_dict verification = true ->
  get_input (nl ++ "> ") w = (Ok "", w1) ->
  run_verification E verification w1 = (Ok (c :: checks), w2) ->
  confirm_checks (forallb passed (c :: checks)) note
    (snd ((print "" ;;; print "  VERIFICATION:" ;;;
           for_each (print_check E) (c :: checks) ;;; print "") w2))
  = (Ok (Some verdict), w3) ->
  get_test_result_loop E (S fuel) test note w = (Ok verdict, w3).
Proof.
  intros Hv Hdict Hin Hchecks Hconfirm.
  cbn [get_test_result_loop]. unfold bind at 1, lift at 1. rewrite Hv.
  unfold bind at 1. rewrite Hin. cbn [String.eqb andb]. rewrite Hdict.
  unfold bind at 1. rewrite Hchecks.
  unfold bind, print, ret in *. cbn [snd] in Hconfirm.
  destruct (for_each (print_check E) (c :: checks) _) as [[[] | e] w4] eqn:Hp.
  - cbn [snd] in Hconfirm. rewrite Hconfirm. reflexivity.
  - exfalso. clear Hconfirm. revert Hp. generalize (c :: checks).
    intros l. generalize (emit (Printed "  VERIFICATION:") (emit (Printed "") w2)).
    induction l as [| x l IH]; intros w0; cbn [for_each]; [discriminate |].
    unfold bind, print_check, print. apply IH.
Qed.

(** * Further properties of the script *)

(** ** What a computation leaves alone *)

Section Keeps.

Variable R : world -> world -> Prop.
Hypothesis R_refl : forall w, R w w.
Hypothesis R_trans : forall a b c, R a b -> R b c -> R a c.

Lemma keeps_ret {A} (a : A) : keeps R (ret a).
Proof. intros w. apply R_refl. Qed.

Lemma keeps_raise {A} (e : exn) : keeps R (@raise A e).
Proof. intros w. apply R_refl. Qed.

Lemma keeps_lift {A} (r : result A) : keeps R (lift r).
Proof. intros w. apply R_refl. Qed.

Lemma keeps_bind {A B} (m : M A) (k : A -> M B) :
  keeps R m -> (forall a, keeps R (k a)) -> keeps R (bind m k).
Proof.
  intros Hm Hk w. unfold bind. specialize (Hm w).
  destruct (m w) as [[a | e] w1]; cbn [snd] in *; [| assumption].
  eapply R_trans; [exact Hm | apply Hk].
Qed.

Lemma keeps_try {A} (body : M A) (handlers : list exn_class)
    (handler : exn -> M A) :
  keeps R body -> (forall e, keeps R (handler e)) ->
  keeps R (try_except body handlers handler).
Proof.
  intros Hb Hh w. unfold try_except. specialize (Hb w).
  destruct (body w) as [[a | e] w1]; cbn [snd] in *; [assumption |].
  destruct (caught handlers e); cbn [snd]; [| assumption].
  eapply R_trans; [exact Hb | apply Hh].
Qed.

Lemma keeps_if {A} (c : bool) (m1 m2 : M A) :
  keeps R m1 -> keeps R m2 -> keeps R (if c then m1 else m2).
Proof. destruct c; auto. Qed.

Lemma keeps_for_extend {A B} (body : A -> M (list B)) (items : list A) :
  (forall x, keeps R (body x)) -> keeps R (for_extend body items).
Proof.
  intros Hb. induction items as [| x rest IH]; cbn [for_extend].
  - apply keeps_ret.
  - apply keeps_bind; [apply Hb |]. intros here.
    apply keeps_bind; [apply IH |]. intros more. apply keeps_ret.
Qed.

Lemma keeps_for_each {A} (body : A -> M unit) (items : list A) :
  (forall x, keeps R (body x)) -> keeps R (for_each body items).
Proof.
  intros Hb. induction items as [| x rest IH]; cbn [for_each].
  - apply keeps_ret.
  - apply keeps_bind; [apply Hb | intros _; apply IH].
Qed.

Lemma keeps_at {A} (m : M A) (w w' : world) (r : result A) :
  keeps R m -> m w = (r, w') -> R w w'.
Proof. intros Hm H. specialize (Hm w). now rewrite H in Hm. Qed.

End Keeps.

Lemma only_calls_refl (w : world) : only_calls w w.
Proof. unfold only_calls. auto. Qed.

Lemma only_calls_trans (a b c : world) :
  only_calls a b -> only_calls b c -> only_calls a c.
Proof. unfold only_calls. intuition congruence. Qed.

Lemma only_calls_ask {A} (f : nat -> A) : keeps only_calls (ask f).
Proof. intros w. unfold only_calls. cbn. auto. Qed.

Lemma only_calls_call {A} (f : nat -> result A) : keeps only_calls (call f).
Proof. intros w. unfold only_calls. cbn. auto. Qed.

Ltac only_calls :=
  repeat first
    [ assumption
    | apply only_calls_ask
    | apply only_calls_call
    | apply (keeps_ret only_calls only_calls_refl)
    | apply (keeps_raise only_calls only_calls_refl)
    | apply (keeps_lift only_calls only_calls_refl)
    | apply (keeps_bind only_calls only_calls_trans); [| intros ?]
    | apply (keeps_try only_calls only_calls_trans); [| intros ?]
    | apply keeps_if
    | apply (keeps_for_extend only_calls only_calls_refl only_calls_trans);
      intros ?
    | match goal with
      | |- keeps _ (match ?x with _ => _ end) => destruct x
      end ].

Lemma only_calls_run_verification_rec (E : env) (fuel : nat) :
  forall v, keeps only_calls (run_verification_rec E fuel v).
Proof.
  induction fuel as [| fuel IH]; intros v; cbn [run_verification_rec];
    only_calls. apply IH.
Qed.

(** X1. The verification engine only looks: whatever the value and the
    environment, and whether it returns or raises, [run_verification] reads
    nothing from the operator, prints nothing, leaves the infrastructure as
    it is and writes no file. *)
Theorem run_verification_only_looks (E : env) (v : pyval) (w : world) :
  only_calls w (snd (run_verification E v w)).
Proof. apply only_calls_run_verification_rec. Qed.

(** ** More on the verification engine *)

(** X2. A [combined] verification is the concatenation, in order, of what the
    engine returns for each of its [automated] entries, each run in the
    world the previous one left; [manual_prompt] plays no part. *)
Theorem combined_concatenates (E : env) (d : list (string * pyval))
    (items : list pyval) (w : world) :
  lookup "type" d = Some (PStr "combined") ->
  lookup "automated" d = Some (PList items) ->
  run_verification E (PDict d) w = for_extend (run_verification E) items w.
Proof.
  intros Hty Hauto. unfold run_verification at 1.
  cbn [run_verification_rec eq_str is_none orb is_dict negb dict_get].
  unfold bind at 1, lift at 1. rewrite Hty. pick_tag.
  unfold bind at 1, lift at 1. rewrite Hauto.
  unfold bind at 1, lift at 1. cbn [py_iter].
  apply for_extend_ext. intros x Hx w0. unfold run_verification.
  pose proof (depth_lookup _ _ _ Hauto).
  pose proof (depth_iter (PList items) items x eq_refl Hx).
  apply run_verification_rec_fuel; lia.
Qed.

Lemma combined_concatenates_witness :
  run_verification file_env
    (PDict [("type", PStr "combined");
            ("automated", PList [closed_port_check;
                                 PDict [("type", PStr "file_exists");
                                        ("path", PStr "/tmp/out.txt")]]);
            ("manual_prompt", PStr "Did the window open?")])
    (initial_world [])
  = for_extend (run_verification file_env)
      [closed_port_check;
       PDict [("type", PStr "file_exists"); ("path", PStr "/tmp/out.txt")]]
      (initial_world []).
Proof. apply combined_concatenates; reflexivity. Defined.

(** ** More on collecting a verdict *)

(** X3. When the input is closed or the operator interrupts at the first
    prompt, [get_test_result] returns [quit] with no note, and has asked the
    environment nothing. *)
Theorem verdict_at_closed_input (E : env) (d : list (string * pyval))
    (w : world) :
  (stdin w = [] \/ exists rest, stdin w = CtrlC :: rest \/
                                stdin w = CtrlD :: rest) ->
  fst (get_test_result E (PDict d) w) = Ok ("quit", None) /\
  only_dialogue w (snd (get_test_result E (PDict d) w)).
Proof.
  intros H. unfold get_test_result. cbn [get_test_result_loop dict_get].
  unfold bind, lift, get_input, only_dialogue.
  destruct (lookup "verification" d);
    destruct H as [-> | (rest & [-> | ->])]; cbn; auto.
Qed.

Lemma verdict_at_closed_input_witness :
  fst (get_test_result bare_env combined_test (initial_world []))
  = Ok ("quit", None) /\
  only_dialogue (initial_world [])
    (snd (get_test_result bare_env combined_test (initial_world []))).
Proof.
  apply (verdict_at_closed_input bare_env _ (initial_world [])).
  left. reflexivity.
Defined.







Lemma only_dialogue_refl (w : world) : only_dialogue w w.
Proof. unfold only_dialogue. auto. Qed.

Lemma only_dialogue_trans (a b c : world) :
  only_dialogue a b -> only_dialogue b c -> only_dialogue a c.
Proof. unfold only_dialogue. intuition congruence. Qed.

Lemma get_input_dialogue (p : string) (w : world) :
  exists c w1, get_input p w = (Ok c, w1) /\ only_dialogue w w1.
Proof.
  unfold get_input, only_dialogue.
  destruct (stdin w) as [| [s | |] rest]; cbn; eauto 6.
Qed.

Lemma only_dialogue_emit (o : out_event) (w : world) :
  only_dialogue w (emit o w).
Proof. unfold only_dialogue. cbn. auto. Qed.

(** The verdict loop on a test whose verification is not a dictionary: it
    returns, and all it did was talk to the operator. *)
Lemma manual_loop_is_dialogue (E : env) (d : list (string * pyval))
    (verification : pyval) :
  dict_get (PDict d) "verification" (PStr "manual") = Ok verification ->
  is_dict verification = false ->
  forall fuel note w r w',
    get_test_result_loop E fuel (PDict d) note w = (r, w') ->
    (exists v, r = Ok v) /\ only_dialogue w w'.
Proof.
  intros Hv Hnd. induction fuel as [| fuel IH]; intros note w r w' H.
  - injection H as <- <-. split; [eauto | apply only_dialogue_refl].
  - cbn [get_test_result_loop] in H. rewrite Hv in H.
    unfold bind at 1, lift at 1 in H. cbv beta iota in H. rewrite Hnd in H.
    unfold bind at 1 in H.
    destruct (get_input_dialogue (nl ++ "> ") w) as (choice & w1 & Hc & Hd1).
    rewrite Hc in H.
    assert (Hdone : forall v, (Ok v, w1) = (r, w') ->
                              (exists v, r = Ok v) /\ only_dialogue w w')
      by (intros v [= <- <-]; eauto).
    destruct (String.eqb choice "p"); [now apply (Hdone _ H) |].
    destruct (String.eqb choice "f").
    { unfold failed_with_note, bind, ret in H.
      destruct (get_input_dialogue "  Failure note (optional): " w1)
        as (c & w2 & Hc2 & Hd2).
      rewrite Hc2 in H. injection H as <- <-.
      split; [eauto | eapply only_dialogue_trans; eauto]. }
    destruct (String.eqb choice "s"); [now apply (Hdone _ H) |].
    destruct (String.eqb choice "n").
    { unfold bind at 1 in H.
      destruct (get_input_dialogue "  Enter note: " w1) as (c & w2 & Hc2 & Hd2).
      rewrite Hc2 in H.
      destruct (String.eqb c "").
      - apply IH in H as [Hr Hd]. split; [assumption |].
        eapply only_dialogue_trans; [exact Hd1 |].
        eapply only_dialogue_trans; eauto.
      - unfold bind at 1, print at 1 in H. apply IH in H as [Hr Hd].
        split; [assumption |].
        eapply only_dialogue_trans; [exact Hd1 |].
        eapply only_dialogue_trans; [exact Hd2 |].
        eapply only_dialogue_trans; [apply only_dialogue_emit | exact Hd]. }
    destruct (String.eqb choice "q"); [now apply (Hdone _ H) |].
    rewrite andb_false_r in H.
    destruct (String.eqb choice "");
      (unfold bind at 1, print at 1 in H; apply IH in H as [Hr Hd];
       split; [assumption |];
       eapply only_dialogue_trans; [exact Hd1 |];
       eapply only_dialogue_trans; [apply only_dialogue_emit | exact Hd]).
Qed.

(** X6. On a test without automated verification [get_test_result] always
    returns a verdict, and does nothing but talk to the operator: it makes no
    call into the environment, does not touch the infrastructure and writes
    no file. *)
Theorem manual_verdict_is_dialogue (E : env) (d : list (string * pyval))
    (verification : pyval) (w : world) :
  dict_get (PDict d) "verification" (PStr "manual") = Ok verification ->
  is_dict verification = false ->
  (exists status note,
     fst (get_test_result E (PDict d) w) = Ok (status, note) /\
     verdict_status status) /\
  only_dialogue w (snd (get_test_result E (PDict d) w)).
Proof.
  intros Hv Hnd. unfold get_test_result.
  destruct (get_test_result_loop E (S (length (stdin w))) (PDict d) None w)
    as [r w'] eqn:Hrun.
  destruct (manual_loop_is_dialogue E d verification Hv Hnd _ _ _ _ _ Hrun)
    as [([status note] & ->) Hd].
  split; [| assumption]. exists status, note. split; [reflexivity |].
  exact (get_test_result_loop_status E _ _ _ _ _ _ Hrun).
Qed.

Lemma manual_verdict_is_dialogue_witness :
  (exists status note,
     fst (get_test_result bare_env (test_case "T1" [])
            (initial_world [Line ""; Line "x"; Line "s"]))
     = Ok (status, note) /\
     verdict_status status) /\
  only_dialogue (initial_world [Line ""; Line "x"; Line "s"])
    (snd (get_test_result bare_env (test_case "T1" [])
            (initial_world [Line ""; Line "x"; Line "s"]))).
Proof.
  apply (manual_verdict_is_dialogue bare_env _ (PStr "manual")).
  - reflexivity.
  - reflexivity.
Defined.

(** ** More on the infrastructure *)

Lemma after_calls_bump (n : nat) (w : world) :
  after_calls n (bump w) = after_calls (S n) w.
Proof. unfold after_calls. now rewrite <- Nat.iter_succ_r. Qed.

Lemma tick_after_calls (n : nat) (w : world) :
  tick (after_calls n w) = (tick w + n)%nat.
Proof.
  induction n as [| n IH].
  - cbn. lia.
  - change (after_calls (S n) w) with (bump (after_calls n w)).
    cbn [tick bump]. rewrite IH. lia.
Qed.

Lemma after_calls_fields (n : nat) (w : world) :
  only_calls w (after_calls n w).
Proof.
  induction n as [| n IH].
  - apply only_calls_refl.
  - change (after_calls (S n) w) with (bump (after_calls n w)).
    eapply only_calls_trans; [exact IH |]. unfold only_calls. cbn. auto.
Qed.

Lemma caught_socket_class (e : exn) :
  issubclass (exn_cls e) OSError = true ->
  caught [ConnectionRefusedError; SocketTimeout; OSError] e = true.
Proof.
  unfold caught. intros H. cbn [existsb]. rewrite H. now rewrite !orb_true_r.
Qed.




Lemma wait_rounds_first_success (E : env) (port : Z) (name : string) :
  forall i todo start w,
    (i < todo)%nat ->
    (forall j, (j < i)%nat ->
       exists e, create_connection E (tick w + 2 * j) port 1 = Raise e /\
                 issubclass (exn_cls e) OSError = true) ->
    create_connection E (tick w + 2 * i) port 1 = Ok tt ->
    wait_for_port_rounds E todo (Z.of_nat start) port name w
    = (Ok true,
       emit (Printed (port_ready name port (start + i)))
            (after_calls (2 * i + 1) w)).
Proof.
  induction i as [| i IH]; intros todo start w Hlt Hbefore Hnow;
    (destruct todo as [| todo]; [lia |]);
    cbn [wait_for_port_rounds]; unfold bind at 1, try_except, bind at 1, call.
  - rewrite Nat.add_0_r in Hnow. rewrite Hnow.
    unfold bind, print, ret. cbn [Nat.mul Nat.add after_calls Nat.iter].
    unfold port_ready. now rewrite Nat.add_0_r.
  - destruct (Hbefore O ltac:(lia)) as (e & He & Hcls).
    rewrite Nat.add_0_r in He. rewrite He, (caught_socket_class e Hcls).
    unfold bind, sleep, ret.
    replace (Z.of_nat start + 1) with (Z.of_nat (S start)) by lia.
    rewrite (IH todo (S start) (bump (bump w))).
    + rewrite !after_calls_bump.
      replace (S start + i)%nat with (start + S i)%nat by lia.
      replace (S (S (2 * i + 1))) with (2 * S i + 1)%nat by lia.
      reflexivity.
    + lia.
    + intros j Hj. destruct (Hbefore (S j) ltac:(lia)) as (e' & He' & Hc').
      exists e'. split; [| assumption]. rewrite <- He'. f_equal. cbn. lia.
    + rewrite <- Hnow. f_equal. cbn. lia.
Qed.

(** X8. A port that opens in round [i]: when the attempts before round [i] are
    refused and the attempt of round [i < timeout] succeeds,
    [_wait_for_port] stops there, prints that the service is ready after
    [i + 1] seconds and returns [True]. *)
Theorem wait_for_port_stops_at_first_success (E : env) (port : Z)
    (name : string) (timeout i : nat) (w : world) :
  (i < timeout)%nat ->
  (forall j, (j < i)%nat ->
     exists e, create_connection E (tick w + 2 * j) port 1 = Raise e /\
               issubclass (exn_cls e) OSError = true) ->
  create_connection E (tick w + 2 * i) port 1 = Ok tt ->
  _wait_for_port E port name timeout w
  = (Ok true,
     emit (Printed (port_ready name port i)) (after_calls (2 * i + 1) w)).
Proof.
  intros Hlt Hbefore Hnow. unfold _wait_for_port, bind.
  change 0 with (Z.of_nat 0).
  rewrite (wait_rounds_first_success E port name i timeout 0 w Hlt Hbefore Hnow).
  reflexivity.
Qed.

Lemma wait_rounds_settle (E : env) (port : Z) (name : string) :
  refusals_are_os_errors E ->
  forall todo i w,
    exists b w',
      wait_for_port_rounds E todo i port name w = (Ok b, w') /\
      infra w' = infra w.
Proof.
  intros HE. induction todo as [| todo IH]; intros i w.
  - exists false, w. split; reflexivity.
  - cbn [wait_for_port_rounds]. unfold bind at 1, try_except, bind at 1, call.
    destruct (create_connection E (tick w) port 1) as [[] | e] eqn:Hc.
    + unfold bind, print, ret. eexists _, _. split; reflexivity.
    + rewrite (caught_socket_class e (HE _ _ _ _ Hc)).
      unfold bind, sleep, ret.
      destruct (IH (i + 1) (bump (bump w))) as (b & w' & -> & Hinfra).
      exists b, w'. split; [reflexivity | exact Hinfra].
Qed.

(** X9. Once [docker compose up] has succeeded, [start_docker] marks the stack
    as started and returns [True], whether or not port 2201 becomes
    reachable during the wait. *)
Theorem start_docker_marks_started (E : env) (w : world) (c : completed) :
  refusals_are_os_errors E ->
  skip_infra (infra w) = false ->
  docker_started (infra w) = false ->
  os_path_exists E (tick w) (DOCKER_COMPOSE E) = true ->
  subprocess_run E (S (tick w)) (compose_up E) = Ok c ->
  returncode c = 0 ->
  exists w',
    start_docker E w = (Ok true, w') /\ docker_started (infra w') = true.
Proof.
  intros HE Hskip Hstarted Hfile Hrun Hcode.
  unfold start_docker, bind at 1, self. rewrite Hskip, Hstarted. cbn [orb].
  unfold bind at 1, ask. rewrite Hfile. cbn [negb].
  unfold bind at 1, print at 1. unfold try_except.
  unfold bind at 1, run_checked, bind at 1, call.
  cbn [tick emit bump]. fold (compose_up E). rewrite Hrun.
  apply Z.eqb_eq in Hcode. rewrite Hcode. unfold ret at 1.
  unfold bind at 1, set_docker_started. unfold bind at 1, _wait_for_port.
  unfold bind at 1.
  match goal with
  | |- context [wait_for_port_rounds E 30 0 2201 "SSH" ?w0] =>
      destruct (wait_rounds_settle E 2201 "SSH" HE 30 0 w0)
        as (b & w1 & -> & Hinfra)
  end.
  destruct b.
  - unfold ret. eexists. split; [reflexivity |]. now rewrite Hinfra.
  - unfold bind, print, ret. eexists. split; [reflexivity |].
    cbn [infra emit]. now rewrite Hinfra.
Qed.

Lemma wait_for_port_stops_at_first_success_witness :
  _wait_for_port slow_port_env 2201 "SSH" 30 (initial_world [])
  = (Ok true,
     emit (Printed (port_ready "SSH" 2201 2))
          (after_calls (2 * 2 + 1) (initial_world []))).
Proof.
  apply (wait_for_port_stops_at_first_success slow_port_env 2201 "SSH" 30 2
           (initial_world [])).
  - lia.
  - intros j Hj. exists (Exn ConnectionRefusedError "").
    destruct j as [| [| j]]; [split; reflexivity .. | lia].
  - reflexivity.
Defined.

Lemma docker_env_refusals : refusals_are_os_errors docker_env.
Proof. intros n port timeout e [= <-]. reflexivity. Qed.

Lemma start_docker_marks_started_witness :
  exists w',
    start_docker docker_env (initial_world []) = (Ok true, w') /\
    docker_started (infra w') = true.
Proof.
  apply (start_docker_marks_started docker_env (initial_world []) succeeded).
  - exact docker_env_refusals.
  - reflexivity.
  - reflexivity.
  - reflexivity.
  - reflexivity.
  - reflexivity.
Defined.

(** X10. When the compose file is missing, or [docker compose up] ends with a
    non-zero status, [start_docker] returns [False] and leaves the
    infrastructure object as it was: the stack is not marked as started. *)
Theorem start_docker_failure_leaves_unstarted (E : env) (w : world) :
  skip_infra (infra w) = false ->
  docker_started (infra w) = false ->
  os_path_exists E (tick w) (DOCKER_COMPOSE E) = false \/
  (os_path_exists E (tick w) (DOCKER_COMPOSE E) = true /\
   exists c, subprocess_run E (S (tick w)) (compose_up E) = Ok c /\
             returncode c <> 0) ->
  fst (start_docker E w) = Ok false /\
  infra (snd (start_docker E w)) = infra w.
Proof.
  intros Hskip Hstarted Hfail.
  destruct (start_docker E w) as [r w'] eqn:H. cbn [fst snd].
  unfold start_docker, bind at 1, self in H.
  rewrite Hskip, Hstarted in H. cbn [orb] in H.
  unfold bind at 1, ask in H.
  destruct Hfail as [Hfile | (Hfile & c & Hrun & Hcode)]; rewrite Hfile in H;
    cbn [negb] in H.
  - unfold bind, print, ret in H. injection H as <- <-. cbn. auto.
  - unfold bind at 1, print at 1 in H. unfold try_except in H.
    unfold bind at 1, run_checked, bind at 1, call in H.
    cbn [tick emit bump] in H. fold (compose_up E) in H. rewrite Hrun in H.
    apply Z.eqb_neq in Hcode. rewrite Hcode in H. unfold raise in H.
    cbn [caught existsb issubclass exn_cls exn_class_eqb base_class orb] in H.
    unfold bind, print, ret in H. injection H as <- <-. cbn. auto.
Qed.

Lemma start_docker_failure_leaves_unstarted_witness :
  fst (start_docker failing_docker_env (initial_world [])) = Ok false /\
  infra (snd (start_docker failing_docker_env (initial_world [])))
  = infra (initial_world []).
Proof.
  apply (start_docker_failure_leaves_unstarted failing_docker_env
           (initial_world [])).
  - reflexivity.
  - reflexivity.
  - right. split; [reflexivity |].
    exists {| returncode := 1; stdout_text := "" |}.
    split; [reflexivity | discriminate].
Defined.

(** X11. [start_docker] handles only a failed command: when launching
    [docker compose] itself raises, for instance [FileNotFoundError] because
    docker is not installed, the exception leaves [start_docker]. *)
Theorem start_docker_lets_launch_errors_out (E : env) (w : world) (e : exn) :
  skip_infra (infra w) = false ->
  docker_started (infra w) = false ->
  os_path_exists E (tick w) (DOCKER_COMPOSE E) = true ->
  subprocess_run E (S (tick w)) (compose_up E) = Raise e ->
  exn_cls e <> CalledProcessError ->
  fst (start_docker E w) = Raise e /\
  infra (snd (start_docker E w)) = infra w.
Proof.
  intros Hskip Hstarted Hfile Hrun Hcls.
  destruct (start_docker E w) as [r w'] eqn:H. cbn [fst snd].
  unfold start_docker, bind at 1, self in H.
  rewrite Hskip, Hstarted in H. cbn [orb] in H.
  unfold bind at 1, ask in H. rewrite Hfile in H. cbn [negb] in H.
  unfold bind at 1, print at 1 in H. unfold try_except in H.
  unfold bind at 1, run_checked, bind at 1, call in H.
  cbn [tick emit bump] in H. fold (compose_up E) in H. rewrite Hrun in H.
  assert (Hc : caught [CalledProcessError] e = false).
  { unfold caught. cbn [existsb]. rewrite orb_false_r.
    destruct e as [cls msg]. cbn [exn_cls] in *.
    destruct cls; try reflexivity. congruence. }
  rewrite Hc in H. injection H as <- <-. cbn. auto.
Qed.

Lemma start_docker_lets_launch_errors_out_witness :
  fst (start_docker
         (machine (fun _ _ => true) (fun _ _ => false)
            (fun _ _ => Raise (Exn FileNotFoundError "docker"))
            (fun _ _ => Raise (Exn FileNotFoundError ""))
            (fun _ _ _ => refused))
         (initial_world []))
  = Raise (Exn FileNotFoundError "docker") /\
  infra (snd (start_docker
                (machine (fun _ _ => true) (fun _ _ => false)
                   (fun _ _ => Raise (Exn FileNotFoundError "docker"))
                   (fun _ _ => Raise (Exn FileNotFoundError ""))
                   (fun _ _ _ => refused))
                (initial_world [])))
  = infra (initial_world []).
Proof.
  apply start_docker_lets_launch_errors_out.
  - reflexivity.
  - reflexivity.
  - reflexivity.
  - reflexivity.
  - discriminate.
Defined.

Lemma wait_for_links_never (E : env) (pty_a pty_b : string) :
  (forall n, os_path_exists E n pty_a = false) ->
  forall todo w,
    wait_for_links E todo pty_a pty_b w = (Ok false, after_calls (2 * todo) w).
Proof.
  intros Hnever. induction todo as [| todo IH]; intros w.
  - reflexivity.
  - cbn [wait_for_links]. unfold bind at 1, ask. rewrite Hnever.
    unfold bind at 1, ret at 1. cbn [andb]. unfold bind, sleep.
    rewrite IH, !after_calls_bump. f_equal. f_equal. lia.
Qed.

(** X12. When socat starts but its links never appear, [start_serial] returns
    [False] yet keeps the process it spawned; a second call then takes the
    already-running shortcut and returns [True] without checking again. *)
Theorem start_serial_keeps_stuck_bridge (E : env) (w : world) (proc : Z) :
  socat_proc (infra w) = None ->
  shutil_which E (tick w) "socat" = true ->
  (forall n, os_path_exists E n "/tmp/termihub-serial-a" = false) ->
  (forall n, os_path_exists E n "/tmp/termihub-serial-b" = false) ->
  subprocess_popen E (tick w + 3) socat_command = Ok proc ->
  exists w1,
    start_serial E w = (Ok false, w1) /\
    socat_proc (infra w1) = Some proc /\
    start_serial E w1 = (Ok true, w1).
Proof.
  intros Hnone Hwhich Ha Hb Hpopen.
  assert (Hfirst : exists w1, start_serial E w = (Ok false, w1) /\
                              socat_proc (infra w1) = Some proc).
  { unfold start_serial at 1, bind at 1, self. rewrite Hnone.
    unfold bind at 1, check_serial, ask. rewrite Hwhich. cbn [negb].
    unfold bind at 1. cbn [for_each].
    unfold bind at 1, remove_if_exists at 1, bind at 1, ask.
    cbn [tick bump]. rewrite Ha. unfold ret at 1.
    unfold bind at 1, remove_if_exists at 1, bind at 1, ask.
    cbn [tick bump]. rewrite Hb. unfold ret at 1. unfold ret at 1.
    unfold try_except, bind at 1, call. cbn [tick bump].
    replace (S (S (S (tick w)))) with (tick w + 3)%nat by lia.
    change ["socat"; "-d"; "-d";
            "pty,raw,echo=0,link=" ++ "/tmp/termihub-serial-a";
            "pty,raw,echo=0,link=" ++ "/tmp/termihub-serial-b"]
      with socat_command.
    rewrite Hpopen.
    unfold bind at 1, set_socat_proc. unfold bind at 1.
    rewrite (wait_for_links_never E _ _ Ha).
    unfold bind, print, ret. eexists. split; [reflexivity |].
    cbn [infra emit]. destruct (after_calls_fields (2 * 20)
      (set_infra
         {| skip_infra := skip_infra (infra (bump (bump (bump (bump w)))));
            keep_infra := keep_infra (infra (bump (bump (bump (bump w)))));
            app_path := app_path (infra (bump (bump (bump (bump w)))));
            docker_started :=
              docker_started (infra (bump (bump (bump (bump w)))));
            socat_proc := Some proc;
            app_proc := app_proc (infra (bump (bump (bump (bump w)))));
            config_dir := config_dir (infra (bump (bump (bump (bump w))))) |}
         (bump (bump (bump (bump w)))))) as (_ & _ & Hinfra & _).
    rewrite Hinfra. reflexivity. }
  destruct Hfirst as (w1 & Hrun & Hproc). exists w1.
  split; [assumption |]. split; [assumption |].
  unfold start_serial, bind, self. now rewrite Hproc.
Qed.

Lemma start_serial_keeps_stuck_bridge_witness :
  exists w1,
    start_serial stuck_socat_env (initial_world []) = (Ok false, w1) /\
    socat_proc (infra w1) = Some 4242 /\
    start_serial stuck_socat_env w1 = (Ok true, w1).
Proof.
  apply (start_serial_keeps_stuck_bridge stuck_socat_env (initial_world [])
           4242); reflexivity.
Defined.

(** ** More on the session *)

(** X13. A loop that is not left by a quit appends exactly one entry per
    test, in the order of the catalog: the synthesized skip for a test of
    the resume set, and for every other test the verdict and note
    [get_test_result] returned when the test was presented, each test in the
    world the test before it left. *)
Theorem finished_loop_resolves_every_test (E : env)
    (plat arch os_version report_dir : string) (start_time : instant)
    (completed_ids : list pyval) (total : Z) (tests : list pyval) :
  forall results i w w' results',
    test_loop E plat arch os_version report_dir start_time completed_ids
      total results i tests w = (Ok (results', false), w') ->
    exists done,
      results' = (results ++ done)%list /\
      resolved_in_turn E plat arch os_version report_dir start_time
        completed_ids total tests done results i w w'.
Proof.
  induction tests as [| t rest IH]; intros results i w w' results' H.
  - apply ret_ok in H as [[= ->] ->]. exists []. split; [| constructor].
    now rewrite app_nil_r.
  - cbn [test_loop] in H.
    apply bind_ok in H as ([results1 quit] & w1 & Hstep & H).
    pose proof Hstep as Hrun.
    apply run_test_entry in Hstep as (r & -> & Hr).
    destruct quit; cbn in Hr.
    + apply ret_ok in H as [[=] _].
    + apply IH in H as (done & -> & Hdone).
      exists (r :: done). split; [now rewrite <- app_assoc |].
      econstructor; eassumption.
Qed.

Lemma finished_loop_resolves_every_test_witness :
  exists done,
    fst (value_or ([], false) (fst two_verdicts)) = ([] ++ done)%list /\
    resolved_in_turn bare_env "linux" "x86_64" "Linux" "/reports"
      (sample_clock 0) [] 2 [test_case "T1" []; test_case "T2" []] done
      [] 1 (initial_world [Line "p"; Line "s"]) (snd two_verdicts).
Proof.
  apply (finished_loop_resolves_every_test bare_env "linux" "x86_64" "Linux"
           "/reports" (sample_clock 0) [] 2
           [test_case "T1" []; test_case "T2" []] [] 1
           (initial_world [Line "p"; Line "s"]) (snd two_verdicts)).
  vm_compute. reflexivity.
Defined.

Lemma resumed_test_is_skipped (E : env)
    (plat arch os_version report_dir : string) (start_time : instant)
    (completed_ids : list pyval) (total : Z) (results : list pyval) (i : Z)
    (t : pyval) (w : world) :
  already_completed completed_ids t ->
  exists r,
    run_test E plat arch os_version report_dir start_time completed_ids total
      results i t w = (Ok ((results ++ [r])%list, false), bump w) /\
    same_id t r /\ resume_skip r.
Proof.
  intros (id & name & category & Hid & Hname & Hcat & Hmem).
  unfold run_test, bind, lift, ask, ret. rewrite Hid, Hmem, Hname, Hcat.
  eexists. split; [reflexivity |]. split.
  - exists id. repeat split; auto.
    unfold set_mem in Hmem. destruct (hashable id); [reflexivity | discriminate].
  - repeat split.
Qed.

(** X14. Resuming a session in which every test is already completed presents
    nothing: every test gets the synthesized skip, and apart from reading the
    clock once per test the loop does nothing; it prompts for no input,
    prints nothing, starts no infrastructure and saves no report. *)
Theorem fully_resumed_loop_is_silent (E : env)
    (plat arch os_version report_dir : string) (start_time : instant)
    (completed_ids : list pyval) (total : Z) (tests : list pyval) :
  Forall (already_completed completed_ids) tests ->
  forall results i w,
  exists done,
    test_loop E plat arch os_version report_dir start_time completed_ids
      total results i tests w
    = (Ok ((results ++ done)%list, false), after_calls (length tests) w) /\
    Forall2 (fun t r => same_id t r /\ resume_skip r) tests done.
Proof.
  induction 1 as [| t rest Ht _ IH]; intros results i w.
  - exists []. split; [| constructor]. cbn. now rewrite app_nil_r.
  - destruct (resumed_test_is_skipped E plat arch os_version report_dir
                start_time completed_ids total results i t w Ht)
      as (r & Hrun & Hsame & Hskip).
    destruct (IH (results ++ [r])%list (i + 1) (bump w)) as (done & Hrest & Hdone).
    exists (r :: done). split; [| now constructor].
    cbn [test_loop length]. unfold bind. rewrite Hrun, Hrest.
    rewrite <- app_assoc, after_calls_bump. reflexivity.
Qed.

Lemma fully_resumed_loop_is_silent_witness :
  exists done,
    test_loop bare_env "linux" "x86_64" "Linux" "/reports" (sample_clock 0)
      [PStr "T1"; PStr "T2"] 2 [] 1 [test_case "T1" []; test_case "T2" []]
      (initial_world [Line "p"])
    = (Ok (([] ++ done)%list, false),
       after_calls (length [test_case "T1" []; test_case "T2" []])
         (initial_world [Line "p"])) /\
    Forall2 (fun t r => same_id t r /\ resume_skip r)
      [test_case "T1" []; test_case "T2" []] done.
Proof.
  apply fully_resumed_loop_is_silent.
  repeat constructor; do 3 eexists; repeat split; reflexivity.
Defined.

(** ** More on reports *)

Lemma count_status_sum (results : list pyval) :
  Forall has_result_status results ->
  exists p f s n,
    count_status "passed" results = Ok p /\
    count_status "failed" results = Ok f /\
    count_status "skipped" results = Ok s /\
    count_status "not_run" results = Ok n /\
    0 <= p /\ 0 <= f /\ 0 <= s /\ 0 <= n /\
    p + f + s + n = Z.of_nat (length results).
Proof.
  induction 1 as [| r rest (status & Hst & Hin) _ IH].
  - exists 0, 0, 0, 0. cbn. repeat split; lia.
  - destruct IH as (p & f & s & n & Hp & Hf & Hs & Hn & ? & ? & ? & ? & Hsum).
    cbn [count_status]. rewrite Hst, Hp, Hf, Hs, Hn. cbn [rbind].
    cbn in Hin.
    destruct Hin as [<- | [<- | [<- | [<- | []]]]];
      cbn [eq_str String.eqb Ascii.eqb Bool.eqb];
      do 4 eexists; repeat (split; [reflexivity |]);
      cbn [length]; repeat split; lia.
Qed.

(** X15. The summary of a report is recounted from the results: the total is
    their number, and when every entry carries one of the four statuses the
    four counts add up to the total. *)
Theorem report_counts_add_up (E : env) (results : list pyval)
    (plat arch os_version : string) (start_time : instant) (w : world) :
  Forall has_result_status results ->
  exists report p f s n,
    build_report E results plat arch os_version start_time w
    = (Ok report, after_calls 3 w) /\
    getitem report "results" = Ok (PList results) /\
    getitem report "summary"
    = Ok (PDict [("total", PInt (Z.of_nat (length results)));
                 ("passed", PInt p); ("failed", PInt f);
                 ("skipped", PInt s); ("not_run", PInt n)]) /\
    0 <= p /\ 0 <= f /\ 0 <= s /\ 0 <= n /\
    p + f + s + n = Z.of_nat (length results).
Proof.
  intros Hst.
  destruct (count_status_sum results Hst)
    as (p & f & s & n & Hp & Hf & Hs & Hn & ? & ? & ? & ? & Hsum).
  unfold build_report, bind, ask, lift, ret. rewrite Hp, Hf, Hs, Hn.
  eexists _, p, f, s, n. split; [reflexivity |].
  split; [reflexivity |]. split; [reflexivity |]. auto 10.
Qed.

Lemma report_counts_add_up_witness :
  exists report p f s n,
    build_report bare_env (value_or [] (fst quit_at_second_final))
      "linux" "x86_64" "Linux" (sample_clock 0) (initial_world [])
    = (Ok report, after_calls 3 (initial_world [])) /\
    getitem report "results"
    = Ok (PList (value_or [] (fst quit_at_second_final))) /\
    getitem report "summary"
    = Ok (PDict [("total",
                  PInt (Z.of_nat
                          (length (value_or [] (fst quit_at_second_final)))));
                 ("passed", PInt p); ("failed", PInt f);
                 ("skipped", PInt s); ("not_run", PInt n)]) /\
    0 <= p /\ 0 <= f /\ 0 <= s /\ 0 <= n /\
    p + f + s + n
    = Z.of_nat (length (value_or [] (fst quit_at_second_final))).
Proof.
  apply report_counts_add_up.
  vm_compute. repeat constructor; eexists; (split; [reflexivity |]); cbn; tauto.
Defined.

Lemma build_report_results (E : env) (results : list pyval)
    (plat arch os_version : string) (start_time : instant) (w w' : world)
    (report : pyval) :
  build_report E results plat arch os_version start_time w = (Ok report, w') ->
  dict_get report "results" (PList []) = Ok (PList results).
Proof.
  unfold build_report. intros H.
  apply bind_ok in H as (now_ & w1 & _ & H).
  apply bind_ok in H as (p & w2 & _ & H).
  apply bind_ok in H as (f & w3 & _ & H).
  apply bind_ok in H as (s & w4 & _ & H).
  apply bind_ok in H as (n & w5 & _ & H).
  apply bind_ok in H as (docker & w6 & _ & H).
  apply bind_ok in H as (socat & w7 & _ & H).
  apply ret_ok in H as [-> _]. reflexivity.
Qed.

(** X16. What [build_report] writes down, [load_resume] reads back: from a report
    built over the results of a session, the resume set is exactly the ids
    of the entries that are passed, failed or skipped. *)
Theorem report_round_trip (E : env) (results : list pyval)
    (plat arch os_version : string) (start_time : instant) (w w' : world)
    (report : pyval) :
  build_report E results plat arch os_version start_time w = (Ok report, w') ->
  Forall entry_shape results ->
  exists ids,
    completed_ids_of report = Ok ids /\
    forall x,
      set_mem x ids = Ok true <->
      exists r id, In r results /\ completed_entry r /\
                   getitem r "id" = Ok id /\ key_eq x id = true.
Proof.
  intros Hbuild Hshape. apply build_report_results in Hbuild.
  destruct (resume_fold results Hshape []) as (ids & Hids & Hmem).
  exists ids. split.
  - unfold completed_ids_of. rewrite Hbuild. cbn [rbind py_iter]. exact Hids.
  - intros x. unfold set_mem. split.
    + destruct (hashable x); [| discriminate]. intros [= H].
      apply Hmem in H. destruct H as [H | H]; [discriminate | assumption].
    + intros Hex. assert (H : existsb (key_eq x) ids = true)
        by (apply Hmem; now right).
      destruct Hex as (r & id & _ & _ & _ & Hx).
      rewrite (key_eq_hashable _ _ Hx). now rewrite H.
Qed.

Lemma report_round_trip_witness :
  exists ids,
    completed_ids_of
      (value_or PNone
         (fst (build_report bare_env (value_or [] (fst quit_at_second_final))
                 "linux" "x86_64" "Linux" (sample_clock 0)
                 (initial_world [])))) = Ok ids /\
    forall x,
      set_mem x ids = Ok true <->
      exists r id, In r (value_or [] (fst quit_at_second_final)) /\
                   completed_entry r /\
                   getitem r "id" = Ok id /\ key_eq x id = true.
Proof.
  apply (report_round_trip bare_env _ "linux" "x86_64" "Linux"
           (sample_clock 0) (initial_world [])
           (after_calls 3 (initial_world []))).
  - vm_compute. reflexivity.
  - vm_compute. repeat constructor; eexists; split; reflexivity.
Defined.

(** ** Saving progress *)

Lemma same_files_refl (w : world) : same_files w w.
Proof. reflexivity. Qed.

Lemma same_files_trans (a b c : world) :
  same_files a b -> same_files b c -> same_files a c.
Proof. unfold same_files. congruence. Qed.

Lemma same_files_ask {A} (f : nat -> A) : keeps same_files (ask f).
Proof. intros w. reflexivity. Qed.

Lemma same_files_call {A} (f : nat -> result A) : keeps same_files (call f).
Proof. intros w. reflexivity. Qed.

Lemma same_files_sleep : keeps same_files sleep.
Proof. intros w. reflexivity. Qed.

Lemma same_files_print (s : string) : keeps same_files (print s).
Proof. intros w. reflexivity. Qed.

Lemma same_files_get_input (p : string) : keeps same_files (get_input p).
Proof.
  intros w. unfold get_input. destruct (stdin w) as [| [s | |] rest];
    reflexivity.
Qed.

Lemma same_files_self : keeps same_files self.
Proof. intros w. reflexivity. Qed.

Lemma same_files_set_docker_started (b : bool) :
  keeps same_files (set_docker_started b).
Proof. intros w. reflexivity. Qed.

Lemma same_files_set_socat_proc (p : option Z) :
  keeps same_files (set_socat_proc p).
Proof. intros w. reflexivity. Qed.

Lemma same_files_of_only_calls {A} (m : M A) :
  keeps only_calls m -> keeps same_files m.
Proof. intros H w. apply H. Qed.

Ltac same_files_with known :=
  repeat first
    [ known
    | assumption
    | apply same_files_ask
    | apply same_files_call
    | apply same_files_sleep
    | apply same_files_print
    | apply same_files_get_input
    | apply same_files_self
    | apply same_files_set_docker_started
    | apply same_files_set_socat_proc
    | apply (keeps_ret same_files same_files_refl)
    | apply (keeps_raise same_files same_files_refl)
    | apply (keeps_lift same_files same_files_refl)
    | apply (keeps_bind same_files same_files_trans); [| intros ?]
    | apply (keeps_try same_files same_files_trans); [| intros ?]
    | apply keeps_if
    | apply (keeps_for_each same_files same_files_refl same_files_trans);
      intros ?
    | match goal with
      | |- keeps _ (match ?x with _ => _ end) => destruct x
      | |- keeps _ (let (_, _) := ?x in _) => destruct x
      end ].

Ltac same_files := same_files_with fail.

Lemma same_files_failed_with_note (note : option string) :
  keeps same_files (failed_with_note note).
Proof. unfold failed_with_note. same_files. Qed.

Lemma same_files_confirm_checks (all_passed : bool) (note : option string) :
  keeps same_files (confirm_checks all_passed note).
Proof.
  unfold confirm_checks.
  same_files_with ltac:(apply same_files_failed_with_note).
Qed.

Lemma same_files_combined_prompt (E : env) (v : pyval)
    (note : option string) :
  keeps same_files (combined_prompt E v note).
Proof.
  unfold combined_prompt.
  same_files_with ltac:(apply same_files_failed_with_note).
Qed.

Lemma same_files_run_verification (E : env) (v : pyval) :
  keeps same_files (run_verification E v).
Proof.
  apply same_files_of_only_calls. intros w.
  apply only_calls_run_verification_rec.
Qed.

Lemma same_files_get_test_result_loop (E : env) (fuel : nat) :
  forall test note,
    keeps same_files (get_test_result_loop E fuel test note).
Proof.
  induction fuel as [| fuel IH]; intros test note;
    cbn [get_test_result_loop];
    same_files_with
      ltac:(first [ apply same_files_failed_with_note
                  | apply same_files_run_verification
                  | apply same_files_confirm_checks
                  | apply same_files_combined_prompt
                  | apply IH ]).
Qed.

Lemma same_files_get_test_result (E : env) (test : pyval) :
  keeps same_files (get_test_result E test).
Proof. intros w. apply same_files_get_test_result_loop. Qed.

Lemma same_files_print_test_card (E : env) (test : pyval) (i total : Z) :
  keeps same_files (print_test_card E test i total).
Proof. unfold print_test_card, print_box. same_files. Qed.

Lemma same_files_wait_for_port (E : env) (port : Z) (name : string)
    (timeout : nat) :
  keeps same_files (_wait_for_port E port name timeout).
Proof.
  assert (Hrounds : forall todo i,
            keeps same_files (wait_for_port_rounds E todo i port name)).
  { induction todo as [| todo IH]; intros i; cbn [wait_for_port_rounds];
      same_files_with ltac:(apply IH). }
  unfold _wait_for_port. same_files_with ltac:(apply Hrounds).
Qed.

Lemma same_files_start_docker (E : env) : keeps same_files (start_docker E).
Proof.
  unfold start_docker, run_checked.
  same_files_with ltac:(apply same_files_wait_for_port).
Qed.

Lemma same_files_start_serial (E : env) : keeps same_files (start_serial E).
Proof.
  assert (Hlinks : forall todo a b,
            keeps same_files (wait_for_links E todo a b)).
  { induction todo as [| todo IH]; intros a b; cbn [wait_for_links];
      same_files_with ltac:(apply IH). }
  unfold start_serial, check_serial, remove_if_exists.
  same_files_with ltac:(apply Hlinks).
Qed.

Lemma same_files_resolve_prerequisite (E : env) (prereq : pyval) :
  keeps same_files (resolve_prerequisite E prereq).
Proof.
  unfold resolve_prerequisite.
  same_files_with ltac:(first [ apply same_files_start_docker
                              | apply same_files_start_serial ]).
Qed.

Lemma same_files_build_report (E : env) (results : list pyval)
    (plat arch os_version : string) (start_time : instant) :
  keeps same_files (build_report E results plat arch os_version start_time).
Proof. unfold build_report. same_files. Qed.

Lemma save_report_writes (E : env) (report : pyval) (dir : string)
    (w w' : world) (path : string) :
  save_report E report dir w = (Ok path, w') ->
  written w' = (written w ++ [(path, report)])%list.
Proof.
  unfold save_report, bind, call, lift, ask, ret.
  destruct (mkdir E (tick w) dir) as [[] | e]; [| discriminate].
  destruct (getitem report "environment") as [environment | e];
    [| discriminate].
  destruct (getitem environment "platform") as [plat | e]; [| discriminate].
  destruct (getitem environment "arch") as [arch | e]; [| discriminate].
  cbn [tick bump].
  destruct (write_json E _ _ _) as [[] | e]; [| discriminate].
  intros [= <- <-]. reflexivity.
Qed.

(** X17. Progress is saved after each verdict, and only then: when a presented
    test gets a verdict, [main] writes one report whose results are all the
    entries so far, this test's included; a test of the resume set and the
    test at which the operator quits write nothing. *)
Theorem progress_is_saved_after_each_verdict (E : env)
    (plat arch os_version report_dir : string) (start_time : instant)
    (completed_ids : list pyval) (total : Z) (results : list pyval) (i : Z)
    (t : pyval) (w w' : world) (results' : list pyval) (quit : bool) :
  run_test E plat arch os_version report_dir start_time completed_ids total
    results i t w = (Ok (results', quit), w') ->
  (quit = true -> written w' = written w) /\
  (set_mem (test_id t) completed_ids = Ok true -> written w' = written w) /\
  (quit = false -> set_mem (test_id t) completed_ids = Ok false ->
   exists path report,
     written w' = (written w ++ [(path, report)])%list /\
     dict_get report "results" (PList []) = Ok (PList results')).
Proof.
  unfold run_test. intros H.
  apply bind_ok in H as (tid & w1 & Htid & H). apply lift_ok in Htid as [Htid ->].
  apply bind_ok in H as (resumed & w2 & Hmem & H).
  apply lift_ok in Hmem as [Hmem ->].
  assert (Hid : test_id t = tid) by (unfold test_id; now rewrite Htid).
  rewrite Hid, Hmem.
  destruct resumed.
  - apply bind_ok in H as (id & w3 & Hi & H). apply lift_ok in Hi as [Hi ->].
    apply bind_ok in H as (name & w4 & Hn & H). apply lift_ok in Hn as [Hn ->].
    apply bind_ok in H as (cat & w5 & Hc & H). apply lift_ok in Hc as [Hc ->].
    apply bind_ok in H as (stamp & w6 & Hs & H).
    apply ret_ok in H as [[= -> ->] ->].
    pose proof (keeps_at same_files _ _ _ _ (same_files_ask _) Hs) as Hw.
    split; [discriminate |]. split; [intros _; exact Hw | discriminate].
  - apply bind_ok in H as (prereqs & w3 & Hp & H).
    apply lift_ok in Hp as [Hp ->].
    apply bind_ok in H as (items & w4 & Hit & H).
    apply lift_ok in Hit as [Hit ->].
    apply bind_ok in H as ([] & w5 & Hpre & H).
    apply bind_ok in H as (test_start & w6 & Hts & H).
    apply bind_ok in H as ([] & w7 & Hcard & H).
    apply bind_ok in H as ([status note] & w8 & Hverdict & H).
    pose proof (keeps_at same_files _ _ _ _
                  (keeps_for_each same_files same_files_refl same_files_trans
                     _ _ (same_files_resolve_prerequisite E)) Hpre) as F1.
    pose proof (keeps_at same_files _ _ _ _ (same_files_ask _) Hts) as F2.
    pose proof (keeps_at same_files _ _ _ _
                  (same_files_print_test_card E _ _ _) Hcard) as F3.
    pose proof (keeps_at same_files _ _ _ _
                  (same_files_get_test_result E _) Hverdict) as F4.
    assert (F : written w8 = written w)
      by (unfold same_files in *; congruence).
    destruct (String.eqb status "quit").
    + apply bind_ok in H as (id & w9 & Hi & H). apply lift_ok in Hi as [Hi ->].
      apply bind_ok in H as (name & w10 & Hn & H).
      apply lift_ok in Hn as [Hn ->].
      apply bind_ok in H as (cat & w11 & Hc & H).
      apply lift_ok in Hc as [Hc ->].
      apply bind_ok in H as (stamp & w12 & Hs & H).
      apply bind_ok in H as (finish & w13 & Hf & H).
      apply bind_ok in H as (verification & w14 & Hv & H).
      apply lift_ok in Hv as [Hv ->].
      apply ret_ok in H as [[= -> ->] ->].
      pose proof (keeps_at same_files _ _ _ _ (same_files_ask _) Hs) as F5.
      pose proof (keeps_at same_files _ _ _ _ (same_files_ask _) Hf) as F6.
      split; [| split; discriminate].
      intros _. unfold same_files in *. congruence.
    + apply bind_ok in H as (verification & w9 & Hv & H).
      apply lift_ok in Hv as [Hv ->].
      apply bind_ok in H as (vtype & w10 & Hvt & H).
      apply lift_ok in Hvt as [Hvt ->].
      apply bind_ok in H as (id & w11 & Hi & H). apply lift_ok in Hi as [Hi ->].
      apply bind_ok in H as (name & w12 & Hn & H).
      apply lift_ok in Hn as [Hn ->].
      apply bind_ok in H as (cat & w13 & Hc & H).
      apply lift_ok in Hc as [Hc ->].
      apply bind_ok in H as (stamp & w14 & Hs & H).
      apply bind_ok in H as (finish & w15 & Hf & H).
      apply bind_ok in H as (report & w16 & Hb & H).
      apply bind_ok in H as (path & w17 & Hsave & H).
      apply ret_ok in H as [[= -> ->] ->].
      pose proof (keeps_at same_files _ _ _ _ (same_files_ask _) Hs) as F5.
      pose proof (keeps_at same_files _ _ _ _ (same_files_ask _) Hf) as F6.
      pose proof (keeps_at same_files _ _ _ _
                    (same_files_build_report E _ _ _ _ _) Hb) as F7.
      apply save_report_writes in Hsave.
      apply build_report_results in Hb.
      split; [discriminate |]. split; [discriminate |].
      intros _ _. exists path, report. split; [| assumption].
      rewrite Hsave. unfold same_files in *. congruence.
Qed.

Lemma progress_is_saved_after_each_verdict_witness :
  (false = true -> written (snd one_verdict) = written (initial_world [Line "p"])) /\
  (set_mem (test_id (test_case "T1" [])) [] = Ok true ->
   written (snd one_verdict) = written (initial_world [Line "p"])) /\
  (false = false -> set_mem (test_id (test_case "T1" [])) [] = Ok false ->
   exists path report,
     written (snd one_verdict)
     = (written (initial_world [Line "p"]) ++ [(path, report)])%list /\
     dict_get report "results" (PList [])
     = Ok (PList (fst (value_or ([], false) (fst one_verdict))))).
Proof.
  apply (progress_is_saved_after_each_verdict bare_env "linux" "x86_64"
           "Linux" "/reports" (sample_clock 0) [] 1 [] 1 (test_case "T1" [])
           (initial_world [Line "p"]) (snd one_verdict)).
  vm_compute. reflexivity.
Defined.

(** ** More on the connection bundle *)



(** ** More on test selection *)

Lemma filter_keep_true (p : string) (category test_id : option string)
    (t : pyval) :
  filter_keep p category test_id t = Ok true ->
  (exists platforms,
     dict_get t "platforms" (PList [PStr "all"]) = Ok platforms /\
     (str_in p platforms = Ok true \/ str_in "all" platforms = Ok true)) /\
  (truthy_opt category = true ->
   exists c, category = Some c /\ getitem t "_category" = Ok (PStr c)) /\
  (truthy_opt test_id = true ->
   exists i, test_id = Some i /\ getitem t "id" = Ok (PStr i)).
Proof.
  unfold filter_keep.
  destruct (dict_get t "platforms" (PList [PStr "all"])) as [platforms | e];
    [| discriminate].
  cbn [rbind].
  destruct (str_in p platforms) as [here | e] eqn:Hhere; [| discriminate].
  cbn [rbind].
  assert (Hplat : forall everywhere,
            (if here then Ok false else str_in "all" platforms) = Ok everywhere ->
            negb here && negb everywhere = false ->
            exists platforms0,
              Ok platforms = Ok platforms0 /\
              (str_in p platforms0 = Ok true \/
               str_in "all" platforms0 = Ok true)).
  { intros everywhere He Hb. exists platforms. split; [reflexivity |].
    destruct here; [now left |]. right. rewrite He.
    destruct everywhere; [reflexivity | discriminate]. }
  destruct (if here then Ok false else str_in "all" platforms)
    as [everywhere | e] eqn:He; [| discriminate].
  cbn [rbind].
  destruct (negb here && negb everywhere) eqn:Hb; [discriminate |].
  specialize (Hplat everywhere eq_refl Hb).
  destruct (truthy_opt category) eqn:Hcat.
  - destruct (getitem t "_category") as [c | e]; [| discriminate].
    cbn [rbind]. destruct category as [cs |]; [| discriminate].
    destruct (eq_str c cs) eqn:Hc; cbn [negb]; [| discriminate].
    apply eq_str_true in Hc. subst c.
    destruct (truthy_opt test_id) eqn:Hid.
    + destruct (getitem t "id") as [i | e]; [| discriminate].
      cbn [rbind]. destruct test_id as [wanted |]; [| discriminate].
      destruct (eq_str i wanted) eqn:Hi; cbn [negb]; [| discriminate].
      apply eq_str_true in Hi. subst i. intros _. eauto 10.
    + cbn [rbind]. intros _. split; [assumption |].
      split; [eauto | discriminate].
  - cbn [rbind].
    destruct (truthy_opt test_id) eqn:Hid.
    + destruct (getitem t "id") as [i | e]; [| discriminate].
      cbn [rbind]. destruct test_id as [wanted |]; [| discriminate].
      destruct (eq_str i wanted) eqn:Hi; cbn [negb]; [| discriminate].
      apply eq_str_true in Hi. subst i. intros _.
      split; [assumption |]. split; [discriminate | eauto].
    + cbn [rbind]. intros _. split; [assumption |].
      split; discriminate.
Qed.

Lemma filter_tests_is_filter (tests : list pyval) (p : string)
    (category test_id : option string) (out : list pyval) :
  filter_tests tests p category test_id = Ok out ->
  out = filter (fun x => match filter_keep p category test_id x with
                         | Ok b => b
                         | Raise _ => false
                         end) tests.
Proof.
  revert out. induction tests as [| t rest IH]; intros out.
  - now intros [= <-].
  - cbn [filter_tests filter].
    destruct (filter_keep p category test_id t) as [keep | e];
      [| discriminate].
    cbn [rbind].
    destruct (filter_tests rest p category test_id) as [out' | e];
      [| discriminate].
    cbn [rbind]. intros [= <-]. now rewrite (IH out' eq_refl).
Qed.

(** X19. Whatever filters are given, [filter_tests] returns a selection of its
    input in the input's order, and every test it returns passes each
    filter: its platforms hold the current platform or ["all"], its
    category is the one asked for, and its id is the one asked for. *)
Theorem filter_tests_keeps_only_matches (tests : list pyval) (p : string)
    (category test_id : option string) (out : list pyval) :
  filter_tests tests p category test_id = Ok out ->
  (exists keep, out = filter keep tests) /\
  forall t, In t out ->
    (exists platforms,
       dict_get t "platforms" (PList [PStr "all"]) = Ok platforms /\
       (str_in p platforms = Ok true \/ str_in "all" platforms = Ok true)) /\
    (truthy_opt category = true ->
     exists c, category = Some c /\ getitem t "_category" = Ok (PStr c)) /\
    (truthy_opt test_id = true ->
     exists i, test_id = Some i /\ getitem t "id" = Ok (PStr i)).
Proof.
  intros H. apply filter_tests_is_filter in H. split; [eauto |].
  intros t Ht. rewrite H in Ht. apply filter_In in Ht as [_ Hk].
  apply filter_keep_true.
  destruct (filter_keep p category test_id t) as [[] | e];
    [reflexivity | discriminate ..].
Qed.

Lemma filter_tests_keeps_only_matches_witness :
  (exists keep,
     [test_case "T1" [("platforms", PList [PStr "linux"])]]
     = filter keep scenario_A) /\
  forall t, In t [test_case "T1" [("platforms", PList [PStr "linux"])]] ->
    (exists platforms,
       dict_get t "platforms" (PList [PStr "all"]) = Ok platforms /\
       (str_in "linux" platforms = Ok true \/
        str_in "all" platforms = Ok true)) /\
    (truthy_opt (Some "local") = true ->
     exists c, Some "local" = Some c /\ getitem t "_category" = Ok (PStr c)) /\
    (truthy_opt (Some "T1") = true ->
     exists i, Some "T1" = Some i /\ getitem t "id" = Ok (PStr i)).
Proof.
  apply (filter_tests_keeps_only_matches scenario_A "linux" (Some "local")
           (Some "T1")).
  reflexivity.
Defined.

(** ** The box *)








(** ** Loading the catalog *)

Lemma lookup_assign (k k' : string) (x : pyval) (d : list (string * pyval)) :
  lookup k' (assign k x d)
  = if String.eqb k' k then Some x else lookup k' d.
Proof.
  induction d as [| [k0 v] rest IH]; cbn [assign lookup].
  - destruct (String.eqb k' k); reflexivity.
  - destruct (String.eqb k k0) eqn:Hk0; cbn [lookup].
    + apply String.eqb_eq in Hk0. subst k0.
      destruct (String.eqb k' k); reflexivity.
    + rewrite IH. destruct (String.eqb k' k0) eqn:Hk'; [| reflexivity].
      apply String.eqb_eq in Hk'. subst k0.
      rewrite String.eqb_sym, Hk0. reflexivity.
Qed.

Lemma tag_test_result (category display_name test t : pyval) :
  tag_test category display_name test = Ok t ->
  getitem t "_category" = Ok category /\
  getitem t "_display_name" = Ok display_name /\
  tagged_copy test t.
Proof.
  unfold tag_test. destruct test as [| | | | | d]; try discriminate.
  cbn [setitem rbind]. intros [= <-]. unfold tagged_copy.
  cbn [getitem]. rewrite !lookup_assign. cbn [String.eqb Ascii.eqb Bool.eqb].
  repeat split. intros k Hc Hd.
  apply String.eqb_neq in Hc, Hd. rewrite !lookup_assign, Hc, Hd. reflexivity.
Qed.

Lemma map_tag_test (category display_name : pyval) (originals : list pyval) :
  forall tests,
    map_result (tag_test category display_name) originals = Ok tests ->
    Forall2 (fun original t =>
               getitem t "_category" = Ok category /\
               getitem t "_display_name" = Ok display_name /\
               tagged_copy original t) originals tests.
Proof.
  induction originals as [| o rest IH]; intros tests; cbn [map_result].
  - intros [= <-]. constructor.
  - destruct (tag_test category display_name o) as [t | e] eqn:Ht;
      [| discriminate].
    cbn [rbind].
    destruct (map_result (tag_test category display_name) rest) as [ts | e];
      [| discriminate].
    cbn [rbind]. intros [= <-]. constructor; [| now apply IH].
    now apply tag_test_result.
Qed.

Lemma load_file_result (stem : string) (loaded : result pyval)
    (tests : list pyval) :
  load_file (stem, loaded) = Ok tests ->
  tests = [] \/
  exists data category display_name,
    loaded = Ok data /\
    dict_get data "category" (PStr stem) = Ok category /\
    dict_get data "display_name" category = Ok display_name /\
    Forall2 (fun original t =>
               getitem t "_category" = Ok category /\
               getitem t "_display_name" = Ok display_name /\
               tagged_copy original t) (tests_in_file data) tests.
Proof.
  unfold load_file. destruct loaded as [data | e]; [| discriminate].
  cbn [rbind]. destruct (negb (truthy data)); [intros [= <-]; now left |].
  destruct (str_in "tests" data) as [has | e]; [| discriminate].
  cbn [rbind]. destruct (negb has); [intros [= <-]; now left |].
  destruct (dict_get data "category" (PStr stem)) as [category | e] eqn:Hc;
    [| discriminate].
  cbn [rbind].
  destruct (dict_get data "display_name" category) as [dn | e] eqn:Hd;
    [| discriminate].
  cbn [rbind].
  destruct (getitem data "tests") as [tv | e] eqn:Htv; [| discriminate].
  cbn [rbind].
  destruct (py_iter tv) as [originals | e] eqn:Hit; [| discriminate].
  cbn [rbind]. intros H. right. exists data, category, dn.
  repeat split; try assumption. unfold tests_in_file. rewrite Htv, Hit.
  now apply map_tag_test.
Qed.

Lemma load_tests_tags (files : list (string * result pyval))
    (tests : list pyval) :
  load_tests files = Ok tests ->
  forall t, In t tests ->
    exists stem data category display_name,
      In (stem, Ok data) files /\
      dict_get data "category" (PStr stem) = Ok category /\
      dict_get data "display_name" category = Ok display_name /\
      getitem t "_category" = Ok category /\
      getitem t "_display_name" = Ok display_name.
Proof.
  revert tests. induction files as [| [stem loaded] rest IH]; intros tests.
  - intros [= <-] t [].
  - cbn [load_tests].
    destruct (load_file (stem, loaded)) as [here | e] eqn:Hhere;
      [| discriminate].
    cbn [rbind]. destruct (load_tests rest) as [more | e]; [| discriminate].
    cbn [rbind]. intros [= <-] t Ht. apply in_app_iff in Ht as [Ht | Ht].
    + apply load_file_result in Hhere as [-> | Hfile]; [contradiction |].
      destruct Hfile as (data & category & dn & -> & Hc & Hd & Hall).
      exists stem, data, category, dn.
      split; [now left |]. split; [assumption |]. split; [assumption |].
      clear - Hall Ht. induction Hall as [| o x os xs Hx _ IHa];
        [contradiction |].
      destruct Ht as [<- | Ht]; [tauto | auto].
    + destruct (IH more eq_refl t Ht) as (s & d & c & dn & Hin & Hrest).
      exists s, d, c, dn. split; [now right | assumption].
Qed.



Lemma load_tests_written
    (files : list (string * result pyval)) (tests : list pyval) :
  load_tests files = Ok tests ->
  Forall2 tagged_copy (tests_as_written files) tests.
Proof.
  revert tests. induction files as [| [stem loaded] rest IH]; intros tests.
  - intros [= <-]. constructor.
  - cbn [load_tests].
    destruct (load_file (stem, loaded)) as [here | e] eqn:Hhere;
      [| discriminate].
    cbn [rbind]. destruct (load_tests rest) as [more | e]; [| discriminate].
    cbn [rbind]. intros [= <-]. unfold tests_as_written. cbn [flat_map snd].
    apply Forall2_app; [| now apply IH].
    (* the tests of this file *)
    unfold load_file in Hhere.
    destruct loaded as [data | e]; [| discriminate]. cbn [rbind] in Hhere.
    unfold tests_in_file.
    destruct (negb (truthy data)) eqn:Htruthy.
    + injection Hhere as <-.
      destruct data as [| b | n | s | l | d]; cbn in Htruthy |- *;
        try constructor; try discriminate.
      destruct d; [constructor | discriminate].
    + destruct (str_in "tests" data) as [has | e] eqn:Hhas; [| discriminate].
      cbn [rbind] in Hhere. destruct has; cbn [negb] in Hhere.
      * destruct (dict_get data "category" (PStr stem)) as [c | e];
          [| discriminate].
        cbn [rbind] in Hhere.
        destruct (dict_get data "display_name" c) as [dn | e];
          [| discriminate].
        cbn [rbind] in Hhere.
        destruct (getitem data "tests") as [tv | e]; [| discriminate].
        cbn [rbind] in Hhere.
        destruct (py_iter tv) as [originals | e]; [| discriminate].
        cbn [rbind] in Hhere. apply map_tag_test in Hhere.
        eapply Forall2_impl; [| exact Hhere]. cbn. tauto.
      * injection Hhere as <-.
        destruct data as [| b | n | s | l | d]; try constructor.
        cbn [str_in] in Hhas. injection Hhas as Hhas. cbn [getitem].
        destruct (lookup "tests" d) as [v |] eqn:Hl; [| constructor].
        exfalso. clear - Hhas Hl.
        induction d as [| [k x] d IH]; [discriminate |].
        cbn [existsb fst lookup] in *. apply orb_false_iff in Hhas as [Hk Hd].
        rewrite String.eqb_sym, Hk in Hl. auto.
Qed.

(** X22. Loading changes nothing else: the tests come out in the order of the
    files and, within a file, in the order written, one for one, and each
    reads as written on every key but the two tags. *)
Theorem loaded_tests_are_the_written_ones
    (files : list (string * result pyval)) (tests : list pyval) :
  load_tests files = Ok tests ->
  Forall2 tagged_copy (tests_as_written files) tests.
Proof. apply load_tests_written. Qed.

Lemma loaded_tests_are_the_written_ones_witness :
  Forall2 tagged_copy (tests_as_written sample_files)
    (value_or [] (load_tests sample_files)).
Proof.
  apply (loaded_tests_are_the_written_ones sample_files). reflexivity.
Defined.

Lemma filter_keep_returns (p : string) (category : option string)
    (t c : pyval) :
  getitem t "_category" = Ok c -> platforms_listed t ->
  exists keep, filter_keep p category None t = Ok keep.
Proof.
  intros Hc Hp. destruct t as [| | | | | d]; try discriminate.
  unfold filter_keep. cbn [dict_get].
  assert (Hlist : exists tags,
            match lookup "platforms" d with
            | Some x => Ok x
            | None => Ok (PList [PStr "all"])
            end = Ok (PList tags)).
  { destruct (lookup "platforms" d) as [v |] eqn:Hl; [| eauto].
    destruct (Hp v) as [tags ->]; [cbn [getitem]; now rewrite Hl | eauto]. }
  destruct Hlist as [tags ->]. cbn [rbind str_in].
  destruct (existsb (fun x => eq_str x p) tags); cbn [rbind negb andb].
  - rewrite Hc. cbn [rbind truthy_opt].
    destruct (truthy_opt category); cbn [rbind].
    + destruct (negb _); eauto.
    + eauto.
  - destruct (existsb (fun x => eq_str x "all") tags); cbn [negb];
      [| eauto].
    rewrite Hc. cbn [rbind truthy_opt].
    destruct (truthy_opt category); cbn [rbind].
    + destruct (negb _); eauto.
    + eauto.
Qed.

(** X23. A catalog that loads can be selected from: when [platforms], where a
    file's test has it, is a list, [filter_tests] by platform and category
    returns on the loaded tests, whatever the files say about categories. *)
Theorem loaded_catalog_can_be_filtered (files : list (string * result pyval))
    (tests : list pyval) (p : string) (category : option string) :
  load_tests files = Ok tests ->
  Forall platforms_listed (tests_as_written files) ->
  exists out, filter_tests tests p category None = Ok out.
Proof.
  intros Hload Hwritten.
  assert (Htags : forall t, In t tests ->
            exists c, getitem t "_category" = Ok c).
  { intros t Ht.
    destruct (load_tests_tags files tests Hload t Ht)
      as (_ & _ & c & _ & _ & _ & _ & Hc & _).
    eauto. }
  assert (Hlisted : Forall platforms_listed tests).
  { pose proof (load_tests_written files tests Hload) as Hcopy.
    clear - Hcopy Hwritten.
    induction Hcopy as [| o t os ts Hot _ IH]; [constructor |].
    inversion Hwritten as [| ? ? Ho Hos]; subst.
    constructor; [| auto].
    intros v Hv. apply Ho. rewrite <- Hot; [assumption | discriminate ..]. }
  clear Hload Hwritten.
  induction tests as [| t rest IH]; [now exists [] |].
  cbn [filter_tests]. inversion Hlisted as [| ? ? Ht Hrest]; subst.
  destruct (Htags t (or_introl eq_refl)) as [c Hc].
  destruct (filter_keep_returns p category t c Hc Ht) as [keep ->].
  destruct IH as [out ->]; [intros; apply Htags; now right | assumption |].
  cbn [rbind]. eauto.
Qed.

Lemma loaded_catalog_can_be_filtered_witness :
  exists out,
    filter_tests (value_or [] (load_tests sample_files)) "linux"
      (Some "serial") None = Ok out.
Proof.
  apply (loaded_catalog_can_be_filtered sample_files).
  - reflexivity.
  - repeat constructor; intros v; cbn; intros [= <-] || discriminate; eauto.
Defined.

(** ** Sessions that skip the infrastructure *)

Lemma docker_idle_refl (w : world) : docker_idle w w.
Proof. unfold docker_idle. auto. Qed.

Lemma docker_idle_trans (a b c : world) :
  docker_idle a b -> docker_idle b c -> docker_idle a c.
Proof.
  unfold docker_idle. intros Hab Hbc Ha.
  destruct (Hab Ha) as [Hb Hd]. destruct (Hbc Hb) as [Hc Hd'].
  split; congruence.
Qed.

Lemma docker_idle_same_infra {A} (m : M A) :
  (forall w, infra (snd (m w)) = infra w) -> keeps docker_idle m.
Proof. intros H w Hskip. rewrite H. auto. Qed.

Lemma docker_idle_ask {A} (f : nat -> A) : keeps docker_idle (ask f).
Proof. now apply docker_idle_same_infra. Qed.

Lemma docker_idle_call {A} (f : nat -> result A) :
  keeps docker_idle (call f).
Proof. now apply docker_idle_same_infra. Qed.

Lemma docker_idle_sleep : keeps docker_idle sleep.
Proof. now apply docker_idle_same_infra. Qed.

Lemma docker_idle_print (s : string) : keeps docker_idle (print s).
Proof. now apply docker_idle_same_infra. Qed.

Lemma docker_idle_get_input (p : string) : keeps docker_idle (get_input p).
Proof.
  apply docker_idle_same_infra. intros w. unfold get_input.
  destruct (stdin w) as [| [s | |] rest]; reflexivity.
Qed.

Lemma docker_idle_self : keeps docker_idle self.
Proof. now apply docker_idle_same_infra. Qed.

Lemma docker_idle_set_socat_proc (p : option Z) :
  keeps docker_idle (set_socat_proc p).
Proof. intros w Hskip. cbn. auto. Qed.

Lemma docker_idle_record_write (path : string) (doc : pyval) :
  keeps docker_idle (fun w => (Ok tt, record_write path doc w)).
Proof. now apply docker_idle_same_infra. Qed.

Ltac docker_idle_with known :=
  repeat first
    [ known
    | assumption
    | apply docker_idle_ask
    | apply docker_idle_call
    | apply docker_idle_sleep
    | apply docker_idle_print
    | apply docker_idle_get_input
    | apply docker_idle_self
    | apply docker_idle_set_socat_proc
    | apply docker_idle_record_write
    | apply (keeps_ret docker_idle docker_idle_refl)
    | apply (keeps_raise docker_idle docker_idle_refl)
    | apply (keeps_lift docker_idle docker_idle_refl)
    | apply (keeps_bind docker_idle docker_idle_trans); [| intros ?]
    | apply (keeps_try docker_idle docker_idle_trans); [| intros ?]
    | apply keeps_if
    | apply (keeps_for_each docker_idle docker_idle_refl docker_idle_trans);
      intros ?
    | match goal with
      | |- keeps _ (match ?x with _ => _ end) => destruct x
      | |- keeps _ (let (_, _) := ?x in _) => destruct x
      end ].

Ltac docker_idle := docker_idle_with fail.

Lemma docker_idle_failed_with_note (note : option string) :
  keeps docker_idle (failed_with_note note).
Proof. unfold failed_with_note. docker_idle. Qed.

Lemma docker_idle_confirm_checks (all_passed : bool) (note : option string) :
  keeps docker_idle (confirm_checks all_passed note).
Proof.
  unfold confirm_checks.
  docker_idle_with ltac:(apply docker_idle_failed_with_note).
Qed.

Lemma docker_idle_combined_prompt (E : env) (v : pyval)
    (note : option string) :
  keeps docker_idle (combined_prompt E v note).
Proof.
  unfold combined_prompt.
  docker_idle_with ltac:(apply docker_idle_failed_with_note).
Qed.

Lemma docker_idle_run_verification (E : env) (v : pyval) :
  keeps docker_idle (run_verification E v).
Proof.
  apply docker_idle_same_infra. intros w.
  apply (only_calls_run_verification_rec E _ v w).
Qed.

Lemma docker_idle_get_test_result (E : env) (test : pyval) :
  keeps docker_idle (get_test_result E test).
Proof.
  assert (Hloop : forall fuel t note,
            keeps docker_idle (get_test_result_loop E fuel t note)).
  { induction fuel as [| fuel IH]; intros t note;
      cbn [get_test_result_loop];
      docker_idle_with
        ltac:(first [ apply docker_idle_failed_with_note
                    | apply docker_idle_run_verification
                    | apply docker_idle_confirm_checks
                    | apply docker_idle_combined_prompt
                    | apply IH ]). }
  intros w. apply Hloop.
Qed.

Lemma docker_idle_print_test_card (E : env) (test : pyval) (i total : Z) :
  keeps docker_idle (print_test_card E test i total).
Proof. unfold print_test_card, print_box. docker_idle. Qed.

Lemma docker_idle_start_docker (E : env) : keeps docker_idle (start_docker E).
Proof.
  intros w Hskip. unfold start_docker, bind, self. rewrite Hskip.
  cbn. auto.
Qed.

Lemma docker_idle_start_serial (E : env) : keeps docker_idle (start_serial E).
Proof.
  assert (Hlinks : forall todo a b,
            keeps docker_idle (wait_for_links E todo a b)).
  { induction todo as [| todo IH]; intros a b; cbn [wait_for_links];
      docker_idle_with ltac:(apply IH). }
  unfold start_serial, check_serial, remove_if_exists.
  docker_idle_with ltac:(apply Hlinks).
Qed.

Lemma docker_idle_resolve_prerequisite (E : env) (prereq : pyval) :
  keeps docker_idle (resolve_prerequisite E prereq).
Proof.
  unfold resolve_prerequisite.
  docker_idle_with ltac:(first [ apply docker_idle_start_docker
                               | apply docker_idle_start_serial ]).
Qed.

Lemma docker_idle_build_report (E : env) (results : list pyval)
    (plat arch os_version : string) (start_time : instant) :
  keeps docker_idle (build_report E results plat arch os_version start_time).
Proof. unfold build_report. docker_idle. Qed.

Lemma docker_idle_save_report (E : env) (report : pyval) (dir : string) :
  keeps docker_idle (save_report E report dir).
Proof. unfold save_report. docker_idle. Qed.

Lemma docker_idle_run_test (E : env)
    (plat arch os_version report_dir : string) (start_time : instant)
    (completed_ids : list pyval) (total : Z) (results : list pyval) (i : Z)
    (t : pyval) :
  keeps docker_idle
    (run_test E plat arch os_version report_dir start_time completed_ids
       total results i t).
Proof.
  unfold run_test.
  docker_idle_with
    ltac:(first [ apply docker_idle_resolve_prerequisite
                | apply docker_idle_print_test_card
                | apply docker_idle_get_test_result
                | apply docker_idle_build_report
                | apply docker_idle_save_report ]).
Qed.

Lemma docker_idle_test_loop (E : env)
    (plat arch os_version report_dir : string) (start_time : instant)
    (completed_ids : list pyval) (total : Z) (tests : list pyval) :
  forall results i,
    keeps docker_idle
      (test_loop E plat arch os_version report_dir start_time completed_ids
         total results i tests).
Proof.
  induction tests as [| t rest IH]; intros results i; cbn [test_loop];
    docker_idle_with ltac:(first [ apply docker_idle_run_test | apply IH ]).
Qed.

Lemma docker_idle_mark_not_run (E : env) (tests : list pyval) :
  forall results, keeps docker_idle (mark_not_run E results tests).
Proof.
  induction tests as [| t rest IH]; intros results; cbn [mark_not_run];
    docker_idle_with ltac:(apply IH).
Qed.

Lemma docker_idle_run_session (E : env)
    (plat arch os_version report_dir : string)
    (completed_ids filtered : list pyval) :
  keeps docker_idle
    (run_session E plat arch os_version report_dir completed_ids filtered).
Proof.
  unfold run_session, mark_remaining.
  docker_idle_with
    ltac:(first [ apply docker_idle_test_loop
                | apply docker_idle_mark_not_run
                | apply docker_idle_build_report
                | apply docker_idle_save_report ]).
Qed.

(** X24. A session with [skip_infra] set never marks the Docker stack started,
    whatever the tests ask for and however the session ends: after the
    test loop, the marking of the remaining tests and the final report,
    [docker_started] is what it was. *)
Theorem skipping_session_leaves_docker (E : env)
    (plat arch os_version report_dir : string)
    (completed_ids filtered : list pyval) (w w' : world)
    (r : result (list pyval * string)) :
  skip_infra (infra w) = true ->
  run_session E plat arch os_version report_dir completed_ids filtered w
  = (r, w') ->
  skip_infra (infra w') = true /\
  docker_started (infra w') = docker_started (infra w).
Proof.
  intros Hskip Hrun.
  exact (keeps_at docker_idle _ _ _ _
           (docker_idle_run_session E plat arch os_version report_dir
              completed_ids filtered) Hrun Hskip).
Qed.

Lemma skipping_session_leaves_docker_witness :
  skip_infra (infra (snd skipping_session)) = true /\
  docker_started (infra (snd skipping_session))
  = docker_started (infra (skipping_world [Line "p"])).
Proof.
  apply (skipping_session_leaves_docker docker_env "linux" "x86_64" "Linux"
           "/reports" [] [docker_test] (skipping_world [Line "p"]) _
           (fst skipping_session)).
  - reflexivity.
  - unfold skipping_session. apply surjective_pairing.
Defined.

(** ** Probing for Docker *)



(** ** Tearing down *)

Lemma succeeds_ret {A} (a : A) : succeeds (ret a).
Proof. intros w. now exists a. Qed.

Lemma succeeds_ask {A} (f : nat -> A) : succeeds (ask f).
Proof. intros w. now eexists. Qed.

Lemma succeeds_print (s : string) : succeeds (print s).
Proof. intros w. now exists tt. Qed.

Lemma succeeds_bind {A B} (m : M A) (k : A -> M B) :
  succeeds m -> (forall a, succeeds (k a)) -> succeeds (bind m k).
Proof.
  intros Hm Hk w. unfold bind. destruct (Hm w) as [a Ha].
  destruct (m w) as [r w1]. cbn [fst] in Ha. subst r. apply Hk.
Qed.

Lemma succeeds_call {A} (f : nat -> result A) :
  (forall n, exists a, f n = Ok a) -> succeeds (call f).
Proof. intros Hf w. apply Hf. Qed.

Lemma succeeds_for_each {A} (body : A -> M unit) (items : list A) :
  (forall x, succeeds (body x)) -> succeeds (for_each body items).
Proof.
  intros Hb. induction items as [| x rest IH]; cbn [for_each].
  - apply succeeds_ret.
  - apply succeeds_bind; [apply Hb | intros _; apply IH].
Qed.

Lemma succeeds_stop_process (H : host) (p : Z) :
  stoppable H -> succeeds (stop_process H p).
Proof.
  intros (Hterm & Hkill & Hwait) w.
  unfold stop_process, bind, call, try_except, ret. rewrite Hterm.
  cbn [tick bump].
  destruct (proc_wait H (S (tick w)) p 5) as [status | e] eqn:Hw.
  - now exists tt.
  - destruct e as [cls msg]. apply Hwait in Hw. cbn [exn_cls] in Hw.
    subst cls. cbn [caught existsb exn_cls issubclass exn_class_eqb orb].
    cbn [tick bump]. rewrite Hkill. now exists tt.
Qed.

Lemma succeeds_remove_if_exists (E : env) (p : string) :
  tidy E -> succeeds (remove_if_exists E p).
Proof.
  intros [Hrm _]. unfold remove_if_exists.
  apply succeeds_bind; [apply succeeds_ask |]. intros [].
  - apply succeeds_call. intros n. rewrite Hrm. now exists tt.
  - apply succeeds_ret.
Qed.

Lemma only_calls_and_prints_refl (w : world) : only_calls_and_prints w w.
Proof. unfold only_calls_and_prints. auto. Qed.

Lemma only_calls_and_prints_trans (a b c : world) :
  only_calls_and_prints a b -> only_calls_and_prints b c ->
  only_calls_and_prints a c.
Proof. unfold only_calls_and_prints. intuition congruence. Qed.

Lemma same_output_refl (w : world) : same_output w w.
Proof. reflexivity. Qed.

Lemma same_output_trans (a b c : world) :
  same_output a b -> same_output b c -> same_output a c.
Proof. unfold same_output. congruence. Qed.

(** The steps of a proof that a computation keeps [R], given that [R] is
    reflexive and transitive; [known] settles the calls. *)
Ltac keeps_with Rrefl Rtrans known :=
  repeat first
    [ known
    | assumption
    | apply (keeps_ret _ Rrefl)
    | apply (keeps_raise _ Rrefl)
    | apply (keeps_lift _ Rrefl)
    | apply (keeps_bind _ Rtrans); [| intros ?]
    | apply (keeps_try _ Rtrans); [| intros ?]
    | apply keeps_if
    | apply (keeps_for_each _ Rrefl Rtrans); intros ?
    | match goal with
      | |- keeps _ (match ?x with _ => _ end) => destruct x
      | |- keeps _ (let (_, _) := ?x in _) => destruct x
      end ].

Ltac by_computation :=
  solve [ intros ?; unfold only_calls_and_prints, same_output; cbn; auto ].

Lemma only_calls_and_prints_cleanup (E : env) (H : host) :
  keeps only_calls_and_prints (cleanup E H).
Proof.
  unfold cleanup, stop_process, remove_if_exists, rmtree.
  keeps_with only_calls_and_prints_refl only_calls_and_prints_trans
    ltac:(first [ by_computation ]).
Qed.

(** X26. [cleanup] stops what was started but keeps the record of it: the
    process handles, [docker_started] and [config_dir] are after the call
    what they were before, and nothing is read or written. *)
Theorem cleanup_keeps_the_record (E : env) (H : host) (w : world) :
  infra (snd (cleanup E H w)) = infra w /\
  stdin (snd (cleanup E H w)) = stdin w /\
  written (snd (cleanup E H w)) = written w.
Proof.
  destruct (only_calls_and_prints_cleanup E H w) as (? & ? & ?). auto.
Qed.

Lemma succeeds_cleanup (E : env) (H : host) :
  stoppable H -> tidy E -> succeeds (cleanup E H).
Proof.
  intros Hstop Htidy. unfold cleanup.
  apply succeeds_bind; [intros w; now eexists |]. intros me.
  apply succeeds_bind.
  { destruct (socat_proc me) as [p |]; [| apply succeeds_ret].
    apply succeeds_bind; [apply succeeds_ask |]. intros [status |];
      [apply succeeds_ret |].
    apply succeeds_bind; [now apply succeeds_stop_process |]. intros _.
    apply succeeds_for_each. intros x. now apply succeeds_remove_if_exists. }
  intros _. apply succeeds_bind.
  { destruct (app_proc me) as [p |]; [| apply succeeds_ret].
    apply succeeds_bind; [apply succeeds_ask |]. intros [status |];
      [apply succeeds_ret | now apply succeeds_stop_process]. }
  intros _. apply succeeds_bind.
  { destruct (docker_started me && negb (keep_infra me)).
    - apply succeeds_bind; [apply succeeds_print |]. intros _.
      apply succeeds_bind; [| intros _; apply succeeds_ret].
      apply succeeds_call. intros n. apply Htidy.
    - destruct (keep_infra me && docker_started me);
        [apply succeeds_print | apply succeeds_ret]. }
  intros _. destruct (config_dir me) as [dir |]; [| apply succeeds_ret].
  destruct (negb (dir =? "")%string); [| apply succeeds_ret].
  apply succeeds_bind; [apply succeeds_ask |]. intros [];
    [intros w; now exists tt | apply succeeds_ret].
Qed.

(** X27. A process that does not stop in time does not stop [cleanup]: when
    [terminate] and [kill] go through, a [wait] fails only by timing out,
    and files can be removed and commands run, [cleanup] returns. *)
Theorem cleanup_survives_timeouts (E : env) (H : host) (w : world) :
  stoppable H -> tidy E -> fst (cleanup E H w) = Ok tt.
Proof.
  intros Hstop Htidy.
  destruct (succeeds_cleanup E H Hstop Htidy w) as [[] Hok]. exact Hok.
Qed.

Lemma cleanup_survives_timeouts_witness :
  stoppable stubborn_host /\ tidy docker_env /\
  fst (cleanup docker_env stubborn_host busy_world) = Ok tt.
Proof.
  assert (Hs : stoppable stubborn_host).
  { repeat split. intros n p t e [= <-]. reflexivity. }
  assert (Ht : tidy docker_env).
  { split; [reflexivity |]. intros n argv. now eexists. }
  split; [exact Hs |]. split; [exact Ht |].
  apply (cleanup_survives_timeouts docker_env stubborn_host busy_world Hs Ht).
Defined.

Lemma same_output_quiet_cleanup (E : env) (H : host) (w : world) :
  docker_started (infra w) = false ->
  same_output w (snd (cleanup E H w)).
Proof.
  intros Hidle. unfold cleanup, bind at 1, self. cbv beta iota.
  remember (infra w) as me eqn:Hme. rewrite Hidle. cbn [andb].
  rewrite andb_false_r.
  match goal with
  | |- same_output w (snd (?m w)) => enough (Hk : keeps same_output m)
                                       by apply Hk
  end.
  unfold stop_process, remove_if_exists, rmtree.
  keeps_with same_output_refl same_output_trans ltac:(first [ by_computation ]).
Qed.

(** X28. After a session with [skip_infra] set on an infrastructure whose
    Docker stack was not started, [cleanup] announces nothing: it neither
    stops nor keeps any containers. *)
Theorem skipping_session_cleans_up_quietly (E : env) (H : host)
    (plat arch os_version report_dir : string)
    (completed_ids filtered : list pyval) (w w' : world)
    (r : result (list pyval * string)) :
  skip_infra (infra w) = true ->
  docker_started (infra w) = false ->
  run_session E plat arch os_version report_dir completed_ids filtered w
  = (r, w') ->
  stdout (snd (cleanup E H w')) = stdout w'.
Proof.
  intros Hskip Hidle Hrun. apply same_output_quiet_cleanup.
  destruct (keeps_at docker_idle _ _ _ _
              (docker_idle_run_session E plat arch os_version report_dir
                 completed_ids filtered) Hrun Hskip) as [_ Hd].
  congruence.
Qed.

Lemma skipping_session_cleans_up_quietly_witness :
  stdout (snd (cleanup docker_env obliging_host (snd skipping_session)))
  = stdout (snd skipping_session).
Proof.
  apply (skipping_session_cleans_up_quietly docker_env obliging_host
           "linux" "x86_64" "Linux" "/reports" [] [docker_test]
           (skipping_world [Line "p"]) _ (fst skipping_session)).
  - reflexivity.
  - reflexivity.
  - unfold skipping_session. apply surjective_pairing.
Defined.
